(** * tpm-read-write.py: a key-value store on TPM NV indices

    A shallow embedding of [src/tpm-read-write.py].  The script drives the
    tpm2-tools command line programs through [subprocess.run]; here every
    function of the script is a computation in a small monad that threads the
    device state, records each command that is issued (and each line that is
    printed) and propagates Python exceptions.

    The TPM and the YAML parser are not part of the script: they are fields
    of an environment record [Env] and the theorems quantify over it.  A
    reference environment (a small NV store that answers the command lines
    shown in the header comments of the script) is used to run the script on
    concrete inputs. *)

From Stdlib Require Import ZArith List Bool Lia String Ascii.
From Stdlib Require Import DecimalString HexadecimalString.
Import ListNotations.
Local Open Scope Z_scope.

Set Implicit Arguments.

(* ================================================================== *)
(** * Python data *)

(** A Python [str] is a sequence of Unicode code points, [bytes] a sequence
    of integers in [0, 256). *)
Definition pystr := list Z.
Definition pybytes := list Z.

(** String literals of the script. *)
Definition py (s : string) : pystr :=
  map (fun a => Z.of_N (N_of_ascii a)) (list_ascii_of_string s).

Fixpoint pystr_eqb (s t : pystr) : bool :=
  match s, t with
  | [], [] => true
  | a :: s', b :: t' => (a =? b) && pystr_eqb s' t'
  | _, _ => false
  end.

(** The values that [yaml.safe_load_all] hands to the script and that
    [hexify] walks over.  [PyHexInt] is an instance of the subclass [HexInt]
    of [int]; a dictionary keeps its insertion order, so it is a list of
    pairs. *)
#[warnings="-register-all"] Inductive pyval : Type :=
| PyNone
| PyBool (b : bool)
| PyInt (z : Z)
| PyHexInt (z : Z)
| PyStr (s : pystr)
| PyList (l : list pyval)
| PyTuple (l : list pyval)
| PySet (l : list pyval)
| PyDict (kv : list (pyval * pyval)).

(** [isinstance(obj, int)] with the integer it stands for ([bool] is a
    subclass of [int]). *)
Definition as_int (v : pyval) : option Z :=
  match v with
  | PyBool b => Some (if b then 1 else 0)
  | PyInt z => Some z
  | PyHexInt z => Some z
  | _ => None
  end.

(** First value stored under a key that satisfies [p]. *)
Fixpoint assoc_find (p : pyval -> bool) (kv : list (pyval * pyval))
  : option pyval :=
  match kv with
  | [] => None
  | (k, v) :: kv' => if p k then Some v else assoc_find p kv'
  end.

(** Python's [==] on these values. *)
Fixpoint py_eq (a b : pyval) {struct a} : bool :=
  match a with
  | PyNone => match b with PyNone => true | _ => false end
  | PyBool x =>
      match as_int b with Some z => (if x then 1 else 0) =? z | None => false end
  | PyInt x => match as_int b with Some z => x =? z | None => false end
  | PyHexInt x => match as_int b with Some z => x =? z | None => false end
  | PyStr s => match b with PyStr t => pystr_eqb s t | _ => false end
  | PyList l =>
      match b with
      | PyList m =>
          (fix seq_eq (l m : list pyval) {struct l} : bool :=
             match l, m with
             | [], [] => true
             | x :: l', y :: m' => py_eq x y && seq_eq l' m'
             | _, _ => false
             end) l m
      | _ => false
      end
  | PyTuple l =>
      match b with
      | PyTuple m =>
          (fix seq_eq (l m : list pyval) {struct l} : bool :=
             match l, m with
             | [], [] => true
             | x :: l', y :: m' => py_eq x y && seq_eq l' m'
             | _, _ => false
             end) l m
      | _ => false
      end
  | PySet l =>
      match b with
      | PySet m =>
          (List.length l =? List.length m)%nat &&
          (fix all_in (l : list pyval) : bool :=
             match l with
             | [] => true
             | x :: l' => existsb (py_eq x) m && all_in l'
             end) l
      | _ => false
      end
  | PyDict l =>
      match b with
      | PyDict m =>
          (List.length l =? List.length m)%nat &&
          (fix all_in (l : list (pyval * pyval)) : bool :=
             match l with
             | [] => true
             | (k, v) :: l' =>
                 match assoc_find (py_eq k) m with
                 | Some v' => py_eq v v'
                 | None => false
                 end && all_in l'
             end) l
      | _ => false
      end
  end.

(** [d[k] = v]: an equal key keeps its place and its key object, and gets
    the new value; a new key goes to the end. *)
Fixpoint dict_set (d : list (pyval * pyval)) (k v : pyval)
  : list (pyval * pyval) :=
  match d with
  | [] => [(k, v)]
  | (k', v') :: d' =>
      if py_eq k' k then (k', v) :: d' else (k', v') :: dict_set d' k v
  end.

(** [s.add(x)]. *)
Fixpoint set_add (s : list pyval) (x : pyval) : list pyval :=
  match s with
  | [] => [x]
  | y :: s' => if py_eq y x then y :: s' else y :: set_add s' x
  end.

(** [hexify], lines 76-89. *)
Fixpoint hexify (obj : pyval) : pyval :=
  match obj with
  | PyBool b => PyBool b
  | PyInt z => PyHexInt z
  | PyHexInt z => PyHexInt z
  | PyDict kv =>
      PyDict (fold_left
                (fun acc (e : pyval * pyval) =>
                   let (k, v) := e in dict_set acc (hexify k) (hexify v))
                kv [])
  | PyList l => PyList (map hexify l)
  | PyTuple l => PyTuple (map hexify l)
  | PySet l => PySet (fold_left (fun acc x => set_add acc (hexify x)) l [])
  | PyNone => PyNone
  | PyStr s => PyStr s
  end.

(** Values that Python can build: the keys of a dictionary and the members
    of a set are hashable and pairwise different. *)
Fixpoint hashable (v : pyval) : bool :=
  match v with
  | PyNone | PyBool _ | PyInt _ | PyHexInt _ | PyStr _ => true
  | PyTuple l => forallb hashable l
  | PyList _ | PySet _ | PyDict _ => false
  end.

Fixpoint distinct (l : list pyval) : bool :=
  match l with
  | [] => true
  | x :: l' => negb (existsb (py_eq x) l') && distinct l'
  end.

Fixpoint well_formed (v : pyval) : bool :=
  match v with
  | PyNone | PyBool _ | PyInt _ | PyHexInt _ | PyStr _ => true
  | PyList l => forallb well_formed l
  | PyTuple l => forallb well_formed l
  | PySet l => forallb hashable l && distinct l
  | PyDict kv =>
      forallb hashable (map fst kv) && distinct (map fst kv)
      && forallb (fun e : pyval * pyval => well_formed (snd e)) kv
  end.

(* ================================================================== *)
(** * Text *)

(** [str(n)] and [hex(n)] for an [int]; [f"{n:x}"] is [hex] without its
    prefix. *)
Definition str_int (z : Z) : pystr :=
  py (DecimalString.NilZero.string_of_int (Z.to_int z)).

Definition format_x (z : Z) : pystr :=
  py (HexadecimalString.NilZero.string_of_int (Z.to_hex_int z)).

Definition hex (z : Z) : pystr :=
  if z <? 0 then py "-0x" ++ format_x (- z) else py "0x" ++ format_x z.

(** [s.join(parts)]. *)
Fixpoint join (sep : pystr) (parts : list pystr) : pystr :=
  match parts with
  | [] => []
  | [p] => p
  | p :: ps => p ++ sep ++ join sep ps
  end.

Section Repr.
(** [repr] of a [str] depends on the Unicode character database; it is a
    parameter. *)
Variable repr_str : pystr -> pystr.

(** [repr(v)].  A set is printed in the order of its list. *)
Fixpoint py_repr (v : pyval) : pystr :=
  match v with
  | PyNone => py "None"
  | PyBool b => if b then py "True" else py "False"
  | PyInt z => str_int z
  | PyHexInt z => hex z
  | PyStr s => repr_str s
  | PyList l => py "[" ++ join (py ", ") (map py_repr l) ++ py "]"
  | PyTuple l =>
      match l with
      | [x] => py "(" ++ py_repr x ++ py ",)"
      | _ => py "(" ++ join (py ", ") (map py_repr l) ++ py ")"
      end
  | PySet l =>
      match l with
      | [] => py "set()"
      | _ => py "{" ++ join (py ", ") (map py_repr l) ++ py "}"
      end
  | PyDict kv =>
      py "{" ++
      join (py ", ")
        (map (fun e : pyval * pyval =>
                let (k, x) := e in py_repr k ++ py ": " ++ py_repr x) kv)
      ++ py "}"
  end.

(** [str(v)]: [int] and its subclasses have no [__str__] of their own, so
    [str] of a [HexInt] is its [__repr__]. *)
Definition py_str (v : pyval) : pystr :=
  match v with
  | PyStr s => s
  | _ => py_repr v
  end.
End Repr.

(** [c.isspace()]. *)
Definition isspace (c : Z) : bool :=
  ((0x09 <=? c) && (c <=? 0x0D)) || ((0x1C <=? c) && (c <=? 0x20))
  || (c =? 0x85) || (c =? 0xA0) || (c =? 0x1680)
  || ((0x2000 <=? c) && (c <=? 0x200A))
  || (c =? 0x2028) || (c =? 0x2029) || (c =? 0x202F) || (c =? 0x205F)
  || (c =? 0x3000).

Fixpoint lstrip (s : pystr) : pystr :=
  match s with
  | c :: s' => if isspace c then lstrip s' else s
  | [] => []
  end.

(** [s.strip()]. *)
Definition strip (s : pystr) : pystr := rev (lstrip (rev (lstrip s))).

(** ** UTF-8 *)

Definition is_surrogate (c : Z) : bool := (0xD800 <=? c) && (c <=? 0xDFFF).

Definition utf8_encode_char (c : Z) : option pybytes :=
  if c <? 0 then None
  else if c <? 0x80 then Some [c]
  else if c <? 0x800 then Some [0xC0 + c / 64; 0x80 + c mod 64]
  else if is_surrogate c then None
  else if c <? 0x10000 then
    Some [0xE0 + c / 4096; 0x80 + (c / 64) mod 64; 0x80 + c mod 64]
  else if c <? 0x110000 then
    Some [0xF0 + c / 262144; 0x80 + (c / 4096) mod 64;
          0x80 + (c / 64) mod 64; 0x80 + c mod 64]
  else None.

(** [s.encode("utf-8")]; [None] is [UnicodeEncodeError]. *)
Fixpoint utf8_encode (s : pystr) : option pybytes :=
  match s with
  | [] => Some []
  | c :: s' =>
      match utf8_encode_char c, utf8_encode s' with
      | Some b, Some bs => Some (b ++ bs)
      | _, _ => None
      end
  end.

Definition is_cont (b : Z) : bool := (0x80 <=? b) && (b <=? 0xBF).

Definition prepend (c : Z) (r : option pystr) : option pystr :=
  match r with Some s => Some (c :: s) | None => None end.

(** [b.decode()], the strict UTF-8 decoder; [None] is
    [UnicodeDecodeError]. *)
Fixpoint utf8_decode (bs : pybytes) : option pystr :=
  match bs with
  | [] => Some []
  | b0 :: r0 =>
      if (0 <=? b0) && (b0 <? 0x80) then prepend b0 (utf8_decode r0)
      else
        match r0 with
        | [] => None
        | b1 :: r1 =>
            if (0xC2 <=? b0) && (b0 <=? 0xDF) then
              if is_cont b1
              then prepend ((b0 - 0xC0) * 64 + (b1 - 0x80)) (utf8_decode r1)
              else None
            else
              match r1 with
              | [] => None
              | b2 :: r2 =>
                  if (0xE0 <=? b0) && (b0 <=? 0xEF) then
                    if is_cont b1 && is_cont b2
                       && negb ((b0 =? 0xE0) && (b1 <? 0xA0))
                       && negb ((b0 =? 0xED) && (0xA0 <=? b1))
                    then prepend ((b0 - 0xE0) * 4096 + (b1 - 0x80) * 64
                                  + (b2 - 0x80)) (utf8_decode r2)
                    else None
                  else
                    match r2 with
                    | [] => None
                    | b3 :: r3 =>
                        if (0xF0 <=? b0) && (b0 <=? 0xF4) then
                          if is_cont b1 && is_cont b2 && is_cont b3
                             && negb ((b0 =? 0xF0) && (b1 <? 0x90))
                             && negb ((b0 =? 0xF4) && (0x90 <=? b1))
                          then prepend ((b0 - 0xF0) * 262144
                                        + (b1 - 0x80) * 4096
                                        + (b2 - 0x80) * 64 + (b3 - 0x80))
                                       (utf8_decode r3)
                          else None
                        else None
                    end
              end
        end
  end.

(** What [subprocess] does to the output of a child in text mode: decode,
    then turn every line ending into a line feed. *)
Fixpoint translate_newlines (s : pystr) : pystr :=
  match s with
  | 13 :: s' =>
      10 :: match s' with
            | 10 :: s'' => translate_newlines s''
            | _ => translate_newlines s'
            end
  | c :: s' => c :: translate_newlines s'
  | [] => []
  end.

Definition decode_text (b : pybytes) : option pystr :=
  match utf8_decode b with
  | Some s => Some (translate_newlines s)
  | None => None
  end.

(* ================================================================== *)
(** * Exceptions, commands and the monad of the script *)

(** The [assert] statements of the script, by what they check (the message
    of an [AssertionError] is not modelled, the statement that raised it
    is). *)
Inductive assert_site : Type :=
| RandomLength        (* line 142, tpm_sanity_check *)
| IndexExists         (* line 153, tpm_get_nv_index_metadata *)
| KeyInRange          (* line 186, tpm_write, sanity check 1 *)
| FitsBuffer          (* line 195, tpm_write, sanity check 2 *)
| FitsIndex           (* line 198, tpm_write, sanity check 2 *)
| KeyUnused           (* line 203, tpm_write, sanity check 3 *)
| PasswordLength      (* line 208, tpm_write, sanity check 4 *)
| DefineEcho          (* line 224, tpm_write *)
| ReadBack            (* line 236, tpm_write *)
| KeyExists.          (* line 244, tpm_delete_index *)

(** The arguments of the messages that the script formats. *)
Inductive message : Type :=
| CommandFailed (command : list pystr) (returncode : Z)
    (stdout stderr : pybytes)                (* run_command, lines 102-107 *)
| YamlCommandFailed (command : list pystr) (err : pystr)      (* line 124 *)
| WroteToStderr (command : list pystr) (stderr : pystr).      (* line 126 *)

Inductive pyexn : Type :=
| AssertionError (site : assert_site)
| RuntimeError (msg : message)
| SystemExit (msg : message)
| AttributeError
| TypeError
| UnicodeDecodeError
| UnicodeEncodeError
| YAMLError
| OSError.

(** [isinstance(e, Exception)]: [SystemExit] derives from [BaseException]
    only, so [except Exception] lets it through. *)
Definition is_Exception (e : pyexn) : bool :=
  match e with
  | SystemExit _ => false
  | _ => true
  end.

(** The class of an exception, which is what an [except] clause of a caller
    can select on. *)
Definition same_class (e1 e2 : pyexn) : bool :=
  match e1, e2 with
  | AssertionError _, AssertionError _ => true
  | RuntimeError _, RuntimeError _ => true
  | SystemExit _, SystemExit _ => true
  | AttributeError, AttributeError => true
  | TypeError, TypeError => true
  | UnicodeDecodeError, UnicodeDecodeError => true
  | UnicodeEncodeError, UnicodeEncodeError => true
  | YAMLError, YAMLError => true
  | OSError, OSError => true
  | _, _ => false
  end.

Inductive result (A : Type) : Type :=
| Ok (a : A)
| Raise (e : pyexn).
Arguments Raise {A} e.

(** What [subprocess.run(command, capture_output=True, input=...)] finds
    when the child is over: it ran and exited, or it could not be run at all
    (the program is not installed, for instance) and an [OSError] is
    raised. *)
Inductive proc_outcome : Type :=
| Exited (returncode : Z) (stdout stderr : pybytes)
| NotStarted.

(** The world outside the script. *)
Record Env : Type := {
  Device : Type;
  (** one child process: argument vector, standard input, device before;
      outcome and device after *)
  spawn : list pystr -> option pybytes -> Device -> proc_outcome * Device;
  (** [list(yaml.safe_load_all(text))]; [None] is [yaml.YAMLError] *)
  yaml_safe_load_all : pystr -> option (list pyval);
  (** [repr] of a [str] *)
  repr_str : pystr -> pystr
}.

(** What the script does that can be seen from outside. *)
Inductive event : Type :=
| Ran (command : list pystr) (input : option pybytes) (outcome : proc_outcome)
| Printed (line : pystr).

Definition command_of (ev : event) : list pystr :=
  match ev with
  | Ran c _ _ => c
  | Printed _ => []
  end.

(** The program that an event ran ([[]] for a printed line). *)
Definition program_of (ev : event) : pystr := hd [] (command_of ev).

Definition runs (prog : string) (ev : event) : bool :=
  pystr_eqb (program_of ev) (py prog).

(** The commands that change the NV store: define, write, undefine. *)
Definition mutating (ev : event) : bool :=
  runs "tpm2_nvdefine" ev || runs "tpm2_nvwrite" ev
  || runs "tpm2_nvundefine" ev.

(** The commands that only query the NV store. *)
Definition is_query (command : list pystr) : bool :=
  let prog := hd [] command in
  pystr_eqb prog (py "tpm2_getcap") || pystr_eqb prog (py "tpm2_nvreadpublic")
  || pystr_eqb prog (py "tpm2_nvread").

Section Script.
Variable E : Env.

(** The end of a computation: its result, the device as it left it, and
    what it did, oldest first. *)
Record outcome (A : Type) : Type := Outcome {
  res : result A;
  dev : Device E;
  trace : list event
}.

Definition M (A : Type) : Type := Device E -> outcome A.

Definition ret {A} (a : A) : M A := fun d => Outcome (Ok a) d [].

Definition raise {A} (e : pyexn) : M A := fun d => Outcome (Raise e) d [].

Definition bind {A B} (m : M A) (k : A -> M B) : M B :=
  fun d =>
    let o := m d in
    match res o with
    | Ok a =>
        let o' := k a (dev o) in
        Outcome (res o') (dev o') (trace o ++ trace o')
    | Raise e => Outcome (Raise e) (dev o) (trace o)
    end.

(** [try: m except Exception as e: h e]. *)
Definition try_except {A} (m : M A) (h : pyexn -> M A) : M A :=
  fun d =>
    let o := m d in
    match res o with
    | Ok a => o
    | Raise e =>
        if is_Exception e then
          let o' := h e (dev o) in
          Outcome (res o') (dev o') (trace o ++ trace o')
        else o
    end.

Definition lift {A} (r : result A) : M A :=
  match r with Ok a => ret a | Raise e => raise e end.

Definition assert (b : bool) (site : assert_site) : M unit :=
  if b then ret tt else raise (AssertionError site).

Definition print (line : pystr) : M unit :=
  fun d => Outcome (Ok tt) d [Printed line].

(** One child process, recorded in the trace. *)
Definition subprocess (command : list pystr) (input : option pybytes)
  : M proc_outcome :=
  fun d =>
    let (o, d') := spawn E command input d in
    Outcome (Ok o) d' [Ran command input o].
End Script.

Arguments Outcome {E A} res dev trace.
Arguments ret {E A} a.
Arguments raise {E A} e.
Arguments bind {E A B} m k.
Arguments try_except {E A} m h.
Arguments lift {E A} r.
Arguments assert {E} b site.
Arguments print {E} line.

Notation "x <- m ;; k" := (bind m (fun x => k))
  (at level 61, m at next level, right associativity).
Notation "m ;;; k" := (bind m (fun _ => k))
  (at level 61, right associativity).

(* ================================================================== *)
(** * Operations of Python that the script applies to parsed reports *)

(** [obj.get(key)]: only a [dict] has the method. *)
Definition py_get (obj key : pyval) : result pyval :=
  match obj with
  | PyDict kv =>
      match assoc_find (py_eq key) kv with
      | Some v => Ok v
      | None => Ok PyNone
      end
  | _ => Raise AttributeError
  end.

Fixpoint is_prefix (s t : pystr) : bool :=
  match s, t with
  | [], _ => true
  | a :: s', b :: t' => (a =? b) && is_prefix s' t'
  | _ :: _, [] => false
  end.

Fixpoint is_substring (s t : pystr) : bool :=
  is_prefix s t || match t with [] => false | _ :: t' => is_substring s t' end.

(** [x in container]. *)
Definition py_in (x container : pyval) : result bool :=
  match container with
  | PyList l | PyTuple l => Ok (existsb (py_eq x) l)
  | PySet l => if hashable x then Ok (existsb (py_eq x) l) else Raise TypeError
  | PyDict kv =>
      if hashable x then Ok (existsb (py_eq x) (map fst kv))
      else Raise TypeError
  | PyStr t =>
      match x with
      | PyStr s => Ok (is_substring s t)
      | _ => Raise TypeError
      end
  | _ => Raise TypeError
  end.

(** [n <= v] for an [int] [n]. *)
Definition py_int_le (n : Z) (v : pyval) : result bool :=
  match as_int v with
  | Some z => Ok (n <=? z)
  | None => Raise TypeError
  end.

(** [len(s)]. *)
Definition len (s : list Z) : Z := Z.of_nat (List.length s).

(** [if pwd:] is taken for a password that is neither [None] nor empty. *)
Definition truthy (pwd : option pystr) : option pystr :=
  match pwd with
  | Some (c :: s) => Some (c :: s)
  | _ => None
  end.

(** The result of [tpm_read_nvm]: the decoded text or, from its [except]
    branch, the exception object itself. *)
Inductive read_result : Type :=
| Text (s : pystr)
| ExceptionObject (e : pyexn).

(** [r == value] for a [str] [value]. *)
Definition read_eq (r : read_result) (value : pystr) : bool :=
  match r with
  | Text s => pystr_eqb s value
  | ExceptionObject _ => false
  end.

Record CompletedProcess : Type := {
  stdout : pybytes;
  stderr : pybytes
}.

(* ================================================================== *)
(** * The script *)

Section TpmReadWrite.
Variable E : Env.

(** [run_command], lines 93-110.  [exit(err_msg)] raises [SystemExit];
    an exception that is not a [CalledProcessError] has no [returncode],
    so formatting the message raises [AttributeError]. *)
Definition run_command (command : list pystr) (input : option pybytes)
  : M E CompletedProcess :=
  o <- subprocess E command input ;;
  match o with
  | Exited rc out err =>
      if rc =? 0 then ret {| stdout := out; stderr := err |}
      else raise (SystemExit (CommandFailed command rc out err))
  | NotStarted => raise AttributeError
  end.

(** [run_command_yaml], lines 113-135.  In text mode the output is decoded
    before the exit status is looked at. *)
Definition run_command_yaml (command : list pystr) : M E pyval :=
  o <- subprocess E command None ;;
  match o with
  | NotStarted => raise OSError
  | Exited rc out err =>
      match decode_text out, decode_text err with
      | Some out_s, Some err_s =>
          if negb (rc =? 0) then
            raise (RuntimeError (YamlCommandFailed command err_s))
          else
            match err_s with
            | _ :: _ => raise (RuntimeError (WroteToStderr command err_s))
            | [] =>
                match strip out_s with
                | [] => ret PyNone
                | c :: s =>
                    match yaml_safe_load_all E (c :: s) with
                    | None => raise YAMLError
                    | Some docs =>
                        match map hexify docs with
                        | [doc] => ret doc
                        | docs' => ret (PyList docs')
                        end
                    end
                end
            end
      | _, _ => raise UnicodeDecodeError
      end
  end.

(** [tpm_sanity_check], lines 139-142. *)
Definition tpm_sanity_check : M E unit :=
  result <- run_command [py "tpm2_getrandom"; py "8"] None ;;
  assert (len (stdout result) =? 8) RandomLength.

(** [tpm_get_nv_indices], lines 145-147. *)
Definition tpm_get_nv_indices : M E pyval :=
  run_command_yaml [py "tpm2_getcap"; py "handles-nv-index"].

(** [tpm_get_nv_index_metadata], lines 150-157. *)
Definition tpm_get_nv_index_metadata (index : Z) : M E pyval :=
  nv_indices_list <- tpm_get_nv_indices ;;
  present <- lift (py_in (PyInt index) nv_indices_list) ;;
  assert present IndexExists ;;;
  run_command_yaml [py "tpm2_nvreadpublic"; str_int index].

(** The argument vector of the read command, lines 165-168. *)
Definition nvread_command (index : Z) (nvm_length : pyval)
  (pwd : option pystr) : list pystr :=
  let index_str := str_int index in
  [py "tpm2_nvread"; py "-C"; index_str; py "-s";
   py_str (repr_str E) nvm_length; index_str]
  ++ match truthy pwd with
     | Some p => [py "-P"; p]
     | None => []
     end.

(** [tpm_read_nvm], lines 160-176. *)
Definition tpm_read_nvm (index : Z) (pwd : option pystr)
  : M E read_result :=
  nv_index <- tpm_get_nv_index_metadata index ;;
  entry <- lift (py_get nv_index (PyInt index)) ;;
  nvm_length <- lift (py_get entry (PyStr (py "size"))) ;;
  let command := nvread_command index nvm_length pwd in
  try_except
    (result <- run_command command None ;;
     match utf8_decode (stdout result) with
     | Some result_str => ret (Text result_str)
     | None => raise UnicodeDecodeError
     end)
    (fun e =>
       print (py "Failed to read value. Have you not provided the correct required password?") ;;;
       ret (ExceptionObject e)).

(** [tmp_get_hardware_info], lines 179-181. *)
Definition tmp_get_hardware_info : M E pyval :=
  run_command_yaml [py "tpm2_getcap"; py "properties-fixed"].

Definition nv_attributes : pystr := py "authread|authwrite|no_da|orderly".

(** The argument vectors of the define and write commands, lines 214-230. *)
Definition nvdefine_command (key : Z) (value_len : Z) (pwd : option pystr)
  : list pystr :=
  let key_str := py "0x" ++ format_x key in
  match truthy pwd with
  | Some p =>
      [py "tpm2_nvdefine"; py "-C"; py "o"; py "-s"; str_int value_len;
       py "-a"; nv_attributes; py "-p"; p; key_str]
  | None =>
      [py "tpm2_nvdefine"; py "-C"; py "o"; py "-s"; str_int value_len;
       py "-a"; nv_attributes; key_str]
  end.

Definition nvwrite_command (key : Z) (pwd : option pystr) : list pystr :=
  let key_str := py "0x" ++ format_x key in
  match truthy pwd with
  | Some p =>
      [py "tpm2_nvwrite"; py "-C"; key_str; py "-P"; p; py "-i"; py "-";
       key_str]
  | None =>
      [py "tpm2_nvwrite"; py "-C"; key_str; py "-i"; py "-"; key_str]
  end.

(** [tpm_write], lines 184-238. *)
Definition tpm_write (key : Z) (value : pystr) (pwd : option pystr)
  : M E unit :=
  (* sanity check 1 *)
  assert ((0x01800000 <=? key) && (key <=? 0x01BFFFFF)) KeyInRange ;;;
  (* sanity check 2 *)
  let value_len := len value in
  hw_info <- tmp_get_hardware_info ;;
  buffer_max <- lift (py_get hw_info (PyStr (py "TPM2_PT_NV_BUFFER_MAX"))) ;;
  chunk_max_size <- lift (py_get buffer_max (PyStr (py "raw"))) ;;
  fits <- lift (py_int_le value_len chunk_max_size) ;;
  assert fits FitsBuffer ;;;
  index_max <- lift (py_get hw_info (PyStr (py "TPM2_PT_NV_INDEX_MAX"))) ;;
  max_value_len <- lift (py_get index_max (PyStr (py "raw"))) ;;
  fits' <- lift (py_int_le value_len max_value_len) ;;
  assert fits' FitsIndex ;;;
  (* sanity check 3 *)
  nv_indices_list <- tpm_get_nv_indices ;;
  used <- lift (py_in (PyInt key) nv_indices_list) ;;
  assert (negb used) KeyUnused ;;;
  (* sanity check 4 *)
  match truthy pwd with
  | Some p => assert (5 <=? len p) PasswordLength
  | None => ret tt
  end ;;;
  (* create nv index *)
  result <- run_command_yaml (nvdefine_command key value_len pwd) ;;
  result_response <- lift (py_get result (PyStr (py "nv-index"))) ;;
  assert (py_eq result_response (PyInt key)) DefineEcho ;;;
  (* write value *)
  input <- lift (match utf8_encode value with
                 | Some b => Ok b
                 | None => Raise UnicodeEncodeError
                 end) ;;
  run_command (nvwrite_command key pwd) (Some input) ;;;
  (* write was only successful if reading works *)
  r <- tpm_read_nvm key pwd ;;
  assert (read_eq r value) ReadBack ;;;
  print (py "Successfully wrote key value pair.").

(** [tpm_delete_index], lines 241-250.  The function has the one
    parameter [key]. *)
Definition tpm_delete_index (key : Z) : M E unit :=
  nv_indices_list <- tpm_get_nv_indices ;;
  present <- lift (py_in (PyInt key) nv_indices_list) ;;
  assert present KeyExists ;;;
  let key_str := py "0x" ++ format_x key in
  let command := [py "tpm2_nvundefine"; py "-C"; py "o"; key_str] in
  run_command command None ;;;
  print (py "Successfully deleted nv-index 0x" ++ format_x key).
End TpmReadWrite.

(* ================================================================== *)
(** * A reference environment

    A small NV store that answers the command lines of the script the way
    the header comments of the script show the tools answering, and a reader
    for the fragment of YAML in which the tools report.  The theorems below
    hold for every environment; this one runs the script on concrete
    inputs. *)

Module Ref.

(** ** Numbers on a command line and in a report *)

Definition digit_value (c : Z) : option Z :=
  if (48 <=? c) && (c <=? 57) then Some (c - 48)
  else if (97 <=? c) && (c <=? 102) then Some (c - 87)
  else if (65 <=? c) && (c <=? 70) then Some (c - 55)
  else None.

Fixpoint digits (base : Z) (acc : Z) (s : pystr) : option Z :=
  match s with
  | [] => Some acc
  | c :: s' =>
      match digit_value c with
      | Some v => if v <? base then digits base (acc * base + v) s' else None
      | None => None
      end
  end.

(** An unsigned number, decimal or with the prefix [0x]. *)
Definition parse_num (s : pystr) : option Z :=
  match s with
  | 48 :: 120 :: (_ :: _) as h => digits 16 0 h
  | _ :: _ => digits 10 0 s
  | [] => None
  end.

(** ** The reader of reports *)

Fixpoint split_lines (cur : pystr) (s : pystr) : list pystr :=
  match s with
  | [] => [rev cur]
  | 10 :: s' => rev cur :: split_lines [] s'
  | c :: s' => split_lines (c :: cur) s'
  end.

Fixpoint indent_of (s : pystr) : nat * pystr :=
  match s with
  | 32 :: s' => let (n, r) := indent_of s' in (S n, r)
  | _ => (O, s)
  end.

Definition line := (nat * pystr)%type.

Definition lines_of (s : pystr) : list line :=
  filter (fun l : line => negb (pystr_eqb (snd l) []))
    (map indent_of (split_lines [] s)).

(** A plain scalar: an integer, a boolean, null or a string. *)
Definition scalar (s : pystr) : pyval :=
  match parse_num s with
  | Some z => PyInt z
  | None =>
      if pystr_eqb s (py "true") then PyBool true
      else if pystr_eqb s (py "false") then PyBool false
      else if pystr_eqb s (py "null") || pystr_eqb s (py "~") then PyNone
      else PyStr s
  end.

(** [key: value] or [key:], split at the first colon that ends the line
    or is followed by a space. *)
Fixpoint split_key (key : pystr) (s : pystr) : option (pystr * pystr) :=
  match s with
  | [] => None
  | 58 :: [] => Some (rev key, [])
  | 58 :: 32 :: v => Some (rev key, lstrip v)
  | c :: s' => split_key (c :: key) s'
  end.

(** A mapping from its entries in the order of the report; a key that
    comes again replaces the value. *)
Definition dict_of_pairs (kv : list (pyval * pyval)) : list (pyval * pyval) :=
  fold_left (fun acc e => dict_set acc (fst e) (snd e)) kv [].

Inductive mode : Type :=
| Node
| Items (ind : nat)
| Entries (ind : nat).

Fixpoint parse (fuel : nat) (m : mode) (ls : list line)
  : option (pyval * list line) :=
  match fuel with
  | O => None
  | S f =>
      match m, ls with
      | Node, [] => None
      | Node, (ind, c) :: rest =>
          if is_prefix (py "- ") c then parse f (Items ind) ls
          else match split_key [] c with
               | Some _ => parse f (Entries ind) ls
               | None => Some (scalar c, rest)
               end
      | Items ind, (i, c) :: rest =>
          if Nat.eqb i ind && is_prefix (py "- ") c then
            match parse f (Items ind) rest with
            | Some (PyList items, rest') =>
                Some (PyList (scalar (lstrip (skipn 2 c)) :: items), rest')
            | _ => None
            end
          else Some (PyList [], ls)
      | Items _, [] => Some (PyList [], [])
      | Entries ind, (i, c) :: rest =>
          if Nat.eqb i ind then
            match split_key [] c with
            | None => None
            | Some (k, []) =>
                match rest with
                | (j, _) :: _ =>
                    if Nat.ltb ind j then
                      match parse f Node rest with
                      | Some (v, rest') =>
                          match parse f (Entries ind) rest' with
                          | Some (PyDict kv, rest'') =>
                              Some (PyDict (dict_of_pairs
                                              ((scalar k, v) :: kv)), rest'')
                          | _ => None
                          end
                      | None => None
                      end
                    else None
                | [] => None
                end
            | Some (k, v) =>
                match parse f (Entries ind) rest with
                | Some (PyDict kv, rest') =>
                    Some (PyDict (dict_of_pairs
                                    ((scalar k, scalar v) :: kv)), rest')
                | _ => None
                end
            end
          else Some (PyDict [], ls)
      | Entries _, [] => Some (PyDict [], [])
      end
  end.

(** One document; a report of the tools never holds more. *)
Definition safe_load_all (s : pystr) : option (list pyval) :=
  let ls := lines_of s in
  match parse (S (2 * List.length ls + 2)) Node ls with
  | Some (v, []) => Some [v]
  | _ => None
  end.

(** ** The device *)

Record nv_slot : Type := {
  nv_size : Z;
  nv_auth : pystr;              (* the password, empty for none *)
  nv_data : option pybytes      (* [None] until the first write *)
}.

Record tpm : Type := {
  nv : list (Z * nv_slot);      (* the defined indices, ascending *)
  nv_index_max : Z;             (* TPM2_PT_NV_INDEX_MAX *)
  nv_buffer_max : Z             (* TPM2_PT_NV_BUFFER_MAX *)
}.

Fixpoint nv_find (i : Z) (l : list (Z * nv_slot)) : option nv_slot :=
  match l with
  | [] => None
  | (j, s) :: l' => if i =? j then Some s else nv_find i l'
  end.

Fixpoint nv_put (i : Z) (s : nv_slot) (l : list (Z * nv_slot))
  : list (Z * nv_slot) :=
  match l with
  | [] => [(i, s)]
  | (j, t) :: l' =>
      if i =? j then (i, s) :: l'
      else if i <? j then (i, s) :: (j, t) :: l'
      else (j, t) :: nv_put i s l'
  end.

Definition nv_remove (i : Z) (l : list (Z * nv_slot)) : list (Z * nv_slot) :=
  filter (fun e : Z * nv_slot => negb (fst e =? i)) l.

Definition with_nv (d : tpm) (l : list (Z * nv_slot)) : tpm :=
  {| nv := l; nv_index_max := nv_index_max d;
     nv_buffer_max := nv_buffer_max d |}.

Definition ok (out : pystr) : proc_outcome := Exited 0 out [].
Definition failed (err : string) : proc_outcome := Exited 1 [] (py err).

Definition newline : pystr := [10].

(** ** The commands that query *)

Definition getcap (d : tpm) (args : list pystr) : proc_outcome :=
  match args with
  | [cap] =>
      if pystr_eqb cap (py "handles-nv-index") then
        ok (List.concat (map (fun e : Z * nv_slot =>
                           py "- " ++ hex (fst e) ++ newline) (nv d)))
      else if pystr_eqb cap (py "properties-fixed") then
        ok (py "TPM2_PT_NV_INDEX_MAX:" ++ newline
            ++ py "  raw: " ++ hex (nv_index_max d) ++ newline
            ++ py "TPM2_PT_NV_BUFFER_MAX:" ++ newline
            ++ py "  raw: " ++ hex (nv_buffer_max d) ++ newline)
      else failed "ERROR: unknown capability"
  | _ => failed "ERROR: specify one capability"
  end.

Definition nvreadpublic (d : tpm) (args : list pystr) : proc_outcome :=
  match args with
  | [idx] =>
      match parse_num idx with
      | Some i =>
          match nv_find i (nv d) with
          | Some s =>
              ok (hex i ++ py ":" ++ newline
                  ++ py "  hash algorithm:" ++ newline
                  ++ py "    friendly: sha256" ++ newline
                  ++ py "    value: 0xB" ++ newline
                  ++ py "  attributes:" ++ newline
                  ++ py "    friendly: authwrite|authread|no_da|orderly"
                  ++ newline
                  ++ py "  size: " ++ str_int (nv_size s) ++ newline)
          | None => failed "ERROR: the handle is not correct for the use"
          end
      | None => failed "ERROR: could not convert the index"
      end
  | _ => failed "ERROR: specify one index"
  end.

Definition read_slot (d : tpm) (idx size : pystr) (pwd : pystr)
  : proc_outcome :=
  match parse_num idx, parse_num size with
  | Some i, Some n =>
      match nv_find i (nv d) with
      | None => failed "ERROR: the handle is not correct for the use"
      | Some s =>
          if negb (pystr_eqb (nv_auth s) pwd) then
            failed "ERROR: authorization failure without DA implications"
          else
            match nv_data s with
            | None => failed "ERROR: an NV index is used before being initialized"
            | Some data =>
                if n <=? nv_size s then ok (firstn (Z.to_nat n) data)
                else failed "ERROR: NV access outside the index"
            end
      end
  | _, _ => failed "ERROR: could not convert a number"
  end.

Definition nvread (d : tpm) (args : list pystr) : proc_outcome :=
  match args with
  | [c; auth; s; size; idx] =>
      if pystr_eqb c (py "-C") && pystr_eqb s (py "-s")
      then read_slot d idx size []
      else failed "ERROR: usage"
  | [c; auth; s; size; idx; p; pwd] =>
      if pystr_eqb c (py "-C") && pystr_eqb s (py "-s")
         && pystr_eqb p (py "-P")
      then read_slot d idx size pwd
      else failed "ERROR: usage"
  | _ => failed "ERROR: usage"
  end.

Definition getrandom (args : list pystr) : proc_outcome :=
  match args with
  | [n] =>
      match parse_num n with
      | Some k => ok (repeat 0xA5 (Z.to_nat k))
      | None => failed "ERROR: could not convert the size"
      end
  | _ => failed "ERROR: usage"
  end.

(** ** The commands that change the store *)

Definition define_slot (d : tpm) (size idx pwd : pystr)
  : proc_outcome * tpm :=
  match parse_num idx, parse_num size with
  | Some i, Some n =>
      match nv_find i (nv d) with
      | Some _ => (failed "ERROR: NV Index or persistent object already defined", d)
      | None =>
          if nv_index_max d <? n then
            (failed "ERROR: structure is the wrong size", d)
          else
            (ok (py "nv-index: " ++ hex i ++ newline),
             with_nv d (nv_put i {| nv_size := n; nv_auth := pwd;
                                    nv_data := None |} (nv d)))
      end
  | _, _ => (failed "ERROR: could not convert a number", d)
  end.

Definition nvdefine (d : tpm) (args : list pystr) : proc_outcome * tpm :=
  match args with
  | [c; o; s; size; a; attrs; idx] =>
      if pystr_eqb c (py "-C") && pystr_eqb s (py "-s")
         && pystr_eqb a (py "-a")
      then define_slot d size idx []
      else (failed "ERROR: usage", d)
  | [c; o; s; size; a; attrs; p; pwd; idx] =>
      if pystr_eqb c (py "-C") && pystr_eqb s (py "-s")
         && pystr_eqb a (py "-a") && pystr_eqb p (py "-p")
      then define_slot d size idx pwd
      else (failed "ERROR: usage", d)
  | _ => (failed "ERROR: usage", d)
  end.

(** A write at offset 0; the bytes of the index that it does not reach
    stay as they are (0xFF in an index that was never written). *)
Definition write_slot (d : tpm) (idx pwd : pystr) (input : option pybytes)
  : proc_outcome * tpm :=
  match parse_num idx, input with
  | Some i, Some b =>
      match nv_find i (nv d) with
      | None => (failed "ERROR: the handle is not correct for the use", d)
      | Some s =>
          if negb (pystr_eqb (nv_auth s) pwd) then
            (failed "ERROR: authorization failure without DA implications", d)
          else if nv_size s <? len b then
            (failed "ERROR: The starting offset and specified size exceed NV index size", d)
          else
            let old := match nv_data s with
                       | Some data => data
                       | None => repeat 0xFF (Z.to_nat (nv_size s))
                       end in
            (ok [],
             with_nv d
               (nv_put i {| nv_size := nv_size s; nv_auth := nv_auth s;
                            nv_data := Some (b ++ skipn (List.length b) old) |}
                  (nv d)))
      end
  | _, _ => (failed "ERROR: could not convert the index or read the input", d)
  end.

Definition nvwrite (d : tpm) (args : list pystr) (input : option pybytes)
  : proc_outcome * tpm :=
  match args with
  | [c; auth; i; dash; idx] =>
      if pystr_eqb c (py "-C") && pystr_eqb i (py "-i")
      then write_slot d idx [] input
      else (failed "ERROR: usage", d)
  | [c; auth; p; pwd; i; dash; idx] =>
      if pystr_eqb c (py "-C") && pystr_eqb p (py "-P")
         && pystr_eqb i (py "-i")
      then write_slot d idx pwd input
      else (failed "ERROR: usage", d)
  | _ => (failed "ERROR: usage", d)
  end.

Definition nvundefine (d : tpm) (args : list pystr) : proc_outcome * tpm :=
  match args with
  | [c; o; idx] =>
      match parse_num idx with
      | Some i =>
          match nv_find i (nv d) with
          | Some _ => (ok [], with_nv d (nv_remove i (nv d)))
          | None => (failed "ERROR: the handle is not correct for the use", d)
          end
      | None => (failed "ERROR: could not convert the index", d)
      end
  | _ => (failed "ERROR: usage", d)
  end.

(** One child process.  A program that is not one of the tools cannot be
    started. *)
Definition run (command : list pystr) (input : option pybytes) (d : tpm)
  : proc_outcome * tpm :=
  match command with
  | [] => (NotStarted, d)
  | prog :: args =>
      if pystr_eqb prog (py "tpm2_getcap") then (getcap d args, d)
      else if pystr_eqb prog (py "tpm2_nvreadpublic") then
        (nvreadpublic d args, d)
      else if pystr_eqb prog (py "tpm2_nvread") then (nvread d args, d)
      else if pystr_eqb prog (py "tpm2_getrandom") then (getrandom args, d)
      else if pystr_eqb prog (py "tpm2_nvdefine") then nvdefine d args
      else if pystr_eqb prog (py "tpm2_nvwrite") then nvwrite d args input
      else if pystr_eqb prog (py "tpm2_nvundefine") then nvundefine d args
      else (NotStarted, d)
  end.

(** [repr] of a [str] of printable ASCII without quotes or backslashes. *)
Definition repr_ascii (s : pystr) : pystr := py "'" ++ s ++ py "'".

Definition env : Env :=
  {| Device := tpm;
     spawn := run;
     yaml_safe_load_all := safe_load_all;
     repr_str := repr_ascii |}.

(** A device as it comes: one index of the manufacturer outside the band
    of the user, and the limits that the header comments report. *)
Definition factory : tpm :=
  {| nv := [(0x01C00002,
             {| nv_size := 4; nv_auth := [];
                nv_data := Some [0x30; 0x82; 0x01; 0xF4] |})];
     nv_index_max := 0x800;
     nv_buffer_max := 0x800 |}.
End Ref.

(* ================================================================== *)
(** * Notions that the statements use *)

(** The commands that only query leave the device as it is. *)
Definition queries_are_pure (E : Env) : Prop :=
  forall command input d,
    is_query command = true -> snd (spawn E command input d) = d.

(** The sanity checks of [tpm_write] that come before the first command
    that changes the store. *)
Definition validation_site (s : assert_site) : bool :=
  match s with
  | KeyInRange | FitsBuffer | FitsIndex | KeyUnused | PasswordLength => true
  | _ => false
  end.

(** A limit in the report of [tmp_get_hardware_info], the way [tpm_write]
    reads it: [hw_info.get(name).get("raw")], when that is an [int]. *)
Definition device_limit (hw_info : pyval) (name : string) : option Z :=
  match py_get hw_info (PyStr (py name)) with
  | Ok entry =>
      match py_get entry (PyStr (py "raw")) with
      | Ok v => as_int v
      | Raise _ => None
      end
  | Raise _ => None
  end.

(** The declared size in the metadata of an index, the way [tpm_read_nvm]
    reads it: [nv_index.get(index).get("size")]. *)
Definition declared_size (nv_index : pyval) (index : Z) : option pyval :=
  match py_get nv_index (PyInt index) with
  | Ok entry =>
      match py_get entry (PyStr (py "size")) with
      | Ok v => Some v
      | Raise _ => None
      end
  | Raise _ => None
  end.

Section Parts.
Variable E : Env.

(** [tpm_write] up to and with its write command, lines 186-231. *)
Definition define_and_write (key : Z) (value : pystr) (pwd : option pystr)
  : M E CompletedProcess :=
  assert ((0x01800000 <=? key) && (key <=? 0x01BFFFFF)) KeyInRange ;;;
  let value_len := len value in
  hw_info <- tmp_get_hardware_info E ;;
  buffer_max <- lift (py_get hw_info (PyStr (py "TPM2_PT_NV_BUFFER_MAX"))) ;;
  chunk_max_size <- lift (py_get buffer_max (PyStr (py "raw"))) ;;
  fits <- lift (py_int_le value_len chunk_max_size) ;;
  assert fits FitsBuffer ;;;
  index_max <- lift (py_get hw_info (PyStr (py "TPM2_PT_NV_INDEX_MAX"))) ;;
  max_value_len <- lift (py_get index_max (PyStr (py "raw"))) ;;
  fits' <- lift (py_int_le value_len max_value_len) ;;
  assert fits' FitsIndex ;;;
  nv_indices_list <- tpm_get_nv_indices E ;;
  used <- lift (py_in (PyInt key) nv_indices_list) ;;
  assert (negb used) KeyUnused ;;;
  match truthy pwd with
  | Some p => assert (5 <=? len p) PasswordLength
  | None => ret tt
  end ;;;
  result <- run_command_yaml E (nvdefine_command key value_len pwd) ;;
  result_response <- lift (py_get result (PyStr (py "nv-index"))) ;;
  assert (py_eq result_response (PyInt key)) DefineEcho ;;;
  input <- lift (match utf8_encode value with
                 | Some b => Ok b
                 | None => Raise UnicodeEncodeError
                 end) ;;
  run_command E (nvwrite_command key pwd) (Some input).

(** The end of [tpm_write], lines 236-238. *)
Definition read_back (key : Z) (value : pystr) (pwd : option pystr)
  : M E unit :=
  r <- tpm_read_nvm E key pwd ;;
  assert (read_eq r value) ReadBack ;;;
  print (py "Successfully wrote key value pair.").

(** A call [tpm_delete_index(key=..., name=..., ...)].  The function has
    the keyword-only parameter [key] and no other: Python binds the
    keywords before the body runs and raises [TypeError] for a keyword
    that is not a parameter. *)
Definition call_tpm_delete_index (key : Z) (other_keywords : list string)
  : M E unit :=
  match other_keywords with
  | [] => tpm_delete_index E key
  | _ :: _ => raise TypeError
  end.
End Parts.

(* ================================================================== *)
(** * Notions that the proofs use *)


Section PyvalInduction.
Variable P : pyval -> Prop.
Hypothesis HNone : P PyNone.
Hypothesis HBool : forall b, P (PyBool b).
Hypothesis HInt : forall z, P (PyInt z).
Hypothesis HHexInt : forall z, P (PyHexInt z).
Hypothesis HStr : forall s, P (PyStr s).
Hypothesis HList : forall l, Forall P l -> P (PyList l).
Hypothesis HTuple : forall l, Forall P l -> P (PyTuple l).
Hypothesis HSet : forall l, Forall P l -> P (PySet l).
Hypothesis HDict :
  forall kv, Forall (fun e => P (fst e) /\ P (snd e)) kv -> P (PyDict kv).

Fixpoint pyval_induction (v : pyval) : P v :=
  let all :=
    fix all (l : list pyval) : Forall P l :=
      match l with
      | [] => Forall_nil P
      | x :: l' => Forall_cons x (pyval_induction x) (all l')
      end in
  match v with
  | PyNone => HNone
  | PyBool b => HBool b
  | PyInt z => HInt z
  | PyHexInt z => HHexInt z
  | PyStr s => HStr s
  | PyList l => HList (all l)
  | PyTuple l => HTuple (all l)
  | PySet l => HSet (all l)
  | PyDict kv =>
      HDict
        ((fix all2 (l : list (pyval * pyval))
            : Forall (fun e => P (fst e) /\ P (snd e)) l :=
            match l with
            | [] => Forall_nil _
            | (k, x) :: l' =>
                Forall_cons (k, x)
                  (conj (pyval_induction k) (pyval_induction x)) (all2 l')
            end) kv)
  end.
End PyvalInduction.


(** The two loops of [py_eq] on sequences, named. *)
Fixpoint seq_eq (l m : list pyval) : bool :=
  match l, m with
  | [], [] => true
  | x :: l', y :: m' => py_eq x y && seq_eq l' m'
  | _, _ => false
  end.

Fixpoint all_members (l m : list pyval) : bool :=
  match l with
  | [] => true
  | x :: l' => existsb (py_eq x) m && all_members l' m
  end.

Fixpoint all_entries (l m : list (pyval * pyval)) : bool :=
  match l with
  | [] => true
  | (k, v) :: l' =>
      match assoc_find (py_eq k) m with
      | Some v' => py_eq v v'
      | None => false
      end && all_entries l' m
  end.


(** No member of [acc] equals a member of [l], hexified or not. *)
Definition apart (acc l : list pyval) : Prop :=
  forall p x, In p acc -> In x l -> py_eq p x = false.

(** What [hexify] does to one entry of a dictionary. *)
Definition hexify_entry (e : pyval * pyval) : pyval * pyval :=
  (hexify (fst e), hexify (snd e)).

(** A report of the kind the tools give, for running [hexify]. *)
Definition sample_report : pyval :=
  PyDict [(PyInt 0x1800000,
           PyDict [(PyStr (py "size"), PyInt 11);
                   (PyStr (py "written"), PyBool true);
                   (PyStr (py "handles"),
                    PyList [PyInt 1; PyTuple [PyInt 2; PyStr (py "x")];
                            PySet [PyInt 3; PyBool false]])])].


(** Equality of argument vectors. *)
Fixpoint argv_eqb (c c' : list pystr) : bool :=
  match c, c' with
  | [], [] => true
  | a :: r, a' :: r' => pystr_eqb a a' && argv_eqb r r'
  | _, _ => false
  end.

Section Properties.
Variable E : Env.
Variable A : Type.

(** Every event of [m] satisfies [P]. *)
Definition issues (P : event -> bool) (m : M E A) : Prop :=
  forall d, forallb P (trace (m d)) = true.

(** [m] issues no command that changes the store and, where the queries
    are pure, leaves the device as it found it. *)
Definition readonly (m : M E A) : Prop :=
  forall d,
    forallb (fun ev => negb (mutating ev)) (trace (m d)) = true
    /\ (queries_are_pure E -> dev (m d) = d).

(** An [AssertionError] of [m] comes from a statement in [S]. *)
Definition asserts_in (S : assert_site -> bool) (m : M E A) : Prop :=
  forall d s, res (m d) = Raise (AssertionError s) -> S s = true.

(** When [m] fails at a sanity check it has behaved as a [readonly]
    computation. *)
Definition harmless (m : M E A) : Prop :=
  forall d s,
    res (m d) = Raise (AssertionError s) -> validation_site s = true ->
    forallb (fun ev => negb (mutating ev)) (trace (m d)) = true
    /\ (queries_are_pure E -> dev (m d) = d).
End Properties.

(** ** Runs on the reference device *)

Module Runs.
Definition hello : pystr := py "hello world".
Definition secret : option pystr := Some (py "abcde").

(** [tpm_write(key=0x01800000, value="hello world")] on a device as it
    comes, and the device after it. *)
Definition write_hello : outcome Ref.env unit :=
  tpm_write Ref.env 0x01800000 hello None Ref.factory.
Definition with_hello : Ref.tpm := Eval vm_compute in dev write_hello.

(** Then [tpm_write(key=0x01800001, value="hello world", pwd="abcde")]. *)
Definition write_secret : outcome Ref.env unit :=
  tpm_write Ref.env 0x01800001 hello secret with_hello.
Definition with_secret : Ref.tpm := Eval vm_compute in dev write_secret.

(** Then [tpm_write(key=0x01800002, value="é")]: one character, two
    bytes. *)
Definition write_accent : outcome Ref.env unit :=
  tpm_write Ref.env 0x01800002 [233] None with_secret.
Definition with_accent : Ref.tpm := Eval vm_compute in dev write_accent.

(** The report of the limits of the device, as [tpm_write] gets it. *)
Definition limits : pyval :=
  Eval vm_compute in
    match res (tmp_get_hardware_info Ref.env Ref.factory) with
    | Ok v => v
    | Raise _ => PyNone
    end.

(** The metadata of the two indices written above, as [tpm_read_nvm]
    gets them. *)
Definition metadata_hello : pyval :=
  Eval vm_compute in
    match res (tpm_get_nv_index_metadata Ref.env 0x01800000 with_hello) with
    | Ok v => v
    | Raise _ => PyNone
    end.

Definition metadata_secret : pyval :=
  Eval vm_compute in
    match res (tpm_get_nv_index_metadata Ref.env 0x01800001 with_secret) with
    | Ok v => v
    | Raise _ => PyNone
    end.

(** Values of 2048 and of 2049 characters. *)
Definition longest : pystr := repeat 97 2048.
Definition too_long : pystr := repeat 97 2049.

(** The undefine command for a key, line 247. *)
Definition nvundefine_command (key : Z) : list pystr :=
  [py "tpm2_nvundefine"; py "-C"; py "o"; py "0x" ++ format_x key].
End Runs.

(* ================================================================== *)
(** * The rest of the script, and notions for what follows *)

Section Main.
Variable E : Env.

(** [pprint.pformat] of the standard library: the text that [pprint]
  writes, without the line end. *)
Variable pformat : pyval -> pystr.

(** [main], lines 253-259 (the rest of its body is commented out); the
  script calls it at line 280. *)
Definition main : M E unit :=
tpm_sanity_check E ;;;
nv_indices_list <- tpm_get_nv_indices E ;;
print (pformat nv_indices_list).
End Main.

Section Blocks.
Variable E : Env.

(** The four sanity checks of [tpm_write], lines 186-208. *)
Definition sanity_checks (key : Z) (value : pystr) (pwd : option pystr)
: M E unit :=
assert ((0x01800000 <=? key) && (key <=? 0x01BFFFFF)) KeyInRange ;;;
let value_len := len value in
hw_info <- tmp_get_hardware_info E ;;
buffer_max <- lift (py_get hw_info (PyStr (py "TPM2_PT_NV_BUFFER_MAX"))) ;;
chunk_max_size <- lift (py_get buffer_max (PyStr (py "raw"))) ;;
fits <- lift (py_int_le value_len chunk_max_size) ;;
assert fits FitsBuffer ;;;
index_max <- lift (py_get hw_info (PyStr (py "TPM2_PT_NV_INDEX_MAX"))) ;;
max_value_len <- lift (py_get index_max (PyStr (py "raw"))) ;;
fits' <- lift (py_int_le value_len max_value_len) ;;
assert fits' FitsIndex ;;;
nv_indices_list <- tpm_get_nv_indices E ;;
used <- lift (py_in (PyInt key) nv_indices_list) ;;
assert (negb used) KeyUnused ;;;
match truthy pwd with
| Some p => assert (5 <=? len p) PasswordLength
| None => ret tt
end.

(** The define and the write of [tpm_write], lines 212-231. *)
Definition define_then_write (key : Z) (value : pystr) (pwd : option pystr)
: M E CompletedProcess :=
result <- run_command_yaml E (nvdefine_command key (len value) pwd) ;;
result_response <- lift (py_get result (PyStr (py "nv-index"))) ;;
assert (py_eq result_response (PyInt key)) DefineEcho ;;;
input <- lift (match utf8_encode value with
               | Some b => Ok b
               | None => Raise UnicodeEncodeError
               end) ;;
run_command E (nvwrite_command key pwd) (Some input).
End Blocks.

Section Results.
Variable E : Env.

(** What [run_command] makes of the end of its child, lines 94-110. *)
Definition completed (command : list pystr) (o : proc_outcome)
: result CompletedProcess :=
match o with
| Exited rc out err =>
    if rc =? 0 then Ok {| stdout := out; stderr := err |}
    else Raise (SystemExit (CommandFailed command rc out err))
| NotStarted => Raise AttributeError
end.

(** What [run_command_yaml] makes of the end of its child, lines
  114-135. *)
Definition report (command : list pystr) (o : proc_outcome) : result pyval :=
match o with
| NotStarted => Raise OSError
| Exited rc out err =>
    match decode_text out, decode_text err with
    | Some out_s, Some err_s =>
        if negb (rc =? 0) then
          Raise (RuntimeError (YamlCommandFailed command err_s))
        else
          match err_s with
          | _ :: _ => Raise (RuntimeError (WroteToStderr command err_s))
          | [] =>
              match strip out_s with
              | [] => Ok PyNone
              | c :: s =>
                  match yaml_safe_load_all E (c :: s) with
                  | None => Raise YAMLError
                  | Some docs =>
                      match map hexify docs with
                      | [doc] => Ok doc
                      | docs' => Ok (PyList docs')
                      end
                  end
              end
          end
    | _, _ => Raise UnicodeDecodeError
    end
end.
End Results.

(** No plain [int] is left in a value: every integer in it is a [bool] or a
    [HexInt]. *)
Fixpoint hexed (v : pyval) : bool :=
  match v with
  | PyInt _ => false
  | PyNone | PyBool _ | PyHexInt _ | PyStr _ => true
  | PyList l => forallb hexed l
  | PyTuple l => forallb hexed l
  | PySet l => forallb hexed l
  | PyDict kv =>
      forallb (fun e : pyval * pyval => hexed (fst e) && hexed (snd e)) kv
  end.

(** [isinstance(v, bool)]. *)
Definition is_bool (v : pyval) : bool :=
  match v with
  | PyBool _ => true
  | _ => false
  end.

(** The argument vectors of the commands in a trace that change the store,
    oldest first. *)
Definition changes (tr : list event) : list (list pystr) :=
  map command_of (filter mutating tr).

Section Stages.
Variable E : Env.
Variable A : Type.

(** The commands of [m] that change the store are a beginning of [L], and
  all of [L] when [m] returns. *)
Definition staged (L : list (list pystr)) (m : M E A) : Prop :=
forall d,
  (exists n, changes (trace (m d)) = firstn n L)
  /\ (forall a, res (m d) = Ok a -> changes (trace (m d)) = L).
End Stages.

(** The sanity check of [main], line 141. *)
Definition random_command : list pystr := [py "tpm2_getrandom"; py "8"].

(** The line that the [except] branch of [tpm_read_nvm] prints. *)
Definition password_hint : pystr :=
  py "Failed to read value. Have you not provided the correct required password?".

Definition is_hint (ev : event) : bool :=
  match ev with
  | Printed line => pystr_eqb line password_hint
  | Ran _ _ _ => false
  end.

(** Every character of a text is in ASCII. *)
Definition ascii_only (s : pystr) : bool := forallb (fun c => c <? 0x80) s.

(** The two queries that list the indices and report the limits. *)
Definition list_command : list pystr :=
  [py "tpm2_getcap"; py "handles-nv-index"].
Definition limits_command : list pystr :=
  [py "tpm2_getcap"; py "properties-fixed"].

(** ** More runs on the reference device *)

Module More.
(** A device without any index. *)
Definition bare : Ref.tpm := Ref.with_nv Ref.factory [].

(** A mapping with integers at several depths. *)
Definition nested_report : pyval :=
PyDict [(PyInt 0x1800000,
         PyDict [(PyStr (py "size"), PyInt 11);
                 (PyStr (py "sizes"), PyList [PyInt 1; PyHexInt 2]);
                 (PyStr (py "flags"), PySet [PyBool true; PyInt 7])])].

(** A text with one character of two bytes. *)
Definition cafe : pystr := [99; 97; 102; 233].

(** The list of the indices, as the script gets it, on the device as it
  comes and after the first write. *)
Definition listing_factory : pyval :=
Eval vm_compute in
  match res (tpm_get_nv_indices Ref.env Ref.factory) with
  | Ok v => v
  | Raise _ => PyNone
  end.

Definition listing_hello : pyval :=
Eval vm_compute in
  match res (tpm_get_nv_indices Ref.env Runs.with_hello) with
  | Ok v => v
  | Raise _ => PyNone
  end.

(** A device that answers the define command with another index than
  the one it was asked for, and is the reference device otherwise. *)
Definition run_with_wrong_echo (command : list pystr)
(input : option pybytes) (d : Ref.tpm) : proc_outcome * Ref.tpm :=
let (o, d') := Ref.run command input d in
if pystr_eqb (hd [] command) (py "tpm2_nvdefine") then
  match o with
  | Exited 0 _ err => (Exited 0 (py "nv-index: 0x0" ++ [10]) err, d')
  | _ => (o, d')
  end
else (o, d').

Definition wrong_echo : Env :=
{| Device := Ref.tpm;
   spawn := run_with_wrong_echo;
   yaml_safe_load_all := Ref.safe_load_all;
   repr_str := Ref.repr_ascii |}.

(** A way of printing for [main]: [repr] with the reference [repr] of a
  text. *)
Definition pformat : pyval -> pystr := py_repr Ref.repr_ascii.
End More.
(* ================================================================== *)
(** * [hexify] and equality *)

Lemma pystr_eqb_refl (s : pystr) : pystr_eqb s s = true.
Proof.
  induction s as [|c s IH]; simpl; [reflexivity|].
  now rewrite Z.eqb_refl, IH.
Qed.

Lemma pystr_eqb_eq (s t : pystr) : pystr_eqb s t = true <-> s = t.
Proof.
  split.
  - revert t. induction s as [|c s IH]; intros [|c' t] H; simpl in H;
      try discriminate; [reflexivity|].
    apply andb_true_iff in H. destruct H as [Hc Hs].
    apply Z.eqb_eq in Hc. apply IH in Hs. now subst.
  - intros ->. apply pystr_eqb_refl.
Qed.

Lemma py_eq_list l m : py_eq (PyList l) (PyList m) = seq_eq l m.
Proof. simpl. revert m. induction l; intros [|]; simpl; congruence. Qed.

Lemma py_eq_tuple l m : py_eq (PyTuple l) (PyTuple m) = seq_eq l m.
Proof. simpl. revert m. induction l; intros [|]; simpl; congruence. Qed.

Lemma py_eq_set l m :
  py_eq (PySet l) (PySet m)
  = (List.length l =? List.length m)%nat && all_members l m.
Proof. simpl. f_equal. induction l; simpl; congruence. Qed.

Lemma py_eq_dict l m :
  py_eq (PyDict l) (PyDict m)
  = (List.length l =? List.length m)%nat && all_entries l m.
Proof.
  simpl. f_equal. induction l as [|[k v] l IH]; simpl; congruence.
Qed.

Lemma as_int_hexify v : as_int (hexify v) = as_int v.
Proof. destruct v; reflexivity. Qed.

Lemma seq_eq_hexify_l l :
  Forall (fun x => forall b, py_eq (hexify x) b = py_eq x b) l ->
  forall m, seq_eq (map hexify l) m = seq_eq l m.
Proof.
  induction 1 as [|x l Hx _ IH]; intros [|y m]; simpl; try reflexivity.
  now rewrite Hx, IH.
Qed.

Lemma seq_eq_hexify_r l :
  Forall (fun x => forall b, py_eq x (hexify b) = py_eq x b) l ->
  forall m, seq_eq l (map hexify m) = seq_eq l m.
Proof.
  induction 1 as [|x l Hx _ IH]; intros [|y m]; simpl; try reflexivity.
  now rewrite Hx, IH.
Qed.

Lemma Forall_hashable (P : pyval -> Prop) l :
  Forall (fun x => hashable x = true -> P x) l ->
  forallb hashable l = true -> Forall P l.
Proof.
  induction 1 as [|x l Hx _ IH]; simpl; intros H; constructor;
    apply andb_true_iff in H; destruct H; auto.
Qed.

(** A hashable value on the right of [==] may be hexified. *)
Lemma py_eq_hexify_r a :
  hashable a = true -> forall b, py_eq a (hexify b) = py_eq a b.
Proof.
  induction a using pyval_induction; intros Ha y; try discriminate.
  - destruct y; reflexivity.
  - simpl. now rewrite as_int_hexify.
  - simpl. now rewrite as_int_hexify.
  - simpl. now rewrite as_int_hexify.
  - destruct y; reflexivity.
  - destruct y as [| | | | |m|m|m|m]; try reflexivity.
    change (hexify (PyTuple m)) with (PyTuple (map hexify m)).
    rewrite !py_eq_tuple. apply seq_eq_hexify_r.
    simpl in Ha. now apply Forall_hashable.
Qed.

(** A hashable value on the left of [==] may be hexified. *)
Lemma py_eq_hexify_key a :
  hashable a = true -> forall b, py_eq (hexify a) b = py_eq a b.
Proof.
  induction a using pyval_induction; intros Ha y; try discriminate;
    try reflexivity.
  change (hexify (PyTuple l)) with (PyTuple (map hexify l)).
  destruct y as [| | | | |m|m|m|m]; try reflexivity.
  rewrite !py_eq_tuple. apply seq_eq_hexify_l.
  simpl in Ha. now apply Forall_hashable.
Qed.

Lemma hashable_hexify a : hashable a = true -> hashable (hexify a) = true.
Proof.
  induction a using pyval_induction; intros Ha; try discriminate;
    try reflexivity.
  simpl in *. rewrite forallb_forall in *. intros y Hy.
  apply in_map_iff in Hy. destruct Hy as (x & <- & Hx).
  rewrite Forall_forall in H. auto.
Qed.

Lemma seq_eq_sym l :
  Forall (fun x => forall b, hashable b = true -> py_eq x b = py_eq b x) l ->
  forall m, forallb hashable m = true -> seq_eq l m = seq_eq m l.
Proof.
  induction 1 as [|x l Hx _ IH]; intros [|y m] Hm; simpl; try reflexivity.
  simpl in Hm. apply andb_true_iff in Hm. destruct Hm.
  now rewrite Hx, IH.
Qed.

Lemma py_eq_sym a :
  hashable a = true ->
  forall b, hashable b = true -> py_eq a b = py_eq b a.
Proof.
  induction a using pyval_induction; intros Ha y Hy; try discriminate.
  - destruct y; reflexivity.
  - destruct y as [|c| | | | | | |]; try reflexivity; simpl;
      try apply Z.eqb_sym.
  - destruct y as [|c| | | | | | |]; try reflexivity; simpl;
      try apply Z.eqb_sym.
  - destruct y as [|c| | | | | | |]; try reflexivity; simpl;
      try apply Z.eqb_sym.
  - destruct y as [| | | |s0| | | |]; try reflexivity. simpl.
    destruct (pystr_eqb s s0) eqn:H1, (pystr_eqb s0 s) eqn:H2; try reflexivity.
    + apply pystr_eqb_eq in H1. subst. now rewrite pystr_eqb_refl in H2.
    + apply pystr_eqb_eq in H2. subst. now rewrite pystr_eqb_refl in H1.
  - destruct y as [| | | | |m|m|m|m]; try reflexivity; try discriminate.
    rewrite !py_eq_tuple. simpl in Ha, Hy. apply seq_eq_sym; [|assumption].
    now apply Forall_hashable.
Qed.

Lemma set_add_fresh s x :
  existsb (fun y => py_eq y x) s = false -> set_add s x = s ++ [x].
Proof.
  induction s as [|y s IH]; simpl; [reflexivity|].
  intros H. apply orb_false_iff in H. destruct H as [H1 H2].
  now rewrite H1, IH.
Qed.

Lemma dict_set_fresh d k v :
  existsb (fun y => py_eq y k) (map fst d) = false ->
  dict_set d k v = d ++ [(k, v)].
Proof.
  induction d as [|[k' v'] d IH]; simpl; [reflexivity|].
  intros H. apply orb_false_iff in H. destruct H as [H1 H2].
  now rewrite H1, IH.
Qed.

Lemma existsb_map (A B : Type) (f : A -> B) (p : B -> bool) (l : list A) :
  existsb p (map f l) = existsb (fun x => p (f x)) l.
Proof. induction l; simpl; congruence. Qed.

Lemma existsb_ext (A : Type) (p q : A -> bool) (l : list A) :
  (forall x, p x = q x) -> existsb p l = existsb q l.
Proof. intros H. induction l; simpl; [reflexivity|]. now rewrite H, IHl. Qed.


Lemma distinct_cons_apart x l :
  distinct (x :: l) = true -> apart [x] l /\ distinct l = true.
Proof.
  simpl. intros H. apply andb_true_iff in H. destruct H as [H1 H2].
  split; [|assumption].
  intros p y [<-|[]] Hy. apply negb_true_iff in H1.
  rewrite <- not_true_iff_false in *. intros Hp. apply H1.
  apply existsb_exists. eauto.
Qed.

Lemma existsb_false_apart (acc : list pyval) x l :
  apart acc (x :: l) -> hashable x = true ->
  Forall (fun p => hashable p = true) acc ->
  existsb (fun y => py_eq (hexify y) (hexify x)) acc = false.
Proof.
  intros Ha Hx Hacc. rewrite <- not_true_iff_false. intros H.
  apply existsb_exists in H. destruct H as (p & Hp & Heq).
  rewrite Forall_forall in Hacc.
  rewrite py_eq_hexify_key, py_eq_hexify_r in Heq by auto.
  rewrite (Ha p x Hp (or_introl eq_refl)) in Heq. discriminate.
Qed.

Lemma apart_snoc acc x l :
  apart acc (x :: l) -> apart [x] l -> apart (acc ++ [x]) l.
Proof.
  intros H1 H2 p y Hp Hy. apply in_app_iff in Hp. destruct Hp as [Hp|Hp].
  - apply H1; [assumption|now right].
  - now apply H2.
Qed.

(** On the members of a set that Python can build, the comprehension of
    [hexify] adds every member. *)
Lemma hexify_set_fold l : forall acc,
  forallb hashable l = true -> distinct l = true ->
  Forall (fun p => hashable p = true) acc -> apart acc l ->
  fold_left (fun a x => set_add a (hexify x)) l (map hexify acc)
  = map hexify (acc ++ l).
Proof.
  induction l as [|x l IH]; intros acc Hh Hd Hacc Hap; simpl.
  - now rewrite app_nil_r.
  - simpl in Hh. apply andb_true_iff in Hh. destruct Hh as [Hx Hl].
    apply distinct_cons_apart in Hd. destruct Hd as [Hxl Hd].
    rewrite set_add_fresh.
    + change (map hexify acc ++ [hexify x]) with
        (map hexify acc ++ map hexify [x]).
      rewrite <- map_app, IH; auto.
      * now rewrite <- app_assoc.
      * apply Forall_app. split; [assumption|]. now constructor.
      * now apply apart_snoc.
    + rewrite existsb_map. now apply existsb_false_apart with (l := l).
Qed.

Lemma hexify_set l :
  forallb hashable l = true -> distinct l = true ->
  hexify (PySet l) = PySet (map hexify l).
Proof.
  intros Hh Hd. simpl. f_equal.
  apply (@hexify_set_fold l []); auto. intros p x [].
Qed.


Lemma hexify_dict_fold kv : forall acc,
  forallb hashable (map fst kv) = true -> distinct (map fst kv) = true ->
  Forall (fun p => hashable p = true) (map fst acc) ->
  apart (map fst acc) (map fst kv) ->
  fold_left (fun a (e : pyval * pyval) =>
               let (k, v) := e in dict_set a (hexify k) (hexify v))
    kv (map hexify_entry acc)
  = map hexify_entry (acc ++ kv).
Proof.
  induction kv as [|[k v] kv IH]; intros acc Hh Hd Hacc Hap; simpl.
  - now rewrite app_nil_r.
  - simpl in Hh. apply andb_true_iff in Hh. destruct Hh as [Hx Hl].
    apply distinct_cons_apart in Hd. destruct Hd as [Hxl Hd].
    rewrite dict_set_fresh.
    + change (map hexify_entry acc ++ [(hexify k, hexify v)]) with
        (map hexify_entry acc ++ map hexify_entry [(k, v)]).
      rewrite <- map_app, IH; auto.
      * now rewrite <- app_assoc.
      * rewrite map_app. apply Forall_app. split; [assumption|].
        now constructor.
      * rewrite map_app. now apply apart_snoc.
    + rewrite map_map. simpl.
      rewrite <- (map_map fst hexify), existsb_map.
      now apply existsb_false_apart with (l := map fst kv).
Qed.

Lemma hexify_dict kv :
  forallb hashable (map fst kv) = true -> distinct (map fst kv) = true ->
  hexify (PyDict kv) = PyDict (map hexify_entry kv).
Proof.
  intros Hh Hd. simpl. f_equal.
  apply (@hexify_dict_fold kv []); auto. intros p x [].
Qed.

Lemma hashable_well_formed v : hashable v = true -> well_formed v = true.
Proof.
  induction v using pyval_induction; intros Hv; try discriminate;
    try reflexivity.
  simpl in *. rewrite forallb_forall in *. rewrite Forall_forall in H. auto.
Qed.

Lemma all_members_hexify l m :
  forallb hashable l = true ->
  all_members (map hexify l) m = all_members l m.
Proof.
  induction l as [|x l IH]; simpl; [reflexivity|].
  intros H. apply andb_true_iff in H. destruct H as [Hx Hl].
  rewrite IH by assumption. f_equal.
  apply existsb_ext. intros y. now apply py_eq_hexify_key.
Qed.

Lemma assoc_find_ext p q kv :
  (forall k, p k = q k) -> assoc_find p kv = assoc_find q kv.
Proof.
  intros H. induction kv as [|[k v] kv IH]; simpl; [reflexivity|].
  now rewrite H, IH.
Qed.

Lemma all_entries_hexify kv m :
  forallb hashable (map fst kv) = true ->
  Forall (fun e => forall b, py_eq (hexify (snd e)) b = py_eq (snd e) b) kv ->
  all_entries (map hexify_entry kv) m = all_entries kv m.
Proof.
  induction kv as [|[k v] kv IH]; simpl; [reflexivity|].
  intros Hh Hv. apply andb_true_iff in Hh. destruct Hh as [Hk Hh].
  inversion Hv as [|? ? Hv1 Hv2]; subst. simpl in Hv1.
  rewrite IH by assumption. f_equal.
  rewrite (assoc_find_ext (py_eq (hexify k)) (py_eq k) m)
    by (intros; now apply py_eq_hexify_key).
  destruct (assoc_find (py_eq k) m); [apply Hv1|reflexivity].
Qed.

Lemma well_formed_dict_values (P : pyval -> Prop) kv :
  Forall (fun e => (well_formed (fst e) = true -> P (fst e)) /\
                   (well_formed (snd e) = true -> P (snd e))) kv ->
  forallb (fun e : pyval * pyval => well_formed (snd e)) kv = true ->
  Forall (fun e => P (snd e)) kv.
Proof.
  induction 1 as [|e kv [_ He] _ IH]; simpl; intros H; constructor;
    apply andb_true_iff in H; destruct H; auto.
Qed.

Lemma Forall_well_formed (P : pyval -> Prop) l :
  Forall (fun x => well_formed x = true -> P x) l ->
  forallb well_formed l = true -> Forall P l.
Proof.
  induction 1 as [|x l Hx _ IH]; simpl; intros H; constructor;
    apply andb_true_iff in H; destruct H; auto.
Qed.

(** A value that Python can build may be hexified on the left of [==]. *)
Lemma py_eq_hexify_l a :
  well_formed a = true -> forall b, py_eq (hexify a) b = py_eq a b.
Proof.
  induction a using pyval_induction; intros Ha y; try reflexivity.
  - change (hexify (PyList l)) with (PyList (map hexify l)).
    destruct y as [| | | | |m|m|m|m]; try reflexivity.
    rewrite !py_eq_list. apply seq_eq_hexify_l.
    simpl in Ha. now apply Forall_well_formed.
  - change (hexify (PyTuple l)) with (PyTuple (map hexify l)).
    destruct y as [| | | | |m|m|m|m]; try reflexivity.
    rewrite !py_eq_tuple. apply seq_eq_hexify_l.
    simpl in Ha. now apply Forall_well_formed.
  - simpl in Ha. apply andb_true_iff in Ha. destruct Ha as [Hh Hd].
    rewrite hexify_set by assumption.
    destruct y as [| | | | |m|m|m|m]; try reflexivity.
    rewrite !py_eq_set, length_map. f_equal.
    now apply all_members_hexify.
  - simpl in Ha. apply andb_true_iff in Ha. destruct Ha as [Ha Hv].
    apply andb_true_iff in Ha. destruct Ha as [Hh Hd].
    rewrite hexify_dict by assumption.
    destruct y as [| | | | |m|m|m|m]; try reflexivity.
    rewrite !py_eq_dict, length_map. f_equal.
    apply all_entries_hexify; [assumption|].
    eapply well_formed_dict_values with
      (P := fun v => forall b, py_eq (hexify v) b = py_eq v b); eassumption.
Qed.

Lemma seq_eq_refl l : Forall (fun x => py_eq x x = true) l -> seq_eq l l = true.
Proof. induction 1 as [|x l Hx _ IH]; simpl; [reflexivity|now rewrite Hx]. Qed.

Lemma all_members_refl l m :
  Forall (fun x => py_eq x x = true) l -> incl l m -> all_members l m = true.
Proof.
  induction 1 as [|x l Hx _ IH]; simpl; intros Hi; [reflexivity|].
  rewrite IH by (intros y Hy; apply Hi; now right).
  rewrite andb_true_r. apply existsb_exists. exists x. split; [|assumption].
  apply Hi. now left.
Qed.

(** In a dictionary that Python can build, looking a key up finds the
    value stored with it. *)
Lemma assoc_find_own kv k v :
  forallb hashable (map fst kv) = true -> distinct (map fst kv) = true ->
  Forall (fun e => py_eq (fst e) (fst e) = true) kv ->
  In (k, v) kv -> assoc_find (py_eq k) kv = Some v.
Proof.
  induction kv as [|[k0 v0] kv IH]; simpl; intros Hh Hd Hr Hin; [easy|].
  apply andb_true_iff in Hh. destruct Hh as [Hk0 Hh].
  apply andb_true_iff in Hd. destruct Hd as [Hn Hd].
  inversion Hr as [|? ? Hr0 Hr']; subst. simpl in Hr0.
  destruct Hin as [Heq|Hin].
  - inversion Heq; subst. now rewrite Hr0.
  - assert (Hk : hashable k = true).
    { rewrite forallb_forall in Hh. apply Hh.
      apply in_map_iff. now exists (k, v). }
    rewrite py_eq_sym by assumption.
    apply negb_true_iff in Hn.
    destruct (py_eq k0 k) eqn:Hk0k.
    + exfalso. rewrite <- not_true_iff_false in Hn. apply Hn.
      apply existsb_exists. exists k. split; [|assumption].
      apply in_map_iff. now exists (k, v).
    + now apply IH.
Qed.

Lemma all_entries_refl l m :
  forallb hashable (map fst m) = true -> distinct (map fst m) = true ->
  Forall (fun e => py_eq (fst e) (fst e) = true) m ->
  Forall (fun e => py_eq (snd e) (snd e) = true) l ->
  incl l m -> all_entries l m = true.
Proof.
  intros Hh Hd Hk. induction 1 as [|[k v] l Hv _ IH]; simpl; intros Hi;
    [reflexivity|].
  rewrite IH by (intros y Hy; apply Hi; now right).
  rewrite (@assoc_find_own m k v) by (auto; apply Hi; now left).
  simpl in Hv. now rewrite Hv.
Qed.

Lemma py_eq_refl a : well_formed a = true -> py_eq a a = true.
Proof.
  induction a using pyval_induction; intros Ha; try reflexivity.
  - destruct b; reflexivity.
  - simpl. apply Z.eqb_refl.
  - simpl. apply Z.eqb_refl.
  - simpl. apply pystr_eqb_refl.
  - rewrite py_eq_list. apply seq_eq_refl.
    simpl in Ha. now apply Forall_well_formed.
  - rewrite py_eq_tuple. apply seq_eq_refl.
    simpl in Ha. now apply Forall_well_formed.
  - simpl in Ha. apply andb_true_iff in Ha. destruct Ha as [Hh Hd].
    rewrite py_eq_set, Nat.eqb_refl. simpl.
    apply all_members_refl; [|apply incl_refl].
    apply Forall_hashable; [|assumption].
    eapply Forall_impl; [|exact H]. simpl.
    intros x Hx Hhx. apply Hx. now apply hashable_well_formed.
  - simpl in Ha. apply andb_true_iff in Ha. destruct Ha as [Ha Hv].
    apply andb_true_iff in Ha. destruct Ha as [Hh Hd].
    rewrite py_eq_dict, Nat.eqb_refl. simpl.
    apply all_entries_refl; auto using incl_refl.
    + clear Hd Hv. induction H as [|[k v] kv [Hk _] _ IH]; constructor.
      * simpl in *. apply andb_true_iff in Hh. destruct Hh.
        apply Hk. now apply hashable_well_formed.
      * apply IH. simpl in Hh. apply andb_true_iff in Hh. now destruct Hh.
    + eapply well_formed_dict_values with (P := fun v => py_eq v v = true);
        eassumption.
Qed.

Lemma existsb_hexify_r x l :
  hashable x = true ->
  existsb (py_eq x) (map hexify l) = existsb (py_eq x) l.
Proof.
  intros Hx. rewrite existsb_map. apply existsb_ext. intros y.
  now apply py_eq_hexify_r.
Qed.

(** Membership of a hashable value in a hexified container. *)
Lemma py_in_hexify x c :
  hashable x = true -> well_formed c = true ->
  py_in x (hexify c) = py_in x c.
Proof.
  intros Hx Hc. destruct c as [| | | | |l|l|l|kv]; try reflexivity.
  - simpl. now rewrite existsb_hexify_r.
  - simpl. now rewrite existsb_hexify_r.
  - simpl in Hc. apply andb_true_iff in Hc. destruct Hc as [Hh Hd].
    rewrite hexify_set by assumption. simpl. rewrite Hx.
    now rewrite existsb_hexify_r.
  - simpl in Hc. apply andb_true_iff in Hc. destruct Hc as [Hc Hv].
    apply andb_true_iff in Hc. destruct Hc as [Hh Hd].
    rewrite hexify_dict by assumption. simpl. rewrite Hx.
    rewrite map_map. simpl. rewrite <- (map_map fst hexify).
    now rewrite existsb_hexify_r.
Qed.

(** C10. [hexify(x) == x] for every value built from [None], booleans,
    integers, strings, lists, tuples, sets and dictionaries: a boolean stays
    the boolean it is, an integer becomes the [HexInt] of the same number, and
    a hexified value can stand for the raw one on the left of [==] and as the
    container of [in]. *)
Theorem hexify_is_equal (x : pyval) :
  well_formed x = true ->
  py_eq (hexify x) x = true
  /\ (forall b, hexify (PyBool b) = PyBool b)
  /\ as_int (hexify x) = as_int x
  /\ (forall y, py_eq (hexify x) y = py_eq x y)
  /\ (forall key, py_in (PyInt key) (hexify x) = py_in (PyInt key) x).
Proof.
  intros Hx. repeat split.
  - rewrite py_eq_hexify_l by assumption. now apply py_eq_refl.
  - apply as_int_hexify.
  - now apply py_eq_hexify_l.
  - intros key. now apply py_in_hexify.
Qed.

Lemma hexify_is_equal_witness :
  well_formed sample_report = true
  /\ py_eq (hexify sample_report) sample_report = true.
Proof.
  split; [reflexivity|].
  apply (hexify_is_equal sample_report). reflexivity.
Defined.

(* ================================================================== *)
(** * The monad *)

Section Laws.
Variable E : Env.

Lemma bind_run A B (m : M E A) (k : A -> M E B) d :
  bind m k d =
  match res (m d) with
  | Ok a =>
      let o' := k a (dev (m d)) in
      Outcome (res o') (dev o') (trace (m d) ++ trace o')
  | Raise e => Outcome (Raise e) (dev (m d)) (trace (m d))
  end.
Proof. reflexivity. Qed.

Lemma outcome_eta A (o : outcome E A) : Outcome (res o) (dev o) (trace o) = o.
Proof. now destruct o. Qed.

Lemma bind_assoc A B C (m : M E A) (k : A -> M E B) (h : B -> M E C) d :
  bind (bind m k) h d = bind m (fun a => bind (k a) h) d.
Proof.
  unfold bind. destruct (res (m d)) as [a|e]; simpl; [|reflexivity].
  destruct (res (k a (dev (m d)))); simpl; [|reflexivity].
  now rewrite app_assoc.
Qed.

Lemma bind_ext A B (m : M E A) (k k' : A -> M E B) d :
  (forall a d', k a d' = k' a d') -> bind m k d = bind m k' d.
Proof.
  intros H. unfold bind. destruct (res (m d)); [|reflexivity].
  now rewrite H.
Qed.

(** What a successful [bind] is made of. *)
Lemma bind_ok A B (m : M E A) (k : A -> M E B) d b :
  res (bind m k d) = Ok b ->
  exists a,
    res (m d) = Ok a
    /\ res (k a (dev (m d))) = Ok b
    /\ dev (bind m k d) = dev (k a (dev (m d)))
    /\ trace (bind m k d) = trace (m d) ++ trace (k a (dev (m d))).
Proof.
  rewrite bind_run. destruct (res (m d)) as [a|e]; simpl; [|discriminate].
  intros H. now exists a.
Qed.

Lemma lift_ok A (r : result A) (d : Device E) a :
  res (lift r d) = Ok a -> r = Ok a /\ dev (lift r d) = d
                        /\ trace (lift r d) = [].
Proof. destruct r; simpl; intros H; [now inversion H|discriminate]. Qed.

Lemma assert_ok b s (d : Device E) u :
  res (assert b s d) = Ok u -> b = true /\ dev (assert b s d) = d
                              /\ trace (assert b s d) = [].
Proof. destruct b; simpl; intros H; [auto|discriminate]. Qed.

(** ** Events *)

Lemma issues_ret A P (a : A) : issues P (ret (E := E) a).
Proof. intros d. reflexivity. Qed.

Lemma issues_raise A P e : issues P (raise (E := E) (A := A) e).
Proof. intros d. reflexivity. Qed.

Lemma issues_lift A P (r : result A) : issues P (lift (E := E) r).
Proof. intros d. now destruct r. Qed.

Lemma issues_assert P b s : issues P (assert (E := E) b s).
Proof. intros d. now destruct b. Qed.

Lemma issues_print P line :
  P (Printed line) = true -> issues P (print (E := E) line).
Proof. intros H d. simpl. now rewrite H. Qed.

Lemma issues_bind A B P (m : M E A) (k : A -> M E B) :
  issues P m -> (forall a, issues P (k a)) -> issues P (bind m k).
Proof.
  intros Hm Hk d. rewrite bind_run. specialize (Hm d).
  destruct (res (m d)) as [a|e]; simpl; [|assumption].
  rewrite forallb_app, Hm. apply Hk.
Qed.

Lemma issues_try A P (m : M E A) h :
  issues P m -> (forall e, issues P (h e)) -> issues P (try_except m h).
Proof.
  intros Hm Hh d. unfold try_except. specialize (Hm d).
  destruct (res (m d)) as [a|e]; [assumption|].
  destruct (is_Exception e); [|assumption]. simpl.
  rewrite forallb_app, Hm. apply Hh.
Qed.

Lemma issues_subprocess P command input :
  (forall i o, P (Ran command i o) = true) ->
  issues P (subprocess E command input).
Proof.
  intros H d. unfold subprocess. destruct (spawn E command input d).
  simpl. now rewrite H.
Qed.

Lemma issues_run_command P command input :
  (forall i o, P (Ran command i o) = true) ->
  issues P (run_command E command input).
Proof.
  intros H. apply issues_bind; [now apply issues_subprocess|].
  intros [rc out err|]; [|apply issues_raise].
  destruct (rc =? 0); [apply issues_ret|apply issues_raise].
Qed.

Lemma issues_run_command_yaml P command :
  (forall i o, P (Ran command i o) = true) ->
  issues P (run_command_yaml E command).
Proof.
  intros H. apply issues_bind; [now apply issues_subprocess|].
  intros [rc out err|]; [|apply issues_raise].
  destruct (decode_text out); [|apply issues_raise].
  destruct (decode_text err) as [[|c s]|]; try apply issues_raise.
  - destruct (negb (rc =? 0)); [apply issues_raise|].
    destruct (strip p); [apply issues_ret|].
    destruct (yaml_safe_load_all E (z :: p0)); [|apply issues_raise].
    destruct (map hexify l) as [|doc [|doc' docs]]; apply issues_ret.
  - destruct (negb (rc =? 0)); apply issues_raise.
Qed.

(** ** Assertions *)

Lemma asserts_in_apply A S (m : M E A) d s :
  res (m d) = Raise (AssertionError s) -> asserts_in S m -> S s = true.
Proof. intros H Hm. exact (Hm d s H). Qed.

Lemma asserts_ret A S (a : A) : asserts_in S (ret (E := E) a).
Proof. intros d s H. discriminate. Qed.

Lemma asserts_raise A S e :
  (forall s, e = AssertionError s -> S s = true) ->
  asserts_in S (raise (E := E) (A := A) e).
Proof. intros H d s Hs. simpl in Hs. inversion Hs. now apply H. Qed.

Lemma asserts_assert S b s : S s = true -> asserts_in S (assert (E := E) b s).
Proof.
  intros H d s' Hs. destruct b; simpl in Hs; [discriminate|].
  inversion Hs. now subst.
Qed.


Lemma asserts_print S line : asserts_in S (print (E := E) line).
Proof. intros d s H. discriminate. Qed.

Lemma asserts_bind A B S (m : M E A) (k : A -> M E B) :
  asserts_in S m -> (forall a, asserts_in S (k a)) -> asserts_in S (bind m k).
Proof.
  intros Hm Hk d s. rewrite bind_run. specialize (Hm d).
  destruct (res (m d)) as [a|e]; simpl.
  - apply Hk.
  - intros H. apply Hm. inversion H. reflexivity.
Qed.

Lemma asserts_try A S (m : M E A) h :
  asserts_in S m -> (forall e, asserts_in S (h e)) ->
  asserts_in S (try_except m h).
Proof.
  intros Hm Hh d s. unfold try_except. specialize (Hm d).
  destruct (res (m d)) as [a|e] eqn:Hr.
  - rewrite Hr. discriminate.
  - destruct (is_Exception e); simpl.
    + apply Hh.
    + rewrite Hr. apply Hm.
Qed.

Lemma asserts_py_get S obj key : asserts_in S (lift (E := E) (py_get obj key)).
Proof.
  intros d s. destruct obj; simpl; try discriminate.
  destruct (assoc_find (py_eq key) kv); discriminate.
Qed.

Lemma asserts_py_in S x c : asserts_in S (lift (E := E) (py_in x c)).
Proof.
  intros d s. destruct c; simpl; try discriminate.
  - destruct x; discriminate.
  - destruct (hashable x); discriminate.
  - destruct (hashable x); discriminate.
Qed.

Lemma asserts_py_int_le S n v : asserts_in S (lift (E := E) (py_int_le n v)).
Proof.
  intros d s. unfold py_int_le. destruct (as_int v); discriminate.
Qed.

Lemma asserts_encode S value :
  asserts_in S (lift (E := E)
                  (match utf8_encode value with
                   | Some b => Ok b
                   | None => Raise UnicodeEncodeError
                   end)).
Proof. intros d s. destruct (utf8_encode value); discriminate. Qed.

Lemma asserts_subprocess S command input :
  asserts_in S (subprocess E command input).
Proof.
  intros d s. unfold subprocess. destruct (spawn E command input d).
  discriminate.
Qed.

Lemma asserts_run_command S command input :
  asserts_in S (run_command E command input).
Proof.
  apply asserts_bind; [apply asserts_subprocess|].
  intros [rc out err|]; [|now apply asserts_raise].
  destruct (rc =? 0); [apply asserts_ret|now apply asserts_raise].
Qed.

Lemma asserts_run_command_yaml S command :
  asserts_in S (run_command_yaml E command).
Proof.
  apply asserts_bind; [apply asserts_subprocess|].
  intros [rc out err|]; [|now apply asserts_raise].
  destruct (decode_text out); [|now apply asserts_raise].
  destruct (decode_text err) as [[|c s]|]; try now apply asserts_raise.
  - destruct (negb (rc =? 0)); [now apply asserts_raise|].
    destruct (strip p); [apply asserts_ret|].
    destruct (yaml_safe_load_all E (z :: p0)); [|now apply asserts_raise].
    destruct (map hexify l) as [|doc [|doc' docs]]; apply asserts_ret.
  - destruct (negb (rc =? 0)); now apply asserts_raise.
Qed.
End Laws.

(* ================================================================== *)
(** * Read-only computations *)

Lemma is_query_not_mutating command input o :
  is_query command = true -> negb (mutating (Ran command input o)) = true.
Proof.
  unfold is_query, mutating, runs, program_of. simpl.
  intros H. repeat (apply orb_true_iff in H; destruct H as [H|H]);
    apply pystr_eqb_eq in H; rewrite H; reflexivity.
Qed.

Section ReadOnly.
Variable E : Env.

Lemma readonly_ret A (a : A) : readonly (ret (E := E) a).
Proof. intros d. now split. Qed.

Lemma readonly_raise A e : readonly (raise (E := E) (A := A) e).
Proof. intros d. now split. Qed.

Lemma readonly_lift A (r : result A) : readonly (lift (E := E) r).
Proof. intros d. now destruct r. Qed.

Lemma readonly_assert b s : readonly (assert (E := E) b s).
Proof. intros d. now destruct b. Qed.

Lemma readonly_print line : readonly (print (E := E) line).
Proof. intros d. now split. Qed.

Lemma readonly_bind A B (m : M E A) (k : A -> M E B) :
  readonly m -> (forall a, readonly (k a)) -> readonly (bind m k).
Proof.
  intros Hm Hk d. rewrite bind_run. destruct (Hm d) as [Ht Hd].
  destruct (res (m d)) as [a|e]; simpl; [|now split].
  destruct (Hk a (dev (m d))) as [Ht' Hd'].
  rewrite forallb_app, Ht, Ht'. split; [reflexivity|].
  intros Hp. now rewrite Hd', Hd.
Qed.

Lemma readonly_try A (m : M E A) h :
  readonly m -> (forall e, readonly (h e)) -> readonly (try_except m h).
Proof.
  intros Hm Hh d. unfold try_except. destruct (Hm d) as [Ht Hd].
  destruct (res (m d)) as [a|e]; [now split|].
  destruct (is_Exception e); [|now split]. simpl.
  destruct (Hh e (dev (m d))) as [Ht' Hd'].
  rewrite forallb_app, Ht, Ht'. split; [reflexivity|].
  intros Hp. now rewrite Hd', Hd.
Qed.

Lemma readonly_subprocess command input :
  is_query command = true -> readonly (subprocess E command input).
Proof.
  intros Hq d. unfold subprocess.
  pose proof (fun Hp : queries_are_pure E => Hp command input d Hq) as Hd.
  destruct (spawn E command input d) as [o d']. simpl in *.
  now rewrite is_query_not_mutating.
Qed.

Lemma readonly_run_command command input :
  is_query command = true -> readonly (run_command E command input).
Proof.
  intros Hq. apply readonly_bind; [now apply readonly_subprocess|].
  intros [rc out err|]; [|apply readonly_raise].
  destruct (rc =? 0); [apply readonly_ret|apply readonly_raise].
Qed.

Lemma readonly_run_command_yaml command :
  is_query command = true -> readonly (run_command_yaml E command).
Proof.
  intros Hq. apply readonly_bind; [now apply readonly_subprocess|].
  intros [rc out err|]; [|apply readonly_raise].
  destruct (decode_text out); [|apply readonly_raise].
  destruct (decode_text err) as [[|c s]|]; try apply readonly_raise.
  - destruct (negb (rc =? 0)); [apply readonly_raise|].
    destruct (strip p); [apply readonly_ret|].
    destruct (yaml_safe_load_all E (z :: p0)); [|apply readonly_raise].
    destruct (map hexify l) as [|doc [|doc' docs]]; apply readonly_ret.
  - destruct (negb (rc =? 0)); apply readonly_raise.
Qed.

Lemma readonly_tpm_get_nv_indices : readonly (tpm_get_nv_indices E).
Proof. now apply readonly_run_command_yaml. Qed.

Lemma readonly_tmp_get_hardware_info : readonly (tmp_get_hardware_info E).
Proof. now apply readonly_run_command_yaml. Qed.

Lemma readonly_tpm_get_nv_index_metadata index :
  readonly (tpm_get_nv_index_metadata E index).
Proof.
  apply readonly_bind; [apply readonly_tpm_get_nv_indices|intros l].
  apply readonly_bind; [apply readonly_lift|intros present].
  apply readonly_bind; [apply readonly_assert|intros _].
  now apply readonly_run_command_yaml.
Qed.

Lemma readonly_tpm_read_nvm index pwd : readonly (tpm_read_nvm E index pwd).
Proof.
  apply readonly_bind; [apply readonly_tpm_get_nv_index_metadata|intros md].
  apply readonly_bind; [apply readonly_lift|intros entry].
  apply readonly_bind; [apply readonly_lift|intros size].
  apply readonly_try.
  - apply readonly_bind; [now apply readonly_run_command|intros result].
    destruct (utf8_decode (stdout result));
      [apply readonly_ret|apply readonly_raise].
  - intros e. apply readonly_bind; [apply readonly_print|intros _].
    apply readonly_ret.
Qed.

(** Reading leaves the device as it is. *)
Lemma tpm_read_nvm_keeps index pwd d :
  queries_are_pure E -> dev (tpm_read_nvm E index pwd d) = d.
Proof. intros Hp. now apply readonly_tpm_read_nvm. Qed.

(** ** Failing at a sanity check *)

Lemma harmless_bind A B (m : M E A) (k : A -> M E B) :
  readonly m -> (forall a, harmless (k a)) -> harmless (bind m k).
Proof.
  intros Hm Hk d s. rewrite bind_run. destruct (Hm d) as [Ht Hd].
  destruct (res (m d)) as [a|e]; simpl; [|now split].
  intros Hr Hs. destruct (Hk a (dev (m d)) s Hr Hs) as [Ht' Hd'].
  rewrite forallb_app, Ht, Ht'. split; [reflexivity|].
  intros Hp. now rewrite Hd', Hd.
Qed.

Lemma harmless_of_asserts A (m : M E A) :
  asserts_in (fun s => negb (validation_site s)) m -> harmless m.
Proof.
  intros Hm d s Hr Hs. apply Hm in Hr. rewrite Hs in Hr. discriminate.
Qed.

(** ** The assertions of the reader and of the writer *)

Lemma asserts_tpm_read_nvm S index pwd :
  S IndexExists = true -> asserts_in S (tpm_read_nvm E index pwd).
Proof.
  intros HS.
  apply asserts_bind.
  { apply asserts_bind; [apply asserts_run_command_yaml|intros l].
    apply asserts_bind; [apply asserts_py_in|intros present].
    apply asserts_bind; [now apply asserts_assert|intros _].
    apply asserts_run_command_yaml. }
  intros md.
  apply asserts_bind; [apply asserts_py_get|intros entry].
  apply asserts_bind; [apply asserts_py_get|intros size].
  apply asserts_try.
  - apply asserts_bind; [apply asserts_run_command|intros result].
    destruct (utf8_decode (stdout result));
      [apply asserts_ret|now apply asserts_raise].
  - intros e. apply asserts_bind; [apply asserts_print|intros _].
    apply asserts_ret.
Qed.

(** [tpm_write] is its part up to the write command, then the
    read-back. *)
Lemma tpm_write_split key value pwd d :
  tpm_write E key value pwd d
  = bind (define_and_write E key value pwd)
      (fun _ => read_back E key value pwd) d.
Proof.
  unfold tpm_write, define_and_write, read_back. cbv zeta.
  symmetry.
  repeat (rewrite bind_assoc; apply bind_ext; intros).
  reflexivity.
Qed.
End ReadOnly.

(* ================================================================== *)
(** * UTF-8 *)

(** The digits of a number in base 64. *)
Lemma digits64_of c :
  0 <= c ->
  c = 262144 * (c / 262144) + 4096 * ((c / 4096) mod 64)
      + 64 * ((c / 64) mod 64) + c mod 64
  /\ 0 <= c mod 64 < 64 /\ 0 <= (c / 64) mod 64 < 64
  /\ 0 <= (c / 4096) mod 64 < 64 /\ 0 <= c / 262144.
Proof.
  intros Hc.
  pose proof (Z.div_mod c 64 ltac:(lia)) as H1.
  pose proof (Z.div_mod (c / 64) 64 ltac:(lia)) as H2.
  pose proof (Z.div_mod (c / 4096) 64 ltac:(lia)) as H3.
  rewrite (Z.div_div c 64 64) in H2 by lia.
  rewrite (Z.div_div c 4096 64) in H3 by lia.
  change (64 * 64) with 4096 in H2. change (4096 * 64) with 262144 in H3.
  pose proof (Z.mod_pos_bound c 64 ltac:(lia)).
  pose proof (Z.mod_pos_bound (c / 64) 64 ltac:(lia)).
  pose proof (Z.mod_pos_bound (c / 4096) 64 ltac:(lia)).
  pose proof (Z.div_pos c 262144 Hc ltac:(lia)).
  repeat split; lia.
Qed.

Lemma digits64 a3 a2 a1 a0 c :
  0 <= a0 < 64 -> 0 <= a1 < 64 -> 0 <= a2 < 64 -> 0 <= a3 ->
  c = 262144 * a3 + 4096 * a2 + 64 * a1 + a0 ->
  c mod 64 = a0 /\ c / 64 = 4096 * a3 + 64 * a2 + a1
  /\ (c / 64) mod 64 = a1 /\ c / 4096 = 64 * a3 + a2
  /\ (c / 4096) mod 64 = a2 /\ c / 262144 = a3.
Proof.
  intros H0 H1 H2 H3 ->.
  assert (E64 : (262144 * a3 + 4096 * a2 + 64 * a1 + a0) / 64
                = 4096 * a3 + 64 * a2 + a1)
    by (symmetry; apply Z.div_unique with (r := a0); lia).
  assert (E4096 : (262144 * a3 + 4096 * a2 + 64 * a1 + a0) / 4096
                  = 64 * a3 + a2)
    by (symmetry; apply Z.div_unique with (r := 64 * a1 + a0); lia).
  rewrite E64, E4096. repeat split.
  - symmetry. apply Z.mod_unique with (q := 4096 * a3 + 64 * a2 + a1); lia.
  - symmetry. apply Z.mod_unique with (q := 64 * a3 + a2); lia.
  - symmetry. apply Z.mod_unique with (q := a3); lia.
  - symmetry. apply Z.div_unique with (r := 4096 * a2 + 64 * a1 + a0); lia.
Qed.

(** Settle the comparisons of the goal whose outcome the context fixes. *)
Ltac settle :=
  repeat match goal with
    | |- context [?a <=? ?b] =>
        first [ replace (a <=? b) with true by (symmetry; apply Z.leb_le; lia)
              | replace (a <=? b) with false by (symmetry; apply Z.leb_gt; lia) ]
    | |- context [?a <? ?b] =>
        first [ replace (a <? b) with true by (symmetry; apply Z.ltb_lt; lia)
              | replace (a <? b) with false by (symmetry; apply Z.ltb_ge; lia) ]
    | |- context [?a =? ?b] =>
        first [ replace (a =? b) with true by (symmetry; apply Z.eqb_eq; lia)
              | replace (a =? b) with false by (symmetry; apply Z.eqb_neq; lia) ]
    end.

(** Name the digits of [c] and forget the divisions. *)
Ltac digits c :=
  let H := fresh in
  let E := fresh "E" in
  pose proof (@digits64_of c ltac:(lia)) as H;
  destruct H as (E & ? & ? & ? & ?);
  generalize dependent (c mod 64); intros a0;
  generalize dependent ((c / 64) mod 64); intros a1;
  generalize dependent ((c / 4096) mod 64); intros a2;
  generalize dependent (c / 262144); intros a3; intros.

(** Equality of two lists of bytes, byte by byte. *)
Ltac bytes_eq :=
  repeat (apply (f_equal2 (@cons Z)); [lia|]); reflexivity.

Lemma some_eq (A : Type) (x y : A) : Some x = Some y -> y = x.
Proof. now intros [= ->]. Qed.

Lemma utf8_encode_char_shape c bc :
  utf8_encode_char c = Some bc ->
  exists a3 a2 a1 a0,
    0 <= a0 < 64 /\ 0 <= a1 < 64 /\ 0 <= a2 < 64 /\ 0 <= a3
    /\ c = 262144 * a3 + 4096 * a2 + 64 * a1 + a0
    /\ ((c < 0x80 /\ bc = [c])
        \/ (0x80 <= c < 0x800 /\ bc = [0xC0 + a1; 0x80 + a0])
        \/ (0x800 <= c < 0x10000 /\ ~ (0xD800 <= c <= 0xDFFF)
            /\ bc = [0xE0 + a2; 0x80 + a1; 0x80 + a0])
        \/ (0x10000 <= c < 0x110000
            /\ bc = [0xF0 + a3; 0x80 + a2; 0x80 + a1; 0x80 + a0])).
Proof.
  unfold utf8_encode_char, is_surrogate.
  destruct (Z.ltb_spec c 0); [discriminate|].
  destruct (digits64_of H) as (Ec & H0 & H1 & H2 & H3).
  destruct (digits64 H0 H1 H2 H3 Ec) as (D0 & D64 & D1 & D4096 & D2 & D3).
  intros Hbc.
  exists (c / 262144), ((c / 4096) mod 64), ((c / 64) mod 64), (c mod 64).
  repeat (split; [assumption|]).
  destruct (Z.ltb_spec c 0x80).
  { left. apply some_eq in Hbc. auto. }
  destruct (Z.ltb_spec c 0x800).
  { right; left. apply some_eq in Hbc. split; [lia|].
    subst bc. bytes_eq. }
  destruct (Z.leb_spec 0xD800 c), (Z.leb_spec c 0xDFFF); cbn [andb] in Hbc;
    try discriminate;
    destruct (Z.ltb_spec c 0x10000); try lia;
    try (destruct (Z.ltb_spec c 0x110000); [|discriminate]);
    apply some_eq in Hbc; subst bc;
    first [ solve [right; right; right; split; [lia|]; bytes_eq]
          | solve [right; right; left; repeat split; try lia; bytes_eq] ].
Qed.




(** Turn the tests that hold into propositions. *)
Ltac props :=
  repeat match goal with
    | H : _ && _ = true |- _ => apply andb_true_iff in H; destruct H
    | H : negb _ = true |- _ => apply negb_true_iff in H
    | H : (_ <=? _) = true |- _ => apply Z.leb_le in H
    | H : (_ <? _) = true |- _ => apply Z.ltb_lt in H
    | H : (_ =? _) = true |- _ => apply Z.eqb_eq in H
    | H : (_ <=? _) = false |- _ => apply Z.leb_gt in H
    | H : (_ <? _) = false |- _ => apply Z.ltb_ge in H
    | H : (_ =? _) = false |- _ => apply Z.eqb_neq in H
    | H : _ && _ = false |- _ => apply andb_false_iff in H; destruct H
    end.

Lemma prepend_some c r x s :
  prepend c r = Some (x :: s) -> x = c /\ r = Some s.
Proof. destruct r; simpl; intros [= -> ->]; auto. Qed.

(** The bytes that the decoder takes for a code point are its encoding. *)
Lemma utf8_encode_char_digits a3 a2 a1 a0 c :
  0 <= a0 < 64 -> 0 <= a1 < 64 -> 0 <= a2 < 64 -> 0 <= a3 ->
  c = 262144 * a3 + 4096 * a2 + 64 * a1 + a0 ->
  (c < 0x80 -> utf8_encode_char c = Some [c])
  /\ (0x80 <= c < 0x800 -> utf8_encode_char c = Some [0xC0 + a1; 0x80 + a0])
  /\ (0x800 <= c < 0x10000 -> ~ (0xD800 <= c <= 0xDFFF) ->
      utf8_encode_char c = Some [0xE0 + a2; 0x80 + a1; 0x80 + a0])
  /\ (0x10000 <= c < 0x110000 ->
      utf8_encode_char c = Some [0xF0 + a3; 0x80 + a2; 0x80 + a1; 0x80 + a0]).
Proof.
  intros H0 H1 H2 H3 Ec.
  destruct (digits64 H0 H1 H2 H3 Ec) as (D0 & D64 & D1 & D4096 & D2 & D3).
  unfold utf8_encode_char, is_surrogate. rewrite D0, D1, D2, D3, D64, D4096.
  clear D0 D1 D2 D3 D64 D4096.
  repeat split; intros; settle; cbn [andb];
    try (destruct (Z.leb_spec 0xD800 c), (Z.leb_spec c 0xDFFF); cbn [andb];
         try lia);
    settle; f_equal; bytes_eq.
Qed.

Lemma utf8_decode_cons b c s :
  utf8_decode b = Some (c :: s) ->
  exists bc rest,
    b = bc ++ rest /\ utf8_encode_char c = Some bc
    /\ utf8_decode rest = Some s.
Proof.
  destruct b as [|b0 r0]; [discriminate|]. cbn [utf8_decode].
  destruct ((0 <=? b0) && (b0 <? 128)) eqn:C1.
  { intros H. apply prepend_some in H. destruct H as [-> H]. props.
    exists [b0], r0. repeat split; [|assumption].
    apply (@utf8_encode_char_digits 0 0 (b0 / 64) (b0 mod 64) b0);
      try lia; try (Z.div_mod_to_equations; lia). }
  destruct r0 as [|b1 r1]; [discriminate|].
  destruct ((194 <=? b0) && (b0 <=? 223)) eqn:C2.
  { unfold is_cont. destruct ((128 <=? b1) && (b1 <=? 191)) eqn:C3;
      [|discriminate].
    intros H. apply prepend_some in H. destruct H as [-> H].
    exists [b0; b1], r1. repeat split; [|assumption].
    replace b0 with (0xC0 + (b0 - 192)) at 2 by lia.
    replace b1 with (0x80 + (b1 - 128)) at 2 by lia.
    props; try (exfalso; lia);
      apply (@utf8_encode_char_digits 0 0 (b0 - 192) (b1 - 128)); lia. }
  destruct r1 as [|b2 r2]; [discriminate|].
  destruct ((224 <=? b0) && (b0 <=? 239)) eqn:C3.
  { match goal with |- (if ?t then _ else _) = _ -> _ =>
      destruct t eqn:C4; [|discriminate] end.
    unfold is_cont in C4.
    intros H. apply prepend_some in H. destruct H as [-> H].
    exists [b0; b1; b2], r2. repeat split; [|assumption].
    replace b0 with (0xE0 + (b0 - 224)) at 2 by lia.
    replace b1 with (0x80 + (b1 - 128)) at 2 by lia.
    replace b2 with (0x80 + (b2 - 128)) at 2 by lia.
    props; try (exfalso; lia);
      apply (@utf8_encode_char_digits 0 (b0 - 224) (b1 - 128) (b2 - 128));
      lia. }
  destruct r2 as [|b3 r3]; [discriminate|].
  destruct ((240 <=? b0) && (b0 <=? 244)) eqn:C4; [|discriminate].
  match goal with |- (if ?t then _ else _) = _ -> _ =>
    destruct t eqn:C5; [|discriminate] end.
  unfold is_cont in C5.
  intros H. apply prepend_some in H. destruct H as [-> H].
  exists [b0; b1; b2; b3], r3. repeat split; [|assumption].
  replace b0 with (0xF0 + (b0 - 240)) at 2 by lia.
  replace b1 with (0x80 + (b1 - 128)) at 2 by lia.
  replace b2 with (0x80 + (b2 - 128)) at 2 by lia.
  replace b3 with (0x80 + (b3 - 128)) at 2 by lia.
  props; try (exfalso; lia);
    apply (@utf8_encode_char_digits (b0 - 240) (b1 - 128) (b2 - 128)
             (b3 - 128));
    lia.
Qed.

Lemma utf8_decode_nil b : utf8_decode b = Some [] -> b = [].
Proof.
  destruct b as [|b0 r0]; [reflexivity|]. cbn [utf8_decode].
  repeat match goal with
    | |- (if ?t then _ else _) = _ -> _ => destruct t
    | |- match ?r with [] => _ | _ :: _ => _ end = _ -> _ => destruct r
    | |- prepend _ ?r = _ -> _ => destruct r; simpl
    end; discriminate.
Qed.

(** What decodes to a text is the encoding of that text. *)
Lemma utf8_encode_decode b s :
  utf8_decode b = Some s -> utf8_encode s = Some b.
Proof.
  revert b. induction s as [|c s IH]; intros b H.
  - apply utf8_decode_nil in H. now subst.
  - apply utf8_decode_cons in H. destruct H as (bc & rest & -> & Hc & Hr).
    simpl. now rewrite Hc, (IH rest Hr).
Qed.

(* ================================================================== *)
(** * Writing and reading back *)

Section WriteAndRead.
Variable E : Env.

(** The three ways in which the end of [tpm_write] can go. *)
Lemma read_back_run key value pwd d :
  let r := tpm_read_nvm E key pwd d in
  read_back E key value pwd d =
  match res r with
  | Ok got =>
      if read_eq got value
      then Outcome (Ok tt) (dev r)
             (trace r ++ [Printed (py "Successfully wrote key value pair.")])
      else Outcome (Raise (AssertionError ReadBack)) (dev r) (trace r)
  | Raise e => Outcome (Raise e) (dev r) (trace r)
  end.
Proof.
  intros r. unfold read_back. rewrite bind_run. fold r.
  destruct (res r) as [got|e]; [|reflexivity].
  cbv zeta. rewrite bind_run.
  destruct (read_eq got value); simpl; [reflexivity|].
  now rewrite app_nil_r.
Qed.

Lemma read_eq_true r value : read_eq r value = true -> r = Text value.
Proof.
  destruct r as [s|e]; simpl; [|discriminate].
  intros H. apply pystr_eqb_eq in H. now subst.
Qed.

Lemma read_back_ok key value pwd d :
  res (read_back E key value pwd d) = Ok tt ->
  res (tpm_read_nvm E key pwd d) = Ok (Text value)
  /\ dev (read_back E key value pwd d) = dev (tpm_read_nvm E key pwd d).
Proof.
  rewrite read_back_run. cbv zeta.
  destruct (res (tpm_read_nvm E key pwd d)) as [got|e]; [|discriminate].
  destruct (read_eq got value) eqn:Hgot; [|discriminate].
  intros _. apply read_eq_true in Hgot. now subst.
Qed.

(** After a run of [tpm_write] that returned, a read finds the value. *)
Lemma read_after_write key value pwd d :
  queries_are_pure E ->
  res (tpm_write E key value pwd d) = Ok tt ->
  res (tpm_read_nvm E key pwd (dev (tpm_write E key value pwd d)))
  = Ok (Text value).
Proof.
  intros Hp. rewrite tpm_write_split. intros H.
  apply bind_ok in H. destruct H as (cp & Hw & Hrb & Hdev & _).
  rewrite Hdev. apply read_back_ok in Hrb. destruct Hrb as [Hr Hd].
  rewrite Hd, tpm_read_nvm_keeps by assumption. exact Hr.
Qed.


End WriteAndRead.

(* ================================================================== *)
(** * Stepping through the script *)

(** A property of the program that a command runs, for each of the argument
    vectors that the script builds. *)
Ltac by_program :=
  intros; unfold nvdefine_command, nvwrite_command, nvread_command;
  try match goal with |- context [truthy ?p] => destruct (truthy p) end;
  reflexivity.

(** One step through a computation of the script, for [issues]. *)
Ltac issues_step :=
  first
    [ apply issues_assert | apply issues_lift | apply issues_ret
    | apply issues_raise
    | apply issues_print; reflexivity
    | apply issues_run_command_yaml; by_program
    | apply issues_run_command; by_program
    | apply issues_try; [|intros ?]
    | apply issues_bind; [|intros ?]
    | match goal with
      | |- issues _ (match ?x with _ => _ end) => destruct x
      end ].

(** One step through a computation of the script, for [readonly]. *)
Ltac readonly_step :=
  first
    [ apply readonly_assert | apply readonly_lift | apply readonly_ret
    | apply readonly_raise | apply readonly_print
    | apply readonly_tpm_read_nvm
    | apply readonly_run_command_yaml; by_program
    | apply readonly_run_command; by_program
    | apply readonly_try; [|intros ?]
    | apply readonly_bind; [|intros ?]
    | match goal with
      | |- readonly (match ?x with _ => _ end) => destruct x
      end ].

(** One step, for [asserts_in]. *)
Ltac asserts_step :=
  first
    [ apply asserts_assert; reflexivity
    | apply asserts_py_get | apply asserts_py_in | apply asserts_py_int_le
    | apply asserts_encode | apply asserts_ret | apply asserts_print
    | apply asserts_raise; discriminate
    | apply asserts_tpm_read_nvm; reflexivity
    | apply asserts_run_command_yaml
    | apply asserts_run_command
    | apply asserts_try; [|intros ?]
    | apply asserts_bind; [|intros ?]
    | match goal with
      | |- asserts_in _ (match ?x with _ => _ end) => destruct x
      end ].

(** One step through the sanity checks, for [harmless]. *)
Ltac harmless_step :=
  apply harmless_bind; [solve [repeat readonly_step]|intros ?].


(* ================================================================== *)
(** * The reference device *)

Lemma reference_queries_are_pure : queries_are_pure Ref.env.
Proof.
  intros command input d Hq. change (spawn Ref.env) with Ref.run.
  destruct command as [|prog args]; [reflexivity|].
  unfold is_query in Hq. cbn [hd] in Hq. unfold Ref.run.
  destruct (pystr_eqb prog (py "tpm2_getcap")); [reflexivity|].
  destruct (pystr_eqb prog (py "tpm2_nvreadpublic")); [reflexivity|].
  destruct (pystr_eqb prog (py "tpm2_nvread")); [reflexivity|].
  discriminate.
Qed.


(* ================================================================== *)
(** * Running the script step by step *)

Section Steps.
Variable E : Env.

Lemma bind_ret A B (a : A) (k : A -> M E B) d : bind (ret a) k d = k a d.
Proof. unfold bind, ret. simpl. apply outcome_eta. Qed.

Lemma bind_assert_true B s (k : unit -> M E B) d :
  bind (assert true s) k d = k tt d.
Proof. apply bind_ret. Qed.

Lemma bind_assert_false B s (k : unit -> M E B) d :
  bind (assert false s) k d = Outcome (Raise (AssertionError s)) d [].
Proof. reflexivity. Qed.

Lemma bind_lift_ok A B (a : A) (k : A -> M E B) d :
  bind (lift (Ok a)) k d = k a d.
Proof. apply bind_ret. Qed.

(** A step that returned, then the rest. *)
Lemma bind_after A B (m : M E A) (k : A -> M E B) d a :
  res (m d) = Ok a ->
  bind m k d =
  Outcome (res (k a (dev (m d)))) (dev (k a (dev (m d))))
    (trace (m d) ++ trace (k a (dev (m d)))).
Proof. intros H. rewrite bind_run, H. reflexivity. Qed.

Lemma bind_trace A B (m : M E A) (k : A -> M E B) d :
  trace (bind m k d)
  = trace (m d) ++ match res (m d) with
                   | Ok a => trace (k a (dev (m d)))
                   | Raise _ => []
                   end.
Proof.
  rewrite bind_run. destruct (res (m d)); simpl; [reflexivity|].
  now rewrite app_nil_r.
Qed.

(** [run_command_yaml] runs its command and nothing else. *)
Lemma run_command_yaml_trace command d :
  trace (run_command_yaml E command d)
  = [Ran command None (fst (spawn E command None d))].
Proof.
  unfold run_command_yaml. rewrite bind_trace. unfold subprocess.
  destruct (spawn E command None d) as [o d']. simpl. f_equal.
  destruct o as [rc out err|]; [|reflexivity].
  destruct (decode_text out); [|reflexivity].
  destruct (decode_text err) as [[|c s]|]; try reflexivity.
  - destruct (negb (rc =? 0)); [reflexivity|].
    destruct (strip p); [reflexivity|].
    destruct (yaml_safe_load_all E (z :: p0)); [|reflexivity].
    destruct (map hexify l) as [|doc [|doc' docs]]; reflexivity.
  - destruct (negb (rc =? 0)); reflexivity.
Qed.

Lemma device_limit_some hw name n :
  device_limit hw name = Some n ->
  exists entry v,
    py_get hw (PyStr (py name)) = Ok entry
    /\ py_get entry (PyStr (py "raw")) = Ok v
    /\ as_int v = Some n.
Proof.
  unfold device_limit.
  destruct (py_get hw (PyStr (py name))) as [entry|] eqn:He; [|discriminate].
  destruct (py_get entry (PyStr (py "raw"))) as [v|] eqn:Hv; [|discriminate].
  intros H. now exists entry, v.
Qed.

(** The read command decides the result of [tpm_read_nvm] once the
    metadata of the index gave a size. *)
Lemma tpm_read_nvm_run index pwd d nv_index size :
  res (tpm_get_nv_index_metadata E index d) = Ok nv_index ->
  declared_size nv_index index = Some size ->
  res (tpm_read_nvm E index pwd d) =
  match fst (spawn E (nvread_command E index size pwd) None
               (dev (tpm_get_nv_index_metadata E index d))) with
  | Exited rc out e =>
      if rc =? 0 then
        match utf8_decode out with
        | Some s => Ok (Text s)
        | None => Ok (ExceptionObject UnicodeDecodeError)
        end
      else Raise (SystemExit
                    (CommandFailed (nvread_command E index size pwd)
                       rc out e))
  | NotStarted => Ok (ExceptionObject AttributeError)
  end.
Proof.
  intros Hmd Hsize. unfold declared_size in Hsize.
  destruct (py_get nv_index (PyInt index)) as [entry|] eqn:He;
    [|discriminate].
  destruct (py_get entry (PyStr (py "size"))) as [v|] eqn:Hv;
    [|discriminate].
  inversion Hsize; subst v.
  unfold tpm_read_nvm. rewrite bind_after with (a := nv_index) by exact Hmd.
  cbn [res].
  rewrite He, bind_lift_ok, Hv, bind_lift_ok. cbv zeta.
  unfold try_except, run_command, bind, subprocess.
  destruct (spawn E _ None _) as [[rc out e|] d']; simpl.
  - destruct (rc =? 0); simpl; [|reflexivity].
    destruct (utf8_decode out); reflexivity.
  - reflexivity.
Qed.

(** The two size checks of [tpm_write], for a key in the band and a
    report that gives the two limits. *)
Lemma size_checks key value pwd d hw bmax imax :
  0x01800000 <= key <= 0x01BFFFFF ->
  res (tmp_get_hardware_info E d) = Ok hw ->
  device_limit hw "TPM2_PT_NV_BUFFER_MAX" = Some bmax ->
  device_limit hw "TPM2_PT_NV_INDEX_MAX" = Some imax ->
  let o := tpm_write E key value pwd d in
  let q := tmp_get_hardware_info E d in
  (bmax < len value ->
   o = Outcome (Raise (AssertionError FitsBuffer)) (dev q) (trace q))
  /\ (len value <= bmax -> imax < len value ->
      o = Outcome (Raise (AssertionError FitsIndex)) (dev q) (trace q))
  /\ (len value <= bmax -> len value <= imax ->
      res o <> Raise (AssertionError FitsBuffer)
      /\ res o <> Raise (AssertionError FitsIndex)
      /\ exists oc rest,
           trace o = trace q
                     ++ Ran [py "tpm2_getcap"; py "handles-nv-index"] None oc
                        :: rest).
Proof.
  intros Hkey Hhw Hb Hi o q.
  apply device_limit_some in Hb. destruct Hb as (eb & vb & Hb1 & Hb2 & Hb3).
  apply device_limit_some in Hi. destruct Hi as (ei & vi & Hi1 & Hi2 & Hi3).
  assert (Ho : o = tpm_write E key value pwd d) by reflexivity.
  unfold tpm_write in Ho. cbv zeta in Ho.
  replace ((0x01800000 <=? key) && (key <=? 0x01BFFFFF)) with true in Ho
    by (symmetry; apply andb_true_iff; split; apply Z.leb_le; lia).
  rewrite bind_assert_true in Ho.
  rewrite bind_after with (a := hw) in Ho by exact Hhw.
  fold q in Ho. rewrite Hb1, bind_lift_ok, Hb2, bind_lift_ok in Ho.
  unfold py_int_le in Ho. rewrite Hb3, bind_lift_ok in Ho.
  split; [|split].
  - intros Hlt. rewrite Ho.
    replace (len value <=? bmax) with false
      by (symmetry; apply Z.leb_gt; lia).
    rewrite bind_assert_false. simpl. now rewrite app_nil_r.
  - intros Hle Hlt. rewrite Ho.
    replace (len value <=? bmax) with true
      by (symmetry; apply Z.leb_le; lia).
    rewrite bind_assert_true, Hi1, bind_lift_ok, Hi2, bind_lift_ok.
    rewrite Hi3, bind_lift_ok.
    replace (len value <=? imax) with false
      by (symmetry; apply Z.leb_gt; lia).
    rewrite bind_assert_false. simpl. now rewrite app_nil_r.
  - intros Hle Hle'. rewrite Ho. clear Ho. cbn [res trace].
    replace (len value <=? bmax) with true
      by (symmetry; apply Z.leb_le; lia).
    rewrite bind_assert_true, Hi1, bind_lift_ok, Hi2, bind_lift_ok.
    rewrite Hi3, bind_lift_ok.
    replace (len value <=? imax) with true
      by (symmetry; apply Z.leb_le; lia).
    rewrite bind_assert_true.
    match goal with
    | |- res (?m ?d') <> _ /\ _ =>
        assert (Ha : asserts_in
                       (fun s => match s with
                                 | FitsBuffer | FitsIndex => false
                                 | _ => true
                                 end) m)
          by (repeat asserts_step)
    end.
    split; [|split].
    + intros H. apply Ha in H. discriminate.
    + intros H. apply Ha in H. discriminate.
    + rewrite bind_trace.
      unfold tpm_get_nv_indices at 1. rewrite run_command_yaml_trace.
      do 2 eexists. reflexivity.
Qed.
End Steps.
(* ================================================================== *)
(** * The claims *)

(** C1. Round trip: when [tpm_write(key, value, pwd)] returns, a
    [tpm_read_nvm(key, pwd)] that follows it returns exactly [value].  The
    device may be any device whose query commands leave it unchanged; a run
    of [tpm_write] that returns has passed every sanity check, so the
    conditions on the arguments need not be assumed. *)
Theorem write_then_read_round_trip (E : Env) key value pwd d :
  queries_are_pure E ->
  res (tpm_write E key value pwd d) = Ok tt ->
  res (tpm_read_nvm E key pwd (dev (tpm_write E key value pwd d)))
  = Ok (Text value).
Proof. apply read_after_write. Qed.

Lemma write_then_read_round_trip_witness :
  queries_are_pure Ref.env
  /\ res Runs.write_hello = Ok tt
  /\ res (tpm_read_nvm Ref.env 0x01800000 None (dev Runs.write_hello))
     = Ok (Text Runs.hello).
Proof.
  split; [exact reference_queries_are_pure|].
  split; [vm_compute; reflexivity|].
  apply (@write_then_read_round_trip Ref.env 0x01800000 Runs.hello None
           Ref.factory).
  - exact reference_queries_are_pure.
  - vm_compute; reflexivity.
Defined.



(** C6. When [tpm_write] fails at one of its sanity checks (the range of
    the key, the two size limits, the key being unused, the length of the
    password), it has issued no define, write or undefine command; on a
    device whose query commands are pure the device is as it was, and so is
    the list of its indices. *)
Theorem failed_validation_changes_nothing (E : Env) key value pwd d s :
  res (tpm_write E key value pwd d) = Raise (AssertionError s) ->
  validation_site s = true ->
  forallb (fun ev => negb (mutating ev)) (trace (tpm_write E key value pwd d))
  = true
  /\ (queries_are_pure E ->
      dev (tpm_write E key value pwd d) = d
      /\ res (tpm_get_nv_indices E (dev (tpm_write E key value pwd d)))
         = res (tpm_get_nv_indices E d)).
Proof.
  intros Hr Hs.
  assert (H : harmless (tpm_write E key value pwd)).
  { unfold tpm_write. cbv zeta. repeat harmless_step.
    apply harmless_of_asserts. repeat asserts_step. }
  destruct (H d s Hr Hs) as [Ht Hd]. split; [exact Ht|].
  intros Hp. rewrite (Hd Hp). now split.
Qed.

Lemma failed_validation_changes_nothing_witness :
  res (tpm_write Ref.env 0x01800000 Runs.hello None Runs.with_hello)
  = Raise (AssertionError KeyUnused)
  /\ validation_site KeyUnused = true
  /\ queries_are_pure Ref.env
  /\ dev (tpm_write Ref.env 0x01800000 Runs.hello None Runs.with_hello)
     = Runs.with_hello.
Proof.
  split; [vm_compute; reflexivity|]. split; [reflexivity|].
  split; [exact reference_queries_are_pure|].
  apply (@failed_validation_changes_nothing Ref.env 0x01800000 Runs.hello
           None Runs.with_hello KeyUnused).
  - vm_compute; reflexivity.
  - reflexivity.
  - exact reference_queries_are_pure.
Defined.

(** C9. An empty password is no password: [tpm_write] and [tpm_read_nvm]
    called with [""] do exactly what they do when called with [None].  The
    check of the length of the password is not made, and the define, write
    and read commands carry no [-p] or [-P] argument. *)
Theorem empty_password_is_no_password (E : Env) key value index size d :
  tpm_write E key value (Some []) d = tpm_write E key value None d
  /\ tpm_read_nvm E index (Some []) d = tpm_read_nvm E index None d
  /\ res (tpm_write E key value (Some []) d)
     <> Raise (AssertionError PasswordLength)
  /\ nvdefine_command key (len value) (Some [])
     = [py "tpm2_nvdefine"; py "-C"; py "o"; py "-s"; str_int (len value);
        py "-a"; py "authread|authwrite|no_da|orderly";
        py "0x" ++ format_x key]
  /\ nvwrite_command key (Some [])
     = [py "tpm2_nvwrite"; py "-C"; py "0x" ++ format_x key; py "-i"; py "-";
        py "0x" ++ format_x key]
  /\ nvread_command E index size (Some [])
     = [py "tpm2_nvread"; py "-C"; str_int index; py "-s";
        py_str (repr_str E) size; str_int index].
Proof.
  repeat split; try reflexivity.
  intros H.
  assert (Ha : asserts_in
                 (fun s => match s with PasswordLength => false | _ => true end)
                 (tpm_write E key value (Some []))).
  { unfold tpm_write. cbv zeta. cbn [truthy]. repeat asserts_step. }
  apply Ha in H. discriminate.
Qed.

Lemma empty_password_is_no_password_witness :
  tpm_write Ref.env 0x01800000 Runs.hello (Some []) Ref.factory
  = Runs.write_hello
  /\ res (tpm_write Ref.env 0x01800000 Runs.hello (Some []) Ref.factory)
     <> Raise (AssertionError PasswordLength).
Proof.
  destruct (@empty_password_is_no_password Ref.env 0x01800000 Runs.hello
              0x01800000 PyNone Ref.factory) as (H1 & _ & H3 & _).
  split; [exact H1|exact H3].
Defined.

(** What a failed read command does, on every device.  Take an index
    written with a password by a [tpm_write] that returned.  Whenever the
    read command exits with a non-zero status, whatever the reason,
    [tpm_read_nvm] is left through the [exit()] of [run_command] (line 108):
    [SystemExit] with the command, the exit status and the captured output,
    so that the handler of lines 174-176 is not reached.  Read with the
    password it was written with, the index gives the value. *)
Theorem read_failure_ends_in_exit (E : Env) key value p pwd' d
  nv_index size rc out err :
  queries_are_pure E ->
  res (tpm_write E key value (Some p) d) = Ok tt ->
  let d1 := dev (tpm_write E key value (Some p) d) in
  res (tpm_get_nv_index_metadata E key d1) = Ok nv_index ->
  declared_size nv_index key = Some size ->
  fst (spawn E (nvread_command E key size pwd') None
         (dev (tpm_get_nv_index_metadata E key d1)))
  = Exited rc out err ->
  rc <> 0 ->
  res (tpm_read_nvm E key pwd' d1)
  = Raise (SystemExit
             (CommandFailed (nvread_command E key size pwd') rc out err))
  /\ res (tpm_read_nvm E key (Some p) d1) = Ok (Text value).
Proof.
  intros Hp Hw d1 Hmd Hsize Hrun Hrc. split.
  - rewrite (@tpm_read_nvm_run E key pwd' d1 nv_index size Hmd Hsize), Hrun.
    destruct (Z.eqb_spec rc 0); [contradiction|reflexivity].
  - now apply read_after_write.
Qed.

Lemma read_failure_ends_in_exit_witness :
  res Runs.write_secret = Ok tt
  /\ res (tpm_read_nvm Ref.env 0x01800001 None (dev Runs.write_secret))
     = Raise (SystemExit
                (CommandFailed
                   (nvread_command Ref.env 0x01800001 (PyHexInt 11) None)
                   1 []
                   (py "ERROR: authorization failure without DA implications")))
  /\ res (tpm_read_nvm Ref.env 0x01800001 Runs.secret (dev Runs.write_secret))
     = Ok (Text Runs.hello).
Proof.
  split; [vm_compute; reflexivity|].
  apply (@read_failure_ends_in_exit Ref.env 0x01800001 Runs.hello
           (py "abcde") None Runs.with_hello Runs.metadata_secret
           (PyHexInt 11) 1 []
           (py "ERROR: authorization failure without DA implications")).
  - exact reference_queries_are_pure.
  - vm_compute; reflexivity.
  - vm_compute; reflexivity.
  - vm_compute; reflexivity.
  - vm_compute; reflexivity.
  - discriminate.
Defined.

(** C3.  A defect of the script: a failure of authentication is not told
    from the other failures of the device, although [tpm_read_nvm] sets out
    to tell it.  Lines 170-176 put the read in a [try] whose
    [except Exception] prints "Failed to read value. Have you not provided
    the correct required password?"; but [run_command] has by then turned
    the failed command into [exit()] (line 108), and [SystemExit] is not an
    [Exception].  At the input of the specification, the index 0x01800001
    written with ["abcde"] and read with no password, the read raises
    [SystemExit], the handler is passed by and its line is not printed.  An
    index that was defined and never written (the one that the failed
    [tpm_write] of ["é"] left behind), a device error of another kind, ends
    in an exception of the same class; the two differ in the text of the
    device only.  Read with ["abcde"], the index gives the value. *)
Theorem authentication_failure_is_not_distinguished :
  exists m_auth m_other,
    res (tpm_read_nvm Ref.env 0x01800001 None Runs.with_secret)
    = Raise (SystemExit m_auth)
    /\ is_Exception (SystemExit m_auth) = false
    /\ existsb is_hint
         (trace (tpm_read_nvm Ref.env 0x01800001 None Runs.with_secret))
       = false
    /\ res (tpm_read_nvm Ref.env 0x01800002 None Runs.with_accent)
       = Raise (SystemExit m_other)
    /\ m_auth <> m_other
    /\ same_class (SystemExit m_auth) (SystemExit m_other) = true
    /\ res (tpm_read_nvm Ref.env 0x01800001 Runs.secret Runs.with_secret)
       = Ok (Text Runs.hello).
Proof.
  exists (CommandFailed (nvread_command Ref.env 0x01800001 (PyHexInt 11) None)
            1 []
            (py "ERROR: authorization failure without DA implications")).
  exists (CommandFailed (nvread_command Ref.env 0x01800002 (PyHexInt 1) None)
            1 []
            (py "ERROR: an NV index is used before being initialized")).
  split; [vm_compute; reflexivity|].
  split; [reflexivity|].
  split; [vm_compute; reflexivity|].
  split; [vm_compute; reflexivity|].
  split; [discriminate|].
  split; [reflexivity|vm_compute; reflexivity].
Qed.

(** C7, as the script has it.  When the metadata of the index gives a size
    and the read command exits with status 0, [tpm_read_nvm] decodes the
    bytes of its output as UTF-8: if they are valid it returns the text, whose
    encoding is exactly those bytes; if they are not, no bytes are returned
    but the [UnicodeDecodeError] object. *)
Theorem read_returns_decoded_text (E : Env) index pwd d nv_index size out err :
  res (tpm_get_nv_index_metadata E index d) = Ok nv_index ->
  declared_size nv_index index = Some size ->
  fst (spawn E (nvread_command E index size pwd) None
         (dev (tpm_get_nv_index_metadata E index d)))
  = Exited 0 out err ->
  match utf8_decode out with
  | Some s =>
      res (tpm_read_nvm E index pwd d) = Ok (Text s)
      /\ utf8_encode s = Some out
  | None =>
      res (tpm_read_nvm E index pwd d)
      = Ok (ExceptionObject UnicodeDecodeError)
  end.
Proof.
  intros Hmd Hsize Hrun.
  rewrite (@tpm_read_nvm_run E index pwd d nv_index size Hmd Hsize), Hrun.
  simpl.
  destruct (utf8_decode out) as [s|] eqn:Hs; [|reflexivity].
  split; [reflexivity|]. now apply utf8_encode_decode.
Qed.

Lemma read_returns_decoded_text_witness :
  res (tpm_read_nvm Ref.env 0x01800000 None Runs.with_hello)
  = Ok (Text Runs.hello)
  /\ utf8_encode Runs.hello
     = Some [104; 101; 108; 108; 111; 32; 119; 111; 114; 108; 100].
Proof.
  apply (@read_returns_decoded_text Ref.env 0x01800000 None Runs.with_hello
           Runs.metadata_hello (PyHexInt 11)
           [104; 101; 108; 108; 111; 32; 119; 111; 114; 108; 100] []).
  - vm_compute; reflexivity.
  - vm_compute; reflexivity.
  - vm_compute; reflexivity.
Defined.

(** C7 as the specification has it fails: the index of the manufacturer
    holds the four bytes 30 82 01 F4, which are not UTF-8, and reading it
    returns an exception object instead of them. *)
Lemma raw_bytes_are_not_returned :
  Ref.nv_find 0x01C00002 (Ref.nv Ref.factory)
  = Some {| Ref.nv_size := 4; Ref.nv_auth := [];
            Ref.nv_data := Some [0x30; 0x82; 0x01; 0xF4] |}
  /\ res (tpm_read_nvm Ref.env 0x01C00002 None Ref.factory)
     = Ok (ExceptionObject UnicodeDecodeError)
  /\ trace (tpm_read_nvm Ref.env 0x01C00002 None Ref.factory)
     = [Ran [py "tpm2_getcap"; py "handles-nv-index"] None
          (Exited 0 (py "- 0x1c00002" ++ [10]) []);
        Ran [py "tpm2_nvreadpublic"; py "29360130"] None
          (fst (Ref.run [py "tpm2_nvreadpublic"; py "29360130"] None
                  Ref.factory));
        Ran [py "tpm2_nvread"; py "-C"; py "29360130"; py "-s"; py "0x4";
             py "29360130"] None
          (Exited 0 [0x30; 0x82; 0x01; 0xF4] []);
        Printed (py "Failed to read value. Have you not provided the correct required password?")].
Proof. repeat split; vm_compute; reflexivity. Qed.

(** C4, as the script has it.  [tpm_delete_index] takes the key and nothing
    else: a call that gives it any other keyword, a password for one, is
    refused with [TypeError] before a command is issued.  The one undefine
    command that it issues is [tpm2_nvundefine -C o 0x<key>], with no
    credential. *)
Theorem delete_sends_no_credential (E : Env) key d :
  (forall keyword others,
     call_tpm_delete_index E key (keyword :: others) d
     = Outcome (Raise TypeError) d [])
  /\ call_tpm_delete_index E key [] d = tpm_delete_index E key d
  /\ forallb
       (fun ev =>
          implb (runs "tpm2_nvundefine" ev)
            (argv_eqb (command_of ev) (Runs.nvundefine_command key)))
       (trace (tpm_delete_index E key d))
     = true.
Proof.
  split; [reflexivity|]. split; [reflexivity|].
  revert d. change (issues
    (fun ev =>
       implb (runs "tpm2_nvundefine" ev)
         (argv_eqb (command_of ev) (Runs.nvundefine_command key)))
    (tpm_delete_index E key)).
  unfold tpm_delete_index. cbv zeta.
  apply issues_bind; [apply issues_run_command_yaml; by_program|intros l].
  apply issues_bind; [apply issues_lift|intros present].
  apply issues_bind; [apply issues_assert|intros _].
  apply issues_bind; [|intros _; apply issues_print; reflexivity].
  apply issues_run_command. intros i o.
  unfold Runs.nvundefine_command. simpl. now rewrite pystr_eqb_refl.
Qed.

Lemma delete_sends_no_credential_witness :
  forallb
    (fun ev =>
       implb (runs "tpm2_nvundefine" ev)
         (argv_eqb (command_of ev) (Runs.nvundefine_command 0x01800001)))
    (trace (tpm_delete_index Ref.env 0x01800001 Runs.with_secret))
  = true.
Proof.
  apply (@delete_sends_no_credential Ref.env 0x01800001 Runs.with_secret).
Defined.

(** C4 as the specification has it fails: on the device that holds the
    index written with the password ["abcde"], a call of [tpm_delete_index]
    with that password as a keyword [pwd] raises [TypeError] and issues
    nothing, and the call with the key alone issues the undefine command
    without any credential. *)
Lemma delete_takes_no_credential :
  call_tpm_delete_index Ref.env 0x01800001 ["pwd"%string] Runs.with_secret
  = @Outcome Ref.env unit (Raise TypeError) Runs.with_secret []
  /\ map command_of
       (trace (call_tpm_delete_index Ref.env 0x01800001 [] Runs.with_secret))
     = [[py "tpm2_getcap"; py "handles-nv-index"];
        [py "tpm2_nvundefine"; py "-C"; py "o"; py "0x1800001"];
        []].
Proof. split; [reflexivity|vm_compute; reflexivity]. Qed.

(** C5, as the script has it.  For a key in the band and a device whose
    report gives the two limits, the size check fails exactly when the value
    is longer than [TPM2_PT_NV_BUFFER_MAX] or longer than
    [TPM2_PT_NV_INDEX_MAX], and it fails after the one query of the limits,
    before any other command.  A value within both limits passes: the run
    does not fail at the size check and goes on to list the indices.  The
    empty value is within both limits. *)
Theorem size_check_rejects_what_is_too_long (E : Env) key value pwd d
  hw bmax imax :
  0x01800000 <= key <= 0x01BFFFFF ->
  res (tmp_get_hardware_info E d) = Ok hw ->
  device_limit hw "TPM2_PT_NV_BUFFER_MAX" = Some bmax ->
  device_limit hw "TPM2_PT_NV_INDEX_MAX" = Some imax ->
  let o := tpm_write E key value pwd d in
  let q := tmp_get_hardware_info E d in
  (bmax < len value ->
   res o = Raise (AssertionError FitsBuffer) /\ trace o = trace q)
  /\ (len value <= bmax -> imax < len value ->
      res o = Raise (AssertionError FitsIndex) /\ trace o = trace q)
  /\ (len value <= bmax -> len value <= imax ->
      res o <> Raise (AssertionError FitsBuffer)
      /\ res o <> Raise (AssertionError FitsIndex)
      /\ exists oc rest,
           trace o = trace q
                     ++ Ran [py "tpm2_getcap"; py "handles-nv-index"] None oc
                        :: rest)
  /\ (value = [] -> 0 <= bmax -> 0 <= imax ->
      res o <> Raise (AssertionError FitsBuffer)
      /\ res o <> Raise (AssertionError FitsIndex)).
Proof.
  intros Hkey Hhw Hb Hi o q.
  destruct (@size_checks E key value pwd d hw bmax imax Hkey Hhw Hb Hi)
    as (H1 & H2 & H3).
  fold o q in H1, H2, H3.
  split; [|split; [|split]].
  - intros Hlt. now rewrite (H1 Hlt).
  - intros Hle Hlt. now rewrite (H2 Hle Hlt).
  - exact H3.
  - intros -> Hb0 Hi0. destruct (H3 Hb0 Hi0) as (Ha & Hc & _). now split.
Qed.

Lemma size_check_rejects_what_is_too_long_witness :
  0x01800000 <= 0x01800003 <= 0x01BFFFFF
  /\ res (tmp_get_hardware_info Ref.env Ref.factory) = Ok Runs.limits
  /\ device_limit Runs.limits "TPM2_PT_NV_BUFFER_MAX" = Some 0x800
  /\ device_limit Runs.limits "TPM2_PT_NV_INDEX_MAX" = Some 0x800
  /\ res (tpm_write Ref.env 0x01800003 Runs.too_long None Ref.factory)
     = Raise (AssertionError FitsBuffer)
  /\ res (tpm_write Ref.env 0x01800003 Runs.longest None Ref.factory)
     <> Raise (AssertionError FitsBuffer).
Proof.
  assert (Hkey : 0x01800000 <= 0x01800003 <= 0x01BFFFFF) by lia.
  assert (Hhw : res (tmp_get_hardware_info Ref.env Ref.factory)
                = Ok Runs.limits) by (vm_compute; reflexivity).
  assert (Hb : device_limit Runs.limits "TPM2_PT_NV_BUFFER_MAX" = Some 0x800)
    by (vm_compute; reflexivity).
  assert (Hi : device_limit Runs.limits "TPM2_PT_NV_INDEX_MAX" = Some 0x800)
    by (vm_compute; reflexivity).
  repeat (split; [assumption|]). split.
  - pose proof (@size_check_rejects_what_is_too_long Ref.env 0x01800003
                  Runs.too_long None Ref.factory Runs.limits 0x800 0x800
                  Hkey Hhw Hb Hi) as H.
    cbv zeta in H. destruct H as (H & _). apply H. vm_compute. reflexivity.
  - pose proof (@size_check_rejects_what_is_too_long Ref.env 0x01800003
                  Runs.longest None Ref.factory Runs.limits 0x800 0x800
                  Hkey Hhw Hb Hi) as H.
    cbv zeta in H. destruct H as (_ & _ & H & _).
    apply H; vm_compute; discriminate.
Defined.

(** C5 as the specification has it fails: [tpm_write] does not reject the
    empty value.  The run passes the size check and issues the define
    command, for an index of size 0. *)
Lemma empty_value_is_not_rejected :
  let o := tpm_write Ref.env 0x01800003 [] None Ref.factory in
  res o <> Raise (AssertionError FitsBuffer)
  /\ res o <> Raise (AssertionError FitsIndex)
  /\ existsb
       (fun ev =>
          argv_eqb (command_of ev)
            [py "tpm2_nvdefine"; py "-C"; py "o"; py "-s"; py "0"; py "-a";
             py "authread|authwrite|no_da|orderly"; py "0x1800003"])
       (trace o)
     = true.
Proof.
  cbv zeta. split; [|split].
  - vm_compute. discriminate.
  - vm_compute. discriminate.
  - vm_compute. reflexivity.
Qed.



(* ================================================================== *)
(** * The script at work on the reference device *)

(** The commands of [tpm_write(key=0x01800000, value="hello world")], as the
    header comments of the script give them, followed by those of the
    read-back; the size in the read command is the [HexInt] of the
    metadata. *)
Example commands_of_write_hello :
  map command_of (trace Runs.write_hello)
  = [[py "tpm2_getcap"; py "properties-fixed"];
     [py "tpm2_getcap"; py "handles-nv-index"];
     [py "tpm2_nvdefine"; py "-C"; py "o"; py "-s"; py "11"; py "-a";
      py "authread|authwrite|no_da|orderly"; py "0x1800000"];
     [py "tpm2_nvwrite"; py "-C"; py "0x1800000"; py "-i"; py "-";
      py "0x1800000"];
     [py "tpm2_getcap"; py "handles-nv-index"];
     [py "tpm2_nvreadpublic"; py "25165824"];
     [py "tpm2_nvread"; py "-C"; py "25165824"; py "-s"; py "0xb";
      py "25165824"];
     []].
Proof. vm_compute. reflexivity. Qed.

(** Write, read, delete, read: the last read fails at the assertion of
    [tpm_get_nv_index_metadata]. *)
Example write_read_delete_read :
  res Runs.write_hello = Ok tt
  /\ res (tpm_read_nvm Ref.env 0x01800000 None Runs.with_hello)
     = Ok (Text Runs.hello)
  /\ res (tpm_delete_index Ref.env 0x01800000 Runs.with_hello) = Ok tt
  /\ res (tpm_read_nvm Ref.env 0x01800000 None
            (dev (tpm_delete_index Ref.env 0x01800000 Runs.with_hello)))
     = Raise (AssertionError IndexExists).
Proof. repeat split; vm_compute; reflexivity. Qed.

(** A second [tpm_write] to the same key fails at sanity check 3, and a
    password of four characters at sanity check 4. *)
Example second_write_and_short_password :
  res (tpm_write Ref.env 0x01800000 Runs.hello None Runs.with_hello)
  = Raise (AssertionError KeyUnused)
  /\ res (tpm_write Ref.env 0x01800005 Runs.hello (Some (py "abcd"))
            Runs.with_hello)
     = Raise (AssertionError PasswordLength)
  /\ res (tpm_write Ref.env 0x01800005 Runs.hello (Some (py "abcde"))
            Runs.with_hello)
     = Ok tt.
Proof. repeat split; vm_compute; reflexivity. Qed.

(** A value with a character outside ASCII: the index is defined with the
    number of characters and the write of the longer encoding fails, leaving
    an index that was never written. *)
Example write_accent_leaves_an_index :
  (exists m, res Runs.write_accent = Raise (SystemExit m))
  /\ Ref.nv_find 0x01800002 (Ref.nv Runs.with_accent)
     = Some {| Ref.nv_size := 1; Ref.nv_auth := []; Ref.nv_data := None |}.
Proof. split; [eexists|]; vm_compute; reflexivity. Qed.

(* ================================================================== *)
(** * More on [hexify] *)

Lemma distinct_hexify l :
  forallb hashable l = true -> distinct (map hexify l) = distinct l.
Proof.
  induction l as [|x l IH]; simpl; [reflexivity|].
  intros H. apply andb_true_iff in H. destruct H as [Hx Hl].
  rewrite IH by assumption. f_equal. f_equal.
  rewrite existsb_hexify_r by now apply hashable_hexify.
  apply existsb_ext. intros y. now apply py_eq_hexify_key.
Qed.

Lemma forallb_hashable_hexify l :
  forallb hashable l = true -> forallb hashable (map hexify l) = true.
Proof.
  rewrite !forallb_forall. intros H y Hy.
  apply in_map_iff in Hy. destruct Hy as (x & <- & Hx).
  apply hashable_hexify. now apply H.
Qed.

Lemma map_fst_hexify_entry kv :
  map fst (map hexify_entry kv) = map hexify (map fst kv).
Proof. rewrite !map_map. reflexivity. Qed.

Lemma map_hexify_idem l :
  Forall (fun x => hexify (hexify x) = hexify x) l ->
  map hexify (map hexify l) = map hexify l.
Proof. induction 1 as [|x l Hx _ IH]; simpl; congruence. Qed.

Lemma hexify_keeps_and_repeats x :
  well_formed x = true ->
  well_formed (hexify x) = true /\ hexify (hexify x) = hexify x.
Proof.
  induction x using pyval_induction; intros Hx; try (split; reflexivity).
  - simpl in Hx.
    assert (Hl : Forall (fun x => well_formed (hexify x) = true
                                  /\ hexify (hexify x) = hexify x) l)
      by now apply Forall_well_formed.
    change (hexify (PyList l)) with (PyList (map hexify l)). split.
    + simpl. apply forallb_forall. intros y Hy.
      apply in_map_iff in Hy. destruct Hy as (z & <- & Hz).
      rewrite Forall_forall in Hl. now apply Hl.
    + change (hexify (PyList (map hexify l)))
        with (PyList (map hexify (map hexify l))).
      f_equal. apply map_hexify_idem.
      eapply Forall_impl; [|exact Hl]. now intros y [_ Hy].
  - simpl in Hx.
    assert (Hl : Forall (fun x => well_formed (hexify x) = true
                                  /\ hexify (hexify x) = hexify x) l)
      by now apply Forall_well_formed.
    change (hexify (PyTuple l)) with (PyTuple (map hexify l)). split.
    + simpl. apply forallb_forall. intros y Hy.
      apply in_map_iff in Hy. destruct Hy as (z & <- & Hz).
      rewrite Forall_forall in Hl. now apply Hl.
    + change (hexify (PyTuple (map hexify l)))
        with (PyTuple (map hexify (map hexify l))).
      f_equal. apply map_hexify_idem.
      eapply Forall_impl; [|exact Hl]. now intros y [_ Hy].
  - simpl in Hx. apply andb_true_iff in Hx. destruct Hx as [Hh Hd].
    assert (Hl : Forall (fun x => well_formed (hexify x) = true
                                  /\ hexify (hexify x) = hexify x) l).
    { apply Forall_hashable; [|assumption].
      eapply Forall_impl; [|exact H]. simpl.
      intros y Hy Hhy. apply Hy. now apply hashable_well_formed. }
    rewrite hexify_set by assumption.
    pose proof (forallb_hashable_hexify l Hh) as Hh'.
    assert (Hd' : distinct (map hexify l) = true)
      by now rewrite distinct_hexify.
    split.
    + simpl. now rewrite Hh', Hd'.
    + rewrite hexify_set by assumption. f_equal. apply map_hexify_idem.
      eapply Forall_impl; [|exact Hl]. now intros y [_ Hy].
  - simpl in Hx. apply andb_true_iff in Hx. destruct Hx as [Hx Hv].
    apply andb_true_iff in Hx. destruct Hx as [Hh Hd].
    rewrite hexify_dict by assumption.
    pose proof (forallb_hashable_hexify _ Hh) as Hh'.
    assert (Hd' : distinct (map hexify (map fst kv)) = true)
      by now rewrite distinct_hexify.
    assert (Hk : Forall (fun e => hexify (hexify (fst e)) = hexify (fst e)) kv).
    { clear Hd Hv Hh' Hd'.
      induction H as [|[k v] kv' [Hk' _] _ IH]; constructor.
      - simpl in *. apply andb_true_iff in Hh. destruct Hh as [Hk0 _].
        apply Hk'. now apply hashable_well_formed.
      - apply IH. simpl in Hh. apply andb_true_iff in Hh. now destruct Hh. }
    assert (Hvs : Forall (fun e => well_formed (hexify (snd e)) = true
                                   /\ hexify (hexify (snd e)) = hexify (snd e))
                    kv).
    { eapply well_formed_dict_values with
        (P := fun v => well_formed (hexify v) = true
                       /\ hexify (hexify v) = hexify v); eassumption. }
    split.
    + simpl. rewrite map_fst_hexify_entry, Hh', Hd'. simpl.
      apply forallb_forall. intros e He.
      apply in_map_iff in He. destruct He as (e0 & <- & He0).
      rewrite Forall_forall in Hvs. now apply Hvs.
    + rewrite hexify_dict by now rewrite map_fst_hexify_entry.
      f_equal. rewrite map_map.
      clear - Hk Hvs. induction kv as [|e kv IH]; [reflexivity|].
      inversion Hk; inversion Hvs; subst. simpl. rewrite IH by assumption.
      f_equal. unfold hexify_entry. simpl. f_equal; tauto.
Qed.

Lemma hexed_set_add acc y :
  forallb hexed acc = true -> hexed y = true ->
  forallb hexed (set_add acc y) = true.
Proof.
  intros Ha Hy. induction acc as [|z acc IH]; simpl in *.
  - now rewrite Hy.
  - apply andb_true_iff in Ha. destruct Ha as [Hz Ha].
    destruct (py_eq z y); simpl; rewrite Hz; simpl; auto.
Qed.

Lemma hexed_dict_set acc k v :
  forallb (fun e : pyval * pyval => hexed (fst e) && hexed (snd e)) acc = true ->
  hexed k = true -> hexed v = true ->
  forallb (fun e : pyval * pyval => hexed (fst e) && hexed (snd e))
    (dict_set acc k v) = true.
Proof.
  intros Ha Hk Hv. induction acc as [|[k' v'] acc IH]; simpl in *.
  - now rewrite Hk, Hv.
  - apply andb_true_iff in Ha. destruct Ha as [Hz Ha].
    apply andb_true_iff in Hz. destruct Hz as [Hk' Hv'].
    destruct (py_eq k' k); simpl; rewrite Hk'; simpl.
    + now rewrite Hv.
    + rewrite Hv'. simpl. auto.
Qed.

(** [hexify] leaves no plain [int] in a value, whatever the value. *)
Lemma hexed_hexify x : hexed (hexify x) = true.
Proof.
  induction x using pyval_induction; try reflexivity.
  - simpl. apply forallb_forall. intros y Hy.
    apply in_map_iff in Hy. destruct Hy as (z & <- & Hz).
    rewrite Forall_forall in H. now apply H.
  - simpl. apply forallb_forall. intros y Hy.
    apply in_map_iff in Hy. destruct Hy as (z & <- & Hz).
    rewrite Forall_forall in H. now apply H.
  - simpl.
    assert (G : forall acc, forallb hexed acc = true ->
                forallb hexed
                  (fold_left (fun a x => set_add a (hexify x)) l acc) = true).
    { induction H as [|x l Hx _ IH]; intros acc Ha; simpl; [assumption|].
      apply IH. now apply hexed_set_add. }
    now apply G.
  - simpl.
    assert (G : forall acc,
                forallb (fun e : pyval * pyval =>
                           hexed (fst e) && hexed (snd e)) acc = true ->
                forallb (fun e : pyval * pyval =>
                           hexed (fst e) && hexed (snd e))
                  (fold_left
                     (fun a (e : pyval * pyval) =>
                        let (k, v) := e in dict_set a (hexify k) (hexify v))
                     kv acc) = true).
    { induction H as [|[k v] kv' [Hk Hv] _ IH]; intros acc Ha; simpl;
        [assumption|].
      apply IH. now apply hexed_dict_set. }
    now apply G.
Qed.

(* ================================================================== *)
(** * The two ways of running a command *)

Section Commands.
Variable E : Env.

Lemma run_command_is_completed command input d :
run_command E command input d
= Outcome (completed command (fst (spawn E command input d)))
    (snd (spawn E command input d))
    [Ran command input (fst (spawn E command input d))].
Proof.
unfold run_command, bind, subprocess, completed.
destruct (spawn E command input d) as [[rc out err|] d']; simpl;
  [|reflexivity].
destruct (rc =? 0); reflexivity.
Qed.

Lemma run_command_yaml_is_report command d :
run_command_yaml E command d
= Outcome (report E command (fst (spawn E command None d)))
    (snd (spawn E command None d))
    [Ran command None (fst (spawn E command None d))].
Proof.
unfold run_command_yaml, bind, subprocess, report.
destruct (spawn E command None d) as [[rc out err|] d']; simpl;
  [|reflexivity].
destruct (decode_text out); [|reflexivity].
destruct (decode_text err) as [[|c s]|]; try reflexivity.
- destruct (negb (rc =? 0)); [reflexivity|].
  destruct (strip p); [reflexivity|].
  destruct (yaml_safe_load_all E (z :: p0)); [|reflexivity].
  destruct (map hexify l) as [|doc [|doc' docs]]; reflexivity.
- destruct (negb (rc =? 0)); reflexivity.
Qed.

Lemma report_hexed command o v : report E command o = Ok v -> hexed v = true.
Proof.
unfold report. destruct o as [rc out err|]; [|discriminate].
destruct (decode_text out); [|discriminate].
destruct (decode_text err) as [[|c s]|]; try discriminate;
  destruct (negb (rc =? 0)); try discriminate.
destruct (strip p); [now intros [= <-]|].
destruct (yaml_safe_load_all E (z :: p0)) as [docs|]; [|discriminate].
destruct docs as [|x [|y docs]]; simpl; intros [= <-].
- reflexivity.
- apply hexed_hexify.
- simpl. rewrite !hexed_hexify. simpl.
  apply forallb_forall. intros w Hw.
  apply in_map_iff in Hw. destruct Hw as (w0 & <- & _).
  apply hexed_hexify.
Qed.

Lemma report_raises_exception command o e :
report E command o = Raise e -> is_Exception e = true.
Proof.
unfold report. destruct o as [rc out err|]; [|now intros [= <-]].
destruct (decode_text out); [|now intros [= <-]].
destruct (decode_text err) as [[|c s]|]; try (now intros [= <-]);
  destruct (negb (rc =? 0)); try (now intros [= <-]).
destruct (strip p); [discriminate|].
destruct (yaml_safe_load_all E (z :: p0)) as [docs|]; [|now intros [= <-]].
destruct (map hexify docs) as [|doc [|doc' docs']]; discriminate.
Qed.

Lemma hexed_py_get obj key v :
hexed obj = true -> py_get obj key = Ok v -> hexed v = true.
Proof.
destruct obj as [| | | | | | | |kv]; try discriminate. simpl.
intros Hkv. induction kv as [|[k x] kv IH]; simpl in *.
- now intros [= <-].
- apply andb_true_iff in Hkv. destruct Hkv as [Hkx Hkv].
  apply andb_true_iff in Hkx. destruct Hkx as [_ Hx].
  destruct (py_eq key k); [now intros [= <-]|]. now apply IH.
Qed.

Lemma tpm_get_nv_index_metadata_hexed index d nv_index :
res (tpm_get_nv_index_metadata E index d) = Ok nv_index ->
hexed nv_index = true.
Proof.
unfold tpm_get_nv_index_metadata. intros H.
repeat match goal with
  | H : res (bind _ _ _) = Ok _ |- _ =>
      apply bind_ok in H; destruct H as (? & _ & H & _ & _); cbv beta in H
  end.
rewrite run_command_yaml_is_report in H. simpl in H.
now apply report_hexed in H.
Qed.

Lemma hexed_int v n :
hexed v = true -> as_int v = Some n -> is_bool v = false -> v = PyHexInt n.
Proof.
destruct v; simpl; try discriminate. now intros _ [= ->] _.
Qed.
End Commands.

(* ================================================================== *)
(** * [tpm_write] in three blocks *)

Section WriteBlocks.
Variable E : Env.

Lemma define_and_write_blocks key value pwd d :
define_and_write E key value pwd d
= bind (sanity_checks E key value pwd)
    (fun _ => define_then_write E key value pwd) d.
Proof.
unfold define_and_write, sanity_checks, define_then_write. cbv zeta.
symmetry.
repeat (rewrite bind_assoc; apply bind_ext; intros).
reflexivity.
Qed.

Lemma tpm_write_blocks key value pwd d :
tpm_write E key value pwd d
= bind (sanity_checks E key value pwd)
    (fun _ => bind (define_then_write E key value pwd)
                (fun _ => read_back E key value pwd)) d.
Proof.
rewrite tpm_write_split, <- bind_assoc.
unfold bind at 1 3. now rewrite define_and_write_blocks.
Qed.

Lemma readonly_sanity_checks key value pwd :
readonly (sanity_checks E key value pwd).
Proof. unfold sanity_checks. cbv zeta. repeat readonly_step. Qed.

Lemma readonly_read_back key value pwd : readonly (read_back E key value pwd).
Proof. unfold read_back. repeat readonly_step. Qed.

Lemma asserts_sanity_checks key value pwd :
asserts_in validation_site (sanity_checks E key value pwd).
Proof. unfold sanity_checks. cbv zeta. repeat asserts_step. Qed.

Lemma asserts_read_back key value pwd :
asserts_in (fun s => match s with IndexExists | ReadBack => true
                                | _ => false end)
  (read_back E key value pwd).
Proof. unfold read_back. repeat asserts_step. Qed.

Lemma readonly_changes A (m : M E A) d :
readonly m -> changes (trace (m d)) = [].
Proof.
intros Hm. destruct (Hm d) as [Ht _]. unfold changes.
induction (trace (m d)) as [|ev tr IH]; [reflexivity|].
simpl in *. apply andb_true_iff in Ht. destruct Ht as [Hev Ht].
apply negb_true_iff in Hev. rewrite Hev. now apply IH.
Qed.

Lemma changes_app tr tr' : changes (tr ++ tr') = changes tr ++ changes tr'.
Proof. unfold changes. now rewrite filter_app, map_app. Qed.

Lemma mutating_define key n pwd o :
mutating (Ran (nvdefine_command key n pwd) None o) = true.
Proof. unfold nvdefine_command. destruct (truthy pwd); reflexivity. Qed.

Lemma mutating_write key pwd input o :
mutating (Ran (nvwrite_command key pwd) input o) = true.
Proof. unfold nvwrite_command. destruct (truthy pwd); reflexivity. Qed.

(** The define, then the echo check, then the encoding, then the write. *)
Lemma define_then_write_run key value pwd d :
let define := nvdefine_command key (len value) pwd in
let write := nvwrite_command key pwd in
let o3 := fst (spawn E define None d) in
let d3 := snd (spawn E define None d) in
define_then_write E key value pwd d =
match report E define o3 with
| Raise e => Outcome (Raise e) d3 [Ran define None o3]
| Ok result =>
    match py_get result (PyStr (py "nv-index")) with
    | Raise e => Outcome (Raise e) d3 [Ran define None o3]
    | Ok echo =>
        if py_eq echo (PyInt key) then
          match utf8_encode value with
          | None => Outcome (Raise UnicodeEncodeError) d3
                      [Ran define None o3]
          | Some input =>
              Outcome (completed write (fst (spawn E write (Some input) d3)))
                (snd (spawn E write (Some input) d3))
                [Ran define None o3;
                 Ran write (Some input) (fst (spawn E write (Some input) d3))]
          end
        else Outcome (Raise (AssertionError DefineEcho)) d3
               [Ran define None o3]
    end
end.
Proof.
intros define write o3 d3. unfold define_then_write.
rewrite bind_run, run_command_yaml_is_report. fold define o3 d3.
cbn [res dev trace].
destruct (report E define o3) as [result|e]; [|reflexivity].
cbv zeta. rewrite bind_run.
destruct (py_get result (PyStr (py "nv-index"))) as [echo|e]; simpl;
  [|reflexivity].
destruct (py_eq echo (PyInt key)); simpl; [|reflexivity].
destruct (utf8_encode value) as [input|]; simpl; [|reflexivity].
fold write. rewrite run_command_is_completed. reflexivity.
Qed.
End WriteBlocks.

Section Checks.
Variable E : Env.

(** The sanity checks on a device that reports its limits and lists its
  indices, for a key in the band and a value within the limits: what is
  left is the membership test and the length of the password. *)
Lemma sanity_checks_run key value pwd d hw bmax imax c :
0x01800000 <= key <= 0x01BFFFFF ->
res (tmp_get_hardware_info E d) = Ok hw ->
device_limit hw "TPM2_PT_NV_BUFFER_MAX" = Some bmax ->
device_limit hw "TPM2_PT_NV_INDEX_MAX" = Some imax ->
len value <= bmax -> len value <= imax ->
let q := tmp_get_hardware_info E d in
let l := tpm_get_nv_indices E (dev q) in
res l = Ok c ->
sanity_checks E key value pwd d =
Outcome
  match py_in (PyInt key) c with
  | Raise e => Raise e
  | Ok true => Raise (AssertionError KeyUnused)
  | Ok false =>
      match truthy pwd with
      | Some p =>
          if 5 <=? len p then Ok tt
          else Raise (AssertionError PasswordLength)
      | None => Ok tt
      end
  end
  (dev l) (trace q ++ trace l).
Proof.
intros Hkey Hhw Hb Hi Hlb Hli q l Hl.
apply device_limit_some in Hb. destruct Hb as (eb & vb & Hb1 & Hb2 & Hb3).
apply device_limit_some in Hi. destruct Hi as (ei & vi & Hi1 & Hi2 & Hi3).
unfold sanity_checks. cbv zeta.
replace ((0x01800000 <=? key) && (key <=? 0x01BFFFFF)) with true
  by (symmetry; apply andb_true_iff; split; apply Z.leb_le; lia).
rewrite bind_assert_true.
rewrite bind_after with (a := hw) by exact Hhw. fold q.
rewrite Hb1, bind_lift_ok, Hb2, bind_lift_ok.
unfold py_int_le. rewrite Hb3, bind_lift_ok.
replace (len value <=? bmax) with true by (symmetry; apply Z.leb_le; lia).
rewrite bind_assert_true, Hi1, bind_lift_ok, Hi2, bind_lift_ok.
rewrite Hi3, bind_lift_ok.
replace (len value <=? imax) with true by (symmetry; apply Z.leb_le; lia).
rewrite bind_assert_true.
rewrite bind_after with (a := c) by exact Hl. fold l.
destruct (py_in (PyInt key) c) as [[|]|e]; simpl.
- now rewrite !app_nil_r.
- destruct (truthy pwd) as [p|]; simpl.
  + destruct (5 <=? len p); simpl; now rewrite !app_nil_r.
  + now rewrite !app_nil_r.
- now rewrite !app_nil_r.
Qed.

Lemma tpm_write_fails_in_checks key value pwd d e :
res (sanity_checks E key value pwd d) = Raise e ->
tpm_write E key value pwd d
= Outcome (Raise e) (dev (sanity_checks E key value pwd d))
    (trace (sanity_checks E key value pwd d)).
Proof. intros H. rewrite tpm_write_blocks, bind_run, H. reflexivity. Qed.

(** Once the checks are passed the next command is the define. *)
Lemma tpm_write_after_checks key value pwd d :
res (sanity_checks E key value pwd d) = Ok tt ->
exists oc rest,
  trace (tpm_write E key value pwd d)
  = trace (sanity_checks E key value pwd d)
    ++ Ran (nvdefine_command key (len value) pwd) None oc :: rest.
Proof.
intros H. rewrite tpm_write_blocks, bind_trace, H, bind_trace.
rewrite define_then_write_run. cbv zeta.
destruct (report E _ _) as [result|e]; simpl; [|eauto].
destruct (py_get result _) as [echo|e]; simpl; [|eauto].
destruct (py_eq echo (PyInt key)); simpl; [|eauto].
destruct (utf8_encode value); simpl; eauto.
Qed.

Lemma tmp_get_hardware_info_trace d :
trace (tmp_get_hardware_info E d)
= [Ran limits_command None (fst (spawn E limits_command None d))].
Proof. apply run_command_yaml_trace. Qed.

Lemma tpm_get_nv_indices_trace d :
trace (tpm_get_nv_indices E d)
= [Ran list_command None (fst (spawn E list_command None d))].
Proof. apply run_command_yaml_trace. Qed.

(** A blank report is [None]. *)
Lemma blank_report command out s :
decode_text out = Some s -> strip s = [] ->
report E command (Exited 0 out []) = Ok PyNone.
Proof. intros Hd Hs. unfold report. simpl. now rewrite Hd, Hs. Qed.

(** The list of a device that prints no index. *)
Lemma tpm_get_nv_indices_blank d out s :
fst (spawn E list_command None d) = Exited 0 out [] ->
decode_text out = Some s ->
strip s = [] ->
tpm_get_nv_indices E d
= Outcome (Ok PyNone) (snd (spawn E list_command None d))
    [Ran list_command None (Exited 0 out [])].
Proof.
intros Hrun Hd Hs. unfold tpm_get_nv_indices. fold list_command.
rewrite run_command_yaml_is_report, Hrun.
now rewrite (@blank_report list_command out s Hd Hs).
Qed.
End Checks.

(* ================================================================== *)
(** * Further properties of the script *)

(** X1. On a value that Python can build, [hexify] gives a value that
    Python can build, and applying it a second time changes nothing. *)
Theorem hexify_is_idempotent (x : pyval) :
  well_formed x = true ->
  well_formed (hexify x) = true /\ hexify (hexify x) = hexify x.
Proof. apply hexify_keeps_and_repeats. Qed.

Lemma hexify_is_idempotent_witness :
  well_formed More.nested_report = true
  /\ hexify (hexify More.nested_report) = hexify More.nested_report.
Proof.
  split; [reflexivity|].
  apply (hexify_is_idempotent More.nested_report). reflexivity.
Defined.

(** X2. Whatever [run_command_yaml] returns holds no plain [int]: every
    integer of a parsed report, at any depth, keys included, is a [HexInt]
    (or a [bool]). *)
Theorem reports_are_hexified (E : Env) command d v :
  res (run_command_yaml E command d) = Ok v -> hexed v = true.
Proof.
  rewrite run_command_yaml_is_report. simpl. apply report_hexed.
Qed.

Lemma reports_are_hexified_witness :
  res (run_command_yaml Ref.env limits_command Ref.factory) = Ok Runs.limits
  /\ hexed Runs.limits = true.
Proof.
  assert (H : res (run_command_yaml Ref.env limits_command Ref.factory)
              = Ok Runs.limits) by (vm_compute; reflexivity).
  split; [exact H|].
  exact (@reports_are_hexified Ref.env limits_command Ref.factory
           Runs.limits H).
Defined.

(** X3. A command that exits with a status other than 0 ends differently in
    the two runners.  [run_command] raises [SystemExit], which an
    [except Exception] does not catch; [run_command_yaml] raises a
    [RuntimeError] with the decoded standard error (or [UnicodeDecodeError]
    when the output is not UTF-8).  No failure of [run_command_yaml] is a
    [SystemExit]. *)
Theorem failed_command_in_the_two_runners (E : Env) command d rc out err :
  fst (spawn E command None d) = Exited rc out err ->
  rc <> 0 ->
  res (run_command E command None d)
  = Raise (SystemExit (CommandFailed command rc out err))
  /\ match decode_text out, decode_text err with
     | Some _, Some text =>
         res (run_command_yaml E command d)
         = Raise (RuntimeError (YamlCommandFailed command text))
     | _, _ => res (run_command_yaml E command d) = Raise UnicodeDecodeError
     end
  /\ (forall d' e, res (run_command_yaml E command d') = Raise e ->
                   is_Exception e = true).
Proof.
  intros Hrun Hrc. split; [|split].
  - rewrite run_command_is_completed, Hrun. simpl.
    destruct (Z.eqb_spec rc 0); [contradiction|reflexivity].
  - rewrite run_command_yaml_is_report, Hrun. simpl.
    destruct (decode_text out); [|reflexivity].
    destruct (decode_text err); [|reflexivity].
    destruct (Z.eqb_spec rc 0); [contradiction|reflexivity].
  - intros d' e. rewrite run_command_yaml_is_report. simpl.
    apply report_raises_exception.
Qed.

Lemma failed_command_in_the_two_runners_witness :
  fst (spawn Ref.env [py "tpm2_nvreadpublic"; py "0x1800000"] None Ref.factory)
  = Exited 1 [] (py "ERROR: the handle is not correct for the use")
  /\ res (run_command Ref.env [py "tpm2_nvreadpublic"; py "0x1800000"] None
            Ref.factory)
     = Raise (SystemExit
                (CommandFailed [py "tpm2_nvreadpublic"; py "0x1800000"] 1 []
                   (py "ERROR: the handle is not correct for the use")))
  /\ res (run_command_yaml Ref.env [py "tpm2_nvreadpublic"; py "0x1800000"]
            Ref.factory)
     = Raise (RuntimeError
                (YamlCommandFailed [py "tpm2_nvreadpublic"; py "0x1800000"]
                   (py "ERROR: the handle is not correct for the use"))).
Proof.
  assert (H : fst (spawn Ref.env [py "tpm2_nvreadpublic"; py "0x1800000"]
                     None Ref.factory)
              = Exited 1 [] (py "ERROR: the handle is not correct for the use"))
    by (vm_compute; reflexivity).
  split; [exact H|].
  destruct (@failed_command_in_the_two_runners Ref.env
              [py "tpm2_nvreadpublic"; py "0x1800000"] Ref.factory 1 []
              (py "ERROR: the handle is not correct for the use") H
              ltac:(discriminate)) as (H1 & H2 & _).
  split; [exact H1|exact H2].
Defined.

(** X4. A key below 0x01800000 or above 0x01BFFFFF is refused by
    [tpm_write] before anything else is looked at: whatever the value, the
    password and the device, the call fails at the first assertion, no
    command has been issued and the device is untouched. *)
Theorem key_outside_the_band_is_refused (E : Env) key value pwd d :
  key < 0x01800000 \/ 0x01BFFFFF < key ->
  tpm_write E key value pwd d
  = Outcome (Raise (AssertionError KeyInRange)) d [].
Proof.
  intros Hkey. unfold tpm_write.
  replace ((0x01800000 <=? key) && (key <=? 0x01BFFFFF)) with false;
    [reflexivity|].
  symmetry. apply andb_false_iff.
  destruct Hkey; [left; apply Z.leb_gt|right; apply Z.leb_gt]; lia.
Qed.

Lemma key_outside_the_band_is_refused_witness :
  (0x01C00002 < 0x01800000 \/ 0x01BFFFFF < 0x01C00002)
  /\ res (tpm_write Ref.env 0x01C00002 Runs.hello None Ref.factory)
     = Raise (AssertionError KeyInRange).
Proof.
  assert (H : 0x01C00002 < 0x01800000 \/ 0x01BFFFFF < 0x01C00002)
    by (right; lia).
  split; [exact H|].
  now rewrite (@key_outside_the_band_is_refused Ref.env 0x01C00002 Runs.hello
                 None Ref.factory H).
Defined.

(** X5. A key that the device already lists is refused.  For a key in the
    band, a value within the two limits and a device that lists the key,
    [tpm_write] fails at sanity check 3 after its two queries (the limits,
    then the list) and nothing else: no define, no write. *)
Theorem listed_key_is_refused (E : Env) key value pwd d hw bmax imax c :
  0x01800000 <= key <= 0x01BFFFFF ->
  res (tmp_get_hardware_info E d) = Ok hw ->
  device_limit hw "TPM2_PT_NV_BUFFER_MAX" = Some bmax ->
  device_limit hw "TPM2_PT_NV_INDEX_MAX" = Some imax ->
  len value <= bmax -> len value <= imax ->
  let d1 := dev (tmp_get_hardware_info E d) in
  res (tpm_get_nv_indices E d1) = Ok c ->
  py_in (PyInt key) c = Ok true ->
  res (tpm_write E key value pwd d) = Raise (AssertionError KeyUnused)
  /\ trace (tpm_write E key value pwd d)
     = [Ran limits_command None (fst (spawn E limits_command None d));
        Ran list_command None (fst (spawn E list_command None d1))].
Proof.
  intros Hkey Hhw Hb Hi Hlb Hli d1 Hl Hin.
  pose proof (@sanity_checks_run E key value pwd d hw bmax imax c
                Hkey Hhw Hb Hi Hlb Hli Hl) as Hs.
  rewrite Hin in Hs.
  rewrite (@tpm_write_fails_in_checks E key value pwd d
             (AssertionError KeyUnused)) by now rewrite Hs.
  rewrite Hs. cbn [res trace]. split; [reflexivity|].
  now rewrite tmp_get_hardware_info_trace, tpm_get_nv_indices_trace.
Qed.

Lemma listed_key_is_refused_witness :
  res (tpm_write Ref.env 0x01800000 Runs.hello None Runs.with_hello)
  = Raise (AssertionError KeyUnused)
  /\ map command_of
       (trace (tpm_write Ref.env 0x01800000 Runs.hello None Runs.with_hello))
     = [limits_command; list_command].
Proof.
  destruct (@listed_key_is_refused Ref.env 0x01800000 Runs.hello None
              Runs.with_hello Runs.limits 0x800 0x800 More.listing_hello)
    as [H1 H2]; try (vm_compute; reflexivity); try lia;
    try (vm_compute; discriminate).
  split; [exact H1|]. rewrite H2. reflexivity.
Defined.

(** X6. The length of the password is checked last and only for a
    password that is not empty.  For a key in the band that the device does
    not list and a value within the limits: a password of one to four
    characters makes [tpm_write] fail at sanity check 4 after its two
    queries; with a password of five characters or more, or with none, the
    next command is the define, which carries [-p] and the password exactly
    when there is one. *)
Theorem password_is_checked_last (E : Env) key value pwd d hw bmax imax c :
  0x01800000 <= key <= 0x01BFFFFF ->
  res (tmp_get_hardware_info E d) = Ok hw ->
  device_limit hw "TPM2_PT_NV_BUFFER_MAX" = Some bmax ->
  device_limit hw "TPM2_PT_NV_INDEX_MAX" = Some imax ->
  len value <= bmax -> len value <= imax ->
  let d1 := dev (tmp_get_hardware_info E d) in
  let queries :=
    [Ran limits_command None (fst (spawn E limits_command None d));
     Ran list_command None (fst (spawn E list_command None d1))] in
  res (tpm_get_nv_indices E d1) = Ok c ->
  py_in (PyInt key) c = Ok false ->
  match truthy pwd with
  | Some p =>
      if 5 <=? len p then
        exists oc rest,
          trace (tpm_write E key value pwd d)
          = queries
            ++ Ran [py "tpm2_nvdefine"; py "-C"; py "o"; py "-s";
                    str_int (len value); py "-a";
                    py "authread|authwrite|no_da|orderly"; py "-p"; p;
                    py "0x" ++ format_x key] None oc :: rest
      else
        res (tpm_write E key value pwd d)
        = Raise (AssertionError PasswordLength)
        /\ trace (tpm_write E key value pwd d) = queries
  | None =>
      exists oc rest,
        trace (tpm_write E key value pwd d)
        = queries
          ++ Ran [py "tpm2_nvdefine"; py "-C"; py "o"; py "-s";
                  str_int (len value); py "-a";
                  py "authread|authwrite|no_da|orderly";
                  py "0x" ++ format_x key] None oc :: rest
  end.
Proof.
  intros Hkey Hhw Hb Hi Hlb Hli d1 queries Hl Hin.
  pose proof (@sanity_checks_run E key value pwd d hw bmax imax c
                Hkey Hhw Hb Hi Hlb Hli Hl) as Hs.
  rewrite Hin in Hs.
  assert (Hq : trace (tmp_get_hardware_info E d)
               ++ trace (tpm_get_nv_indices E d1) = queries).
  { now rewrite tmp_get_hardware_info_trace, tpm_get_nv_indices_trace. }
  fold d1 in Hs. rewrite Hq in Hs.
  destruct (truthy pwd) as [p|] eqn:Hp.
  - destruct (5 <=? len p) eqn:Hlen.
    + destruct (@tpm_write_after_checks E key value pwd d) as (oc & rest & Ht);
        [now rewrite Hs|].
      rewrite Hs in Ht. cbn [trace] in Ht.
      unfold nvdefine_command in Ht. rewrite Hp in Ht. eauto.
    + rewrite (@tpm_write_fails_in_checks E key value pwd d
                 (AssertionError PasswordLength)) by now rewrite Hs.
      rewrite Hs. now split.
  - destruct (@tpm_write_after_checks E key value pwd d) as (oc & rest & Ht);
      [now rewrite Hs|].
    rewrite Hs in Ht. cbn [trace] in Ht.
    unfold nvdefine_command in Ht. rewrite Hp in Ht. eauto.
Qed.

Lemma password_is_checked_last_witness :
  res (tpm_write Ref.env 0x01800005 Runs.hello (Some (py "abcd"))
         Runs.with_hello)
  = Raise (AssertionError PasswordLength)
  /\ map command_of
       (trace (tpm_write Ref.env 0x01800005 Runs.hello (Some (py "abcd"))
                 Runs.with_hello))
     = [limits_command; list_command].
Proof.
  pose proof (@password_is_checked_last Ref.env 0x01800005 Runs.hello
                (Some (py "abcd")) Runs.with_hello Runs.limits 0x800 0x800
                More.listing_hello) as H.
  cbv zeta in H. change (truthy (Some (py "abcd"))) with (Some (py "abcd")) in H.
  change (5 <=? len (py "abcd")) with false in H. cbv iota in H.
  destruct H as [H1 H2]; try (vm_compute; reflexivity); try lia;
    try (vm_compute; discriminate).
  split; [exact H1|]. rewrite H2. reflexivity.
Defined.

(** X7. On a device that lists no index at all the list command prints
    nothing, [tpm_get_nv_indices] returns [None], and every membership test
    on it raises [TypeError]: [tpm_get_nv_index_metadata], [tpm_read_nvm] and
    [tpm_delete_index] fail with [TypeError] instead of their own assertion,
    after that one command. *)
Theorem empty_list_is_none (E : Env) index pwd d out s :
  fst (spawn E list_command None d) = Exited 0 out [] ->
  decode_text out = Some s ->
  strip s = [] ->
  res (tpm_get_nv_indices E d) = Ok PyNone
  /\ res (tpm_get_nv_index_metadata E index d) = Raise TypeError
  /\ res (tpm_read_nvm E index pwd d) = Raise TypeError
  /\ tpm_delete_index E index d
     = Outcome (Raise TypeError) (snd (spawn E list_command None d))
         [Ran list_command None (Exited 0 out [])].
Proof.
  intros Hrun Hd Hs.
  pose proof (@tpm_get_nv_indices_blank E d out s Hrun Hd Hs) as Hl.
  assert (Hm : res (tpm_get_nv_index_metadata E index d) = Raise TypeError).
  { unfold tpm_get_nv_index_metadata. rewrite bind_run, Hl. reflexivity. }
  split; [now rewrite Hl|]. split; [exact Hm|]. split.
  - unfold tpm_read_nvm. rewrite bind_run, Hm. reflexivity.
  - unfold tpm_delete_index. rewrite bind_run, Hl. reflexivity.
Qed.

Lemma empty_list_is_none_witness :
  fst (spawn Ref.env list_command None More.bare) = Exited 0 [] []
  /\ res (tpm_get_nv_indices Ref.env More.bare) = Ok PyNone
  /\ res (tpm_read_nvm Ref.env 0x01800000 None More.bare) = Raise TypeError
  /\ res (tpm_delete_index Ref.env 0x01800000 More.bare) = Raise TypeError.
Proof.
  assert (H : fst (spawn Ref.env list_command None More.bare) = Exited 0 [] [])
    by (vm_compute; reflexivity).
  split; [exact H|].
  destruct (@empty_list_is_none Ref.env 0x01800000 None More.bare [] [] H
              eq_refl eq_refl) as (H1 & _ & H3 & H4).
  split; [exact H1|]. split; [exact H3|]. now rewrite H4.
Defined.

(** X8. The first write on a device that lists no index fails: for a key
    in the band and a value within the limits, [tpm_write] raises [TypeError]
    at its membership test, after the two queries and before any define. *)
Theorem first_write_on_an_empty_device (E : Env) key value pwd d
  hw bmax imax out s :
  0x01800000 <= key <= 0x01BFFFFF ->
  res (tmp_get_hardware_info E d) = Ok hw ->
  device_limit hw "TPM2_PT_NV_BUFFER_MAX" = Some bmax ->
  device_limit hw "TPM2_PT_NV_INDEX_MAX" = Some imax ->
  len value <= bmax -> len value <= imax ->
  let d1 := dev (tmp_get_hardware_info E d) in
  fst (spawn E list_command None d1) = Exited 0 out [] ->
  decode_text out = Some s ->
  strip s = [] ->
  res (tpm_write E key value pwd d) = Raise TypeError
  /\ trace (tpm_write E key value pwd d)
     = [Ran limits_command None (fst (spawn E limits_command None d));
        Ran list_command None (Exited 0 out [])].
Proof.
  intros Hkey Hhw Hb Hi Hlb Hli d1 Hrun Hd Hs.
  assert (Hl : res (tpm_get_nv_indices E d1) = Ok PyNone)
    by now rewrite (@tpm_get_nv_indices_blank E d1 out s Hrun Hd Hs).
  pose proof (@sanity_checks_run E key value pwd d hw bmax imax PyNone
                Hkey Hhw Hb Hi Hlb Hli Hl) as Hc.
  simpl py_in in Hc.
  rewrite (@tpm_write_fails_in_checks E key value pwd d TypeError)
    by now rewrite Hc.
  rewrite Hc. cbn [res trace]. split; [reflexivity|].
  rewrite tmp_get_hardware_info_trace, tpm_get_nv_indices_trace.
  fold d1. now rewrite Hrun.
Qed.

Lemma first_write_on_an_empty_device_witness :
  res (tpm_write Ref.env 0x01800000 Runs.hello None More.bare)
  = Raise TypeError
  /\ map command_of
       (trace (tpm_write Ref.env 0x01800000 Runs.hello None More.bare))
     = [limits_command; list_command].
Proof.
  destruct (@first_write_on_an_empty_device Ref.env 0x01800000 Runs.hello
              None More.bare Runs.limits 0x800 0x800 [] [])
    as [H1 H2]; try (vm_compute; reflexivity); try lia;
    try (vm_compute; discriminate).
  split; [exact H1|]. rewrite H2. reflexivity.
Defined.

Section Reading.
Variable E : Env.

Lemma tpm_get_nv_index_metadata_run index d c :
res (tpm_get_nv_indices E d) = Ok c ->
let d1 := dev (tpm_get_nv_indices E d) in
let listed := Ran list_command None (fst (spawn E list_command None d)) in
let public := [py "tpm2_nvreadpublic"; str_int index] in
tpm_get_nv_index_metadata E index d =
match py_in (PyInt index) c with
| Raise e => Outcome (Raise e) d1 [listed]
| Ok false => Outcome (Raise (AssertionError IndexExists)) d1 [listed]
| Ok true =>
    Outcome (report E public (fst (spawn E public None d1)))
      (snd (spawn E public None d1))
      [listed; Ran public None (fst (spawn E public None d1))]
end.
Proof.
intros Hl d1 listed public. unfold tpm_get_nv_index_metadata.
rewrite bind_after with (a := c) by exact Hl.
rewrite tpm_get_nv_indices_trace. fold d1 listed.
destruct (py_in (PyInt index) c) as [[|]|e]; try reflexivity.
rewrite bind_lift_ok, bind_assert_true, run_command_yaml_is_report.
reflexivity.
Qed.

(** No line is printed while the metadata is fetched. *)
Lemma metadata_prints_nothing index :
issues (fun ev => negb (is_hint ev)) (tpm_get_nv_index_metadata E index).
Proof. unfold tpm_get_nv_index_metadata. repeat issues_step. Qed.

(** The end of [tpm_read_nvm], from the read command on. *)
Lemma read_command_run command d :
let o := fst (spawn E command None d) in
try_except
  (result <- run_command E command None ;;
   match utf8_decode (stdout result) with
   | Some result_str => ret (Text result_str)
   | None => raise UnicodeDecodeError
   end)
  (fun e => print password_hint ;;; ret (ExceptionObject e)) d
= match o with
  | Exited rc out err =>
      if rc =? 0 then
        match utf8_decode out with
        | Some s => Outcome (Ok (Text s)) (snd (spawn E command None d))
                      [Ran command None o]
        | None => Outcome (Ok (ExceptionObject UnicodeDecodeError))
                    (snd (spawn E command None d))
                    [Ran command None o; Printed password_hint]
        end
      else Outcome (Raise (SystemExit (CommandFailed command rc out err)))
             (snd (spawn E command None d)) [Ran command None o]
  | NotStarted =>
      Outcome (Ok (ExceptionObject AttributeError))
        (snd (spawn E command None d))
        [Ran command None o; Printed password_hint]
  end.
Proof.
unfold try_except, run_command, bind, subprocess.
destruct (spawn E command None d) as [[rc out err|] d']; simpl.
- destruct (rc =? 0); simpl; [|reflexivity].
  destruct (utf8_decode out); reflexivity.
- reflexivity.
Qed.

Lemma tpm_read_nvm_unfold index pwd d :
tpm_read_nvm E index pwd d =
bind (tpm_get_nv_index_metadata E index)
  (fun nv_index =>
     entry <- lift (py_get nv_index (PyInt index)) ;;
     nvm_length <- lift (py_get entry (PyStr (py "size"))) ;;
     try_except
       (result <- run_command E (nvread_command E index nvm_length pwd)
                    None ;;
        match utf8_decode (stdout result) with
        | Some result_str => ret (Text result_str)
        | None => raise UnicodeDecodeError
        end)
       (fun e => print password_hint ;;; ret (ExceptionObject e))) d.
Proof. reflexivity. Qed.

(** The hint about the password and the exception object go together, and
  only an output that is not UTF-8 or a program that did not start lead to
  them. *)
Lemma hint_cases index pwd d :
let o := tpm_read_nvm E index pwd d in
(existsb is_hint (trace o) = true /\
 (res o = Ok (ExceptionObject UnicodeDecodeError)
  \/ res o = Ok (ExceptionObject AttributeError)))
\/ (existsb is_hint (trace o) = false /\
    forall e, res o <> Ok (ExceptionObject e)).
Proof.
intros o. subst o. rewrite tpm_read_nvm_unfold, bind_run.
pose proof (metadata_prints_nothing index d) as Hm.
assert (Hno : existsb is_hint (trace (tpm_get_nv_index_metadata E index d))
              = false).
{ induction (trace (tpm_get_nv_index_metadata E index d)) as [|ev tr IH];
    [reflexivity|].
  simpl in *. apply andb_true_iff in Hm. destruct Hm as [Hev Hm].
  apply negb_true_iff in Hev. rewrite Hev. now apply IH. }
destruct (res (tpm_get_nv_index_metadata E index d)) as [nv_index|e];
  cbn [res trace].
2:{ right. split; [exact Hno|]. discriminate. }
cbv zeta. rewrite existsb_app, Hno. cbn [orb].
destruct (py_get nv_index (PyInt index)) as [entry|e].
2:{ right. split; [reflexivity|]. discriminate. }
rewrite bind_lift_ok.
destruct (py_get entry (PyStr (py "size"))) as [size|e].
2:{ right. split; [reflexivity|]. discriminate. }
rewrite bind_lift_ok, read_command_run. cbv zeta.
destruct (fst (spawn E _ None _)) as [rc out err|].
- destruct (rc =? 0).
  + destruct (utf8_decode out).
    * right. split; [reflexivity|]. discriminate.
    * left. split; [reflexivity|]. now left.
  + right. split; [reflexivity|]. discriminate.
- left. split; [reflexivity|]. now right.
Qed.
End Reading.

(** X9. In [tpm_read_nvm] the [except] branch is not the one a wrong
    password takes.  In every run, the line "Failed to read value. Have you
    not provided the correct required password?" is printed exactly when the
    function returns an exception object instead of a text, and that object
    is a [UnicodeDecodeError] (the command exited with 0 and its output is
    not UTF-8) or an [AttributeError] (the program could not be started).  A
    run that ends in an exception, as a failed read command does with
    [SystemExit], has not printed the line. *)
Theorem hint_is_not_for_a_failed_read (E : Env) index pwd d :
  let o := tpm_read_nvm E index pwd d in
  (existsb is_hint (trace o) = true
   <-> exists e, res o = Ok (ExceptionObject e))
  /\ (forall e, res o = Ok (ExceptionObject e) ->
        e = UnicodeDecodeError \/ e = AttributeError)
  /\ (forall e, res o = Raise e -> existsb is_hint (trace o) = false).
Proof.
  intros o. destruct (hint_cases E index pwd d) as [[Hh Hr]|[Hh Hr]];
    fold o in Hh, Hr.
  - split; [|split].
    + split; [|intros _; exact Hh].
      intros _. destruct Hr as [Hr|Hr]; eauto.
    + intros e He. destruct Hr as [Hr|Hr]; rewrite Hr in He;
        inversion He; auto.
    + intros e He. destruct Hr as [Hr|Hr]; rewrite Hr in He; discriminate.
  - split; [|split].
    + split.
      * rewrite Hh. discriminate.
      * intros [e He]. now apply Hr in He.
    + intros e He. now apply Hr in He.
    + intros e _. exact Hh.
Qed.

Lemma hint_is_not_for_a_failed_read_witness :
  res (tpm_read_nvm Ref.env 0x01C00002 None Ref.factory)
  = Ok (ExceptionObject UnicodeDecodeError)
  /\ existsb is_hint (trace (tpm_read_nvm Ref.env 0x01C00002 None Ref.factory))
     = true
  /\ existsb is_hint
       (trace (tpm_read_nvm Ref.env 0x01800001 None Runs.with_secret))
     = false.
Proof.
  assert (H : res (tpm_read_nvm Ref.env 0x01C00002 None Ref.factory)
              = Ok (ExceptionObject UnicodeDecodeError))
    by (vm_compute; reflexivity).
  split; [exact H|]. split.
  - apply (@hint_is_not_for_a_failed_read Ref.env 0x01C00002 None Ref.factory).
    eauto.
  - destruct (@hint_is_not_for_a_failed_read Ref.env 0x01800001 None
                Runs.with_secret) as (_ & _ & H3).
    eapply H3. vm_compute. reflexivity.
Defined.

(** X10. Reading changes nothing and can be repeated: [tpm_read_nvm]
    issues no define, write or undefine; on a device whose queries are pure
    it leaves the device as it was, and a second read of the same index with
    the same password ends exactly as the first, result and commands
    alike. *)
Theorem reading_is_repeatable (E : Env) index pwd d :
  queries_are_pure E ->
  let o := tpm_read_nvm E index pwd d in
  changes (trace o) = []
  /\ dev o = d
  /\ tpm_read_nvm E index pwd (dev o) = o.
Proof.
  intros Hp o. split; [|split].
  - apply readonly_changes. apply readonly_tpm_read_nvm.
  - now apply tpm_read_nvm_keeps.
  - unfold o at 1. now rewrite tpm_read_nvm_keeps.
Qed.

Lemma reading_is_repeatable_witness :
  queries_are_pure Ref.env
  /\ res (tpm_read_nvm Ref.env 0x01800000 None
            (dev (tpm_read_nvm Ref.env 0x01800000 None Runs.with_hello)))
     = Ok (Text Runs.hello).
Proof.
  split; [exact reference_queries_are_pure|].
  destruct (@reading_is_repeatable Ref.env 0x01800000 None Runs.with_hello
              reference_queries_are_pure) as (_ & _ & H).
  rewrite H. vm_compute. reflexivity.
Defined.

(** X11. An index that the device does not list is not read: when the list
    of the indices does not hold the index, [tpm_get_nv_index_metadata] and
    [tpm_read_nvm] fail with the [AssertionError] of line 153 after the list
    command alone; neither [tpm2_nvreadpublic] nor [tpm2_nvread] is
    issued. *)
Theorem unlisted_index_is_not_read (E : Env) index pwd d c :
  res (tpm_get_nv_indices E d) = Ok c ->
  py_in (PyInt index) c = Ok false ->
  let failed :=
    Outcome (Raise (AssertionError IndexExists))
      (dev (tpm_get_nv_indices E d))
      [Ran list_command None (fst (spawn E list_command None d))] in
  tpm_get_nv_index_metadata E index d = failed
  /\ res (tpm_read_nvm E index pwd d) = Raise (AssertionError IndexExists)
  /\ trace (tpm_read_nvm E index pwd d)
     = [Ran list_command None (fst (spawn E list_command None d))].
Proof.
  intros Hl Hin failed.
  assert (Hm : tpm_get_nv_index_metadata E index d = failed).
  { rewrite (@tpm_get_nv_index_metadata_run E index d c Hl). cbv zeta.
    now rewrite Hin. }
  split; [exact Hm|].
  rewrite tpm_read_nvm_unfold, bind_run, Hm. now split.
Qed.

Lemma unlisted_index_is_not_read_witness :
  res (tpm_get_nv_indices Ref.env Ref.factory) = Ok More.listing_factory
  /\ py_in (PyInt 0x01800000) More.listing_factory = Ok false
  /\ res (tpm_read_nvm Ref.env 0x01800000 None Ref.factory)
     = Raise (AssertionError IndexExists)
  /\ map command_of (trace (tpm_read_nvm Ref.env 0x01800000 None Ref.factory))
     = [list_command].
Proof.
  assert (H1 : res (tpm_get_nv_indices Ref.env Ref.factory)
               = Ok More.listing_factory) by (vm_compute; reflexivity).
  assert (H2 : py_in (PyInt 0x01800000) More.listing_factory = Ok false)
    by (vm_compute; reflexivity).
  split; [exact H1|]. split; [exact H2|].
  destruct (@unlisted_index_is_not_read Ref.env 0x01800000 None Ref.factory
              More.listing_factory H1 H2) as (_ & H3 & H4).
  split; [exact H3|]. now rewrite H4.
Defined.

(** X12. The size goes to the read command in hexadecimal.  The metadata
    comes through [hexify], so a size that the report gives as an integer
    [n] is a [HexInt], and [str] of a [HexInt] is its [repr]: the argument
    after [-s] is [hex(n)], not the decimal that the report showed. *)
Theorem size_is_passed_in_hex (E : Env) index pwd d nv_index size n :
  res (tpm_get_nv_index_metadata E index d) = Ok nv_index ->
  declared_size nv_index index = Some size ->
  as_int size = Some n ->
  is_bool size = false ->
  size = PyHexInt n
  /\ nvread_command E index size pwd
     = [py "tpm2_nvread"; py "-C"; str_int index; py "-s"; hex n;
        str_int index]
       ++ match truthy pwd with
          | Some p => [py "-P"; p]
          | None => []
          end.
Proof.
  intros Hmd Hsize Hn Hb.
  apply tpm_get_nv_index_metadata_hexed in Hmd.
  unfold declared_size in Hsize.
  destruct (py_get nv_index (PyInt index)) as [entry|] eqn:He;
    [|discriminate].
  destruct (py_get entry (PyStr (py "size"))) as [v|] eqn:Hv;
    [|discriminate].
  inversion Hsize; subst v.
  apply (hexed_py_get _ _ Hmd) in He. apply (hexed_py_get _ _ He) in Hv.
  assert (Hs : size = PyHexInt n) by now apply hexed_int.
  split; [exact Hs|]. now subst size.
Qed.

Lemma size_is_passed_in_hex_witness :
  res (tpm_get_nv_index_metadata Ref.env 0x01800000 Runs.with_hello)
  = Ok Runs.metadata_hello
  /\ nvread_command Ref.env 0x01800000 (PyHexInt 11) None
     = [py "tpm2_nvread"; py "-C"; py "25165824"; py "-s"; py "0xb";
        py "25165824"].
Proof.
  assert (H : res (tpm_get_nv_index_metadata Ref.env 0x01800000
                     Runs.with_hello) = Ok Runs.metadata_hello)
    by (vm_compute; reflexivity).
  split; [exact H|].
  assert (Hs : declared_size Runs.metadata_hello 0x01800000
               = Some (PyHexInt 11)) by reflexivity.
  destruct (@size_is_passed_in_hex Ref.env 0x01800000 None Runs.with_hello
              Runs.metadata_hello (PyHexInt 11) 11 H Hs eq_refl eq_refl)
    as [_ H2].
  rewrite H2. reflexivity.
Defined.

(** X13. [tpm_delete_index] is guarded by the list of the device and by
    nothing else.  A key that the list does not hold is refused with the
    [AssertionError] of line 244 after the list command alone.  A key that
    the list holds is undefined whatever its value, inside the band of the
    user or not: the second command is [tpm2_nvundefine -C o 0x<key>]; if it
    exits with 0 the success line is printed and the call returns without
    any further command, and if it fails the call ends in [SystemExit]. *)
Theorem delete_is_guarded_by_the_list_alone (E : Env) key d c :
  res (tpm_get_nv_indices E d) = Ok c ->
  let d1 := dev (tpm_get_nv_indices E d) in
  let listed := Ran list_command None (fst (spawn E list_command None d)) in
  let undefine := Runs.nvundefine_command key in
  let o := fst (spawn E undefine None d1) in
  (py_in (PyInt key) c = Ok false ->
   tpm_delete_index E key d
   = Outcome (Raise (AssertionError KeyExists)) d1 [listed])
  /\ (py_in (PyInt key) c = Ok true ->
      dev (tpm_delete_index E key d) = snd (spawn E undefine None d1)
      /\ match o with
         | Exited rc out err =>
             if rc =? 0 then
               res (tpm_delete_index E key d) = Ok tt
               /\ trace (tpm_delete_index E key d)
                  = [listed; Ran undefine None o;
                     Printed (py "Successfully deleted nv-index 0x"
                              ++ format_x key)]
             else
               res (tpm_delete_index E key d)
               = Raise (SystemExit (CommandFailed undefine rc out err))
               /\ trace (tpm_delete_index E key d)
                  = [listed; Ran undefine None o]
         | NotStarted =>
             res (tpm_delete_index E key d) = Raise AttributeError
             /\ trace (tpm_delete_index E key d)
                = [listed; Ran undefine None o]
         end).
Proof.
  intros Hl d1 listed undefine o.
  assert (Hd : tpm_delete_index E key d
               = bind (tpm_get_nv_indices E)
                   (fun l => present <- lift (py_in (PyInt key) l) ;;
                             assert present KeyExists ;;;
                             run_command E undefine None ;;;
                             print (py "Successfully deleted nv-index 0x"
                                    ++ format_x key)) d)
    by reflexivity.
  rewrite Hd. rewrite bind_after with (a := c) by exact Hl.
  rewrite tpm_get_nv_indices_trace. fold d1 listed. split.
  - intros Hin. now rewrite Hin.
  - intros Hin. rewrite Hin, bind_lift_ok, bind_assert_true.
    rewrite bind_run, run_command_is_completed. fold o. cbn [res dev trace].
    destruct o as [rc out err|]; simpl; [|now split].
    destruct (rc =? 0); simpl; now split.
Qed.

Lemma delete_is_guarded_by_the_list_alone_witness :
  res (tpm_get_nv_indices Ref.env Ref.factory) = Ok More.listing_factory
  /\ py_in (PyInt 0x01C00002) More.listing_factory = Ok true
  /\ res (tpm_delete_index Ref.env 0x01C00002 Ref.factory) = Ok tt
  /\ map command_of (trace (tpm_delete_index Ref.env 0x01C00002 Ref.factory))
     = [list_command; Runs.nvundefine_command 0x01C00002; []].
Proof.
  assert (H1 : res (tpm_get_nv_indices Ref.env Ref.factory)
               = Ok More.listing_factory) by (vm_compute; reflexivity).
  assert (H2 : py_in (PyInt 0x01C00002) More.listing_factory = Ok true)
    by (vm_compute; reflexivity).
  split; [exact H1|]. split; [exact H2|].
  destruct (@delete_is_guarded_by_the_list_alone Ref.env 0x01C00002
              Ref.factory More.listing_factory H1) as [_ H].
  destruct (H H2) as [_ H3].
  change (fst (spawn Ref.env (Runs.nvundefine_command 0x01C00002) None
                 (dev (tpm_get_nv_indices Ref.env Ref.factory))))
    with (Exited 0 [] []) in H3.
  cbv iota in H3. change (0 =? 0) with true in H3. cbv iota in H3.
  destruct H3 as [H3 H4]. split; [exact H3|]. rewrite H4. reflexivity.
Defined.

Section Staging.
Variable E : Env.

Lemma firstn_min_app (L1 L2 : list (list pystr)) n :
firstn (Nat.min n (List.length L1)) (L1 ++ L2) = firstn n L1.
Proof.
revert n. induction L1 as [|x L1 IH]; intros [|n]; simpl; try reflexivity.
now rewrite IH.
Qed.

Lemma staged_readonly A (m : M E A) : readonly m -> staged [] m.
Proof.
intros Hm d. rewrite (readonly_changes d Hm). split; [now exists O|auto].
Qed.

Lemma staged_bind A B (m : M E A) (k : A -> M E B) L1 L2 L :
staged L1 m -> (forall a, staged L2 (k a)) -> L = L1 ++ L2 ->
staged L (bind m k).
Proof.
intros Hm Hk -> d. rewrite bind_run. destruct (Hm d) as [[n Hn] Hok].
destruct (res (m d)) as [a|e]; cbn [res trace].
- specialize (Hok a eq_refl).
  destruct (Hk a (dev (m d))) as [[n' Hn'] Hok'].
  rewrite changes_app, Hok. split.
  + exists (List.length L1 + n')%nat. rewrite Hn'.
    now rewrite firstn_app_2.
  + intros b Hb. now rewrite (Hok' b Hb).
- split; [|discriminate]. exists (Nat.min n (List.length L1)).
  rewrite Hn. symmetry. apply firstn_min_app.
Qed.

Lemma staged_run_command_yaml command :
(forall o, mutating (Ran command None o) = true) ->
staged [command] (run_command_yaml E command).
Proof.
intros Hc d. rewrite run_command_yaml_trace. unfold changes. simpl.
rewrite Hc. simpl. split; [now exists 1%nat|auto].
Qed.

Lemma staged_run_command command input :
(forall o, mutating (Ran command input o) = true) ->
staged [command] (run_command E command input).
Proof.
intros Hc d. rewrite run_command_is_completed. unfold changes. simpl.
rewrite Hc. simpl. split; [now exists 1%nat|auto].
Qed.

Lemma staged_define_then_write key value pwd :
staged [nvdefine_command key (len value) pwd; nvwrite_command key pwd]
  (define_then_write E key value pwd).
Proof.
unfold define_then_write.
eapply staged_bind;
  [apply staged_run_command_yaml; intros; apply mutating_define
  |intros result|reflexivity].
eapply staged_bind with (L1 := []);
  [apply staged_readonly, readonly_lift|intros echo|reflexivity].
eapply staged_bind with (L1 := []);
  [apply staged_readonly, readonly_assert|intros _|reflexivity].
eapply staged_bind with (L1 := []);
  [apply staged_readonly, readonly_lift|intros input|reflexivity].
apply staged_run_command. intros. apply mutating_write.
Qed.

Lemma staged_tpm_write key value pwd :
staged [nvdefine_command key (len value) pwd; nvwrite_command key pwd]
  (fun d => tpm_write E key value pwd d).
Proof.
intros d. rewrite tpm_write_blocks. revert d.
eapply staged_bind with (L1 := []);
  [apply staged_readonly, readonly_sanity_checks|intros _|reflexivity].
eapply staged_bind with (L2 := []);
  [apply staged_define_then_write|intros _|reflexivity].
apply staged_readonly, readonly_read_back.
Qed.
End Staging.

Section WriteOutcomes.
Variable E : Env.

Lemma report_is_no_assertion command o s :
report E command o <> Raise (AssertionError s).
Proof.
intros H. apply report_raises_exception in H as H'.
unfold report in H. destruct o as [rc out err|]; [|discriminate].
destruct (decode_text out); [|discriminate].
destruct (decode_text err) as [[|c t]|]; try discriminate;
  destruct (negb (rc =? 0)); try discriminate.
destruct (strip p); [discriminate|].
destruct (yaml_safe_load_all E (z :: p0)) as [docs|]; [|discriminate].
destruct (map hexify docs) as [|doc [|doc' docs']]; discriminate.
Qed.

Lemma py_get_is_no_assertion obj key s :
py_get obj key <> Raise (AssertionError s).
Proof.
destruct obj; simpl; try discriminate.
destruct (assoc_find (py_eq key) kv); discriminate.
Qed.

Lemma completed_is_no_assertion command o s :
completed command o <> Raise (AssertionError s).
Proof.
destruct o as [rc out err|]; simpl; [|discriminate].
destruct (rc =? 0); discriminate.
Qed.

Lemma completed_ok command o cp :
completed command o = Ok cp -> o = Exited 0 (stdout cp) (stderr cp).
Proof.
destruct o as [rc out err|]; simpl; [|discriminate].
destruct (Z.eqb_spec rc 0) as [->|]; [|discriminate]. now intros [= <-].
Qed.

(** How far [tpm_write] got when it fails at the echo check or at the
  read-back. *)
Lemma failed_after_define key value pwd d :
let o := tpm_write E key value pwd d in
(res o = Raise (AssertionError DefineEcho) ->
 changes (trace o) = [nvdefine_command key (len value) pwd])
/\ (res o = Raise (AssertionError ReadBack) ->
    changes (trace o)
    = [nvdefine_command key (len value) pwd; nvwrite_command key pwd]).
Proof.
intros o. subst o. rewrite tpm_write_blocks, bind_run.
pose proof (@asserts_sanity_checks E key value pwd d) as Hs.
destruct (res (sanity_checks E key value pwd d)) as [[]|e] eqn:Hres.
2:{ cbn [res]. split; intros [= ->]; specialize (Hs _ eq_refl);
      discriminate. }
cbv zeta. cbn [res trace]. rewrite changes_app.
rewrite (readonly_changes _ (@readonly_sanity_checks E key value pwd)).
cbn [app]. rewrite bind_run, define_then_write_run. cbv zeta.
set (D := nvdefine_command key (len value) pwd).
set (W := nvwrite_command key pwd).
assert (HD : forall o, changes [Ran D None o] = [D]).
{ intros o. unfold changes. simpl. unfold D.
  now rewrite mutating_define. }
destruct (report E D _) as [result|e] eqn:Hrep; cbn [res trace].
2:{ rewrite HD. split; intros [= ->]; [reflexivity|].
    now apply report_is_no_assertion in Hrep. }
destruct (py_get result _) as [echo|e] eqn:Hget; cbn [res trace].
2:{ rewrite HD. split; intros [= ->]; [reflexivity|].
    now apply py_get_is_no_assertion in Hget. }
destruct (py_eq echo (PyInt key)); cbn [res trace].
2:{ rewrite HD. split; [reflexivity|discriminate]. }
destruct (utf8_encode value) as [input|]; cbn [res trace].
2:{ rewrite HD. split; discriminate. }
match goal with
| |- context [completed W ?x] => destruct (completed W x) as [cp|e] eqn:Hc
end; cbn [res trace dev].
2:{ split; intros [= ->]; now apply completed_is_no_assertion in Hc. }
rewrite changes_app.
rewrite (readonly_changes _ (@readonly_read_back E key value pwd)).
rewrite app_nil_r.
assert (HDW : forall o o', changes [Ran D None o; Ran W (Some input) o']
                           = [D; W]).
{ intros o1 o2. unfold changes. simpl. unfold D, W.
  now rewrite mutating_define, mutating_write. }
rewrite HDW. split; [|reflexivity].
intros H. apply (@asserts_read_back E key value pwd) in H. discriminate.
Qed.
End WriteOutcomes.

(** X14. [tpm_write] changes the store in one order only.  In every run
    the commands it issues that change the store are none, or the define
    alone, or the define followed by the write; there is never a second
    define or write and never an undefine.  A run that returns has issued
    both. *)
Theorem write_changes_the_store_in_order (E : Env) key value pwd d :
  let o := tpm_write E key value pwd d in
  let define := nvdefine_command key (len value) pwd in
  let write := nvwrite_command key pwd in
  (changes (trace o) = [] \/ changes (trace o) = [define]
   \/ changes (trace o) = [define; write])
  /\ (res o = Ok tt -> changes (trace o) = [define; write]).
Proof.
  intros o define write.
  destruct (@staged_tpm_write E key value pwd d) as [[n Hn] Hok].
  fold o define write in Hn, Hok. split.
  - rewrite Hn. destruct n as [|[|n]]; simpl; rewrite ?firstn_nil; auto.
  - apply Hok.
Qed.

Lemma write_changes_the_store_in_order_witness :
  res Runs.write_hello = Ok tt
  /\ changes (trace Runs.write_hello)
     = [nvdefine_command 0x01800000 11 None; nvwrite_command 0x01800000 None].
Proof.
  assert (H : res Runs.write_hello = Ok tt) by (vm_compute; reflexivity).
  split; [exact H|].
  destruct (@write_changes_the_store_in_order Ref.env 0x01800000 Runs.hello
              None Ref.factory) as [_ H2].
  exact (H2 H).
Defined.

(** X15. What a failed [tpm_write] leaves behind.  When the call fails at
    the echo check of line 224, the define command is the only change that
    was made: the index exists and nothing was written to it.  When it fails
    at the read-back of line 236, the define and the write were both made.
    In neither case is the index removed. *)
Theorem failed_write_leaves_the_index (E : Env) key value pwd d :
  let o := tpm_write E key value pwd d in
  (res o = Raise (AssertionError DefineEcho) ->
   changes (trace o) = [nvdefine_command key (len value) pwd])
  /\ (res o = Raise (AssertionError ReadBack) ->
      changes (trace o)
      = [nvdefine_command key (len value) pwd; nvwrite_command key pwd]).
Proof. apply failed_after_define. Qed.

Lemma failed_write_leaves_the_index_witness :
  res (tpm_write More.wrong_echo 0x01800000 Runs.hello None Ref.factory)
  = Raise (AssertionError DefineEcho)
  /\ changes
       (trace (tpm_write More.wrong_echo 0x01800000 Runs.hello None
                 Ref.factory))
     = [nvdefine_command 0x01800000 11 None].
Proof.
  assert (H : res (tpm_write More.wrong_echo 0x01800000 Runs.hello None
                     Ref.factory) = Raise (AssertionError DefineEcho))
    by (vm_compute; reflexivity).
  split; [exact H|].
  destruct (@failed_write_leaves_the_index More.wrong_echo 0x01800000
              Runs.hello None Ref.factory) as [H1 _].
  exact (H1 H).
Defined.

(* ================================================================== *)
(** * Characters and bytes *)

Lemma utf8_encode_char_length c bc :
  utf8_encode_char c = Some bc ->
  (1 <= List.length bc)%nat /\ (List.length bc = 1%nat <-> c < 0x80).
Proof.
  intros H. apply utf8_encode_char_shape in H.
  destruct H as (a3 & a2 & a1 & a0 & _ & _ & _ & _ & _ & H).
  destruct H as [[Hc ->]|[[Hc ->]|[(Hc & _ & ->)|[Hc ->]]]]; simpl;
    (split; [lia|split; intros; try lia; try discriminate]).
Qed.

(** The encoding is at least as long as the text, and as long exactly when
    the text is in ASCII. *)
Lemma utf8_encode_length s b :
  utf8_encode s = Some b ->
  len s <= len b /\ (len b = len s <-> ascii_only s = true).
Proof.
  revert b. induction s as [|c s IH]; intros b; simpl.
  - intros [= <-]. now split.
  - destruct (utf8_encode_char c) as [bc|] eqn:Hc; [|discriminate].
    destruct (utf8_encode s) as [bs|] eqn:Hs; [|discriminate].
    intros [= <-]. destruct (IH bs eq_refl) as [Hle Hiff].
    apply utf8_encode_char_length in Hc. destruct Hc as [H1 Hone].
    unfold len in *. rewrite length_app. cbn [List.length].
    split; [lia|]. rewrite andb_true_iff, Z.ltb_lt. split.
    + intros H. split; [apply Hone; lia|apply Hiff; lia].
    + intros [Hc Ha]. apply Hone in Hc. apply Hiff in Ha. lia.
Qed.

Section WriteTrace.
Variable E : Env.

Lemma no_write_in_sanity_checks key value pwd :
issues (fun ev => negb (runs "tpm2_nvwrite" ev))
  (sanity_checks E key value pwd).
Proof. unfold sanity_checks. cbv zeta. repeat issues_step. Qed.

Lemma no_write_in_read_back key value pwd :
issues (fun ev => negb (runs "tpm2_nvwrite" ev))
  (read_back E key value pwd).
Proof. unfold read_back. repeat issues_step. Qed.

Lemma runs_write key pwd input o :
runs "tpm2_nvwrite" (Ran (nvwrite_command key pwd) input o) = true.
Proof. unfold nvwrite_command. destruct (truthy pwd); reflexivity. Qed.

(** The write command of a run of [tpm_write] comes after its define and
  is given the encoded value. *)
Lemma write_event key value pwd d input o4 :
In (Ran (nvwrite_command key pwd) (Some input) o4)
   (trace (tpm_write E key value pwd d)) ->
utf8_encode value = Some input
/\ exists o3,
     In (Ran (nvdefine_command key (len value) pwd) None o3)
        (trace (tpm_write E key value pwd d)).
Proof.
set (ev := Ran (nvwrite_command key pwd) (Some input) o4).
assert (Hev : negb (runs "tpm2_nvwrite" ev) = false)
  by (unfold ev; now rewrite runs_write).
assert (Hnot : forall A (m : M E A) d',
          issues (fun e => negb (runs "tpm2_nvwrite" e)) m ->
          ~ In ev (trace (m d'))).
{ intros A m d' Hm Hin. specialize (Hm d').
  rewrite forallb_forall in Hm. apply Hm in Hin.
  rewrite Hev in Hin. discriminate. }
rewrite tpm_write_blocks, bind_trace. intros Hin.
apply in_app_iff in Hin. destruct Hin as [Hin|Hin].
{ now apply (Hnot _ _ _ (no_write_in_sanity_checks key value pwd)) in Hin. }
destruct (res (sanity_checks E key value pwd d)) as [[]|e]; [|easy].
rewrite bind_trace in Hin. rewrite bind_trace.
rewrite define_then_write_run in Hin |- *. cbv zeta in Hin |- *.
set (D := nvdefine_command key (len value) pwd) in *.
assert (HD : forall o3 rest,
          exists o, In (Ran D None o)
                      (trace (sanity_checks E key value pwd d)
                       ++ (Ran D None o3 :: rest))).
{ intros o3 rest. exists o3. apply in_app_iff. right. now left. }
destruct (report E D _) as [result|e]; cbn [res trace] in Hin |- *.
2:{ rewrite app_nil_r in Hin. destruct Hin as [Hin|[]]. discriminate. }
destruct (py_get result _) as [echo|e]; cbn [res trace] in Hin |- *.
2:{ rewrite app_nil_r in Hin. destruct Hin as [Hin|[]]. discriminate. }
destruct (py_eq echo (PyInt key)); cbn [res trace] in Hin |- *.
2:{ rewrite app_nil_r in Hin. destruct Hin as [Hin|[]]. discriminate. }
destruct (utf8_encode value) as [input'|]; cbn [res trace] in Hin |- *.
2:{ rewrite app_nil_r in Hin. destruct Hin as [Hin|[]]. discriminate. }
apply in_app_iff in Hin. destruct Hin as [Hin|Hin].
- destruct Hin as [Hin|[Hin|[]]]; [discriminate|].
  inversion Hin; subst. split; [reflexivity|]. apply HD.
- exfalso.
  match type of Hin with
  | In _ (match ?r with _ => _ end) => destruct r; [|easy]
  end.
  now apply (Hnot _ _ _ (no_write_in_read_back key value pwd)) in Hin.
Qed.
End WriteTrace.

(** X16. [tpm_write] defines the index by the number of characters and
    writes the number of bytes.  In every run in which the write command is
    issued, a define command with [-s len(value)] was issued before it and
    the write is given the UTF-8 encoding of the value, which is never
    shorter than [len(value)] and is exactly as long only when every
    character of the value is in ASCII: with any other character the write
    is given more bytes than the index was defined with. *)
Theorem index_is_sized_in_characters (E : Env) key value pwd d input o4 :
  In (Ran (nvwrite_command key pwd) (Some input) o4)
     (trace (tpm_write E key value pwd d)) ->
  utf8_encode value = Some input
  /\ (exists o3,
        In (Ran (nvdefine_command key (len value) pwd) None o3)
           (trace (tpm_write E key value pwd d)))
  /\ In (str_int (len value)) (nvdefine_command key (len value) pwd)
  /\ len value <= len input
  /\ (len input = len value <-> ascii_only value = true).
Proof.
  intros Hin. apply write_event in Hin. destruct Hin as [Henc Hdef].
  destruct (utf8_encode_length _ Henc) as [Hle Hiff].
  repeat (split; [assumption|]). split; [|now split].
  unfold nvdefine_command. destruct (truthy pwd); simpl; tauto.
Qed.

Lemma index_is_sized_in_characters_witness :
  In (Ran (nvwrite_command 0x01800002 None) (Some [99; 97; 102; 195; 169])
        (Exited 1 []
           (py "ERROR: The starting offset and specified size exceed NV index size")))
     (trace (tpm_write Ref.env 0x01800002 More.cafe None Ref.factory))
  /\ len More.cafe = 4
  /\ len [99; 97; 102; 195; 169] = 5
  /\ ascii_only More.cafe = false.
Proof.
  assert (H : In (Ran (nvwrite_command 0x01800002 None)
                    (Some [99; 97; 102; 195; 169])
                    (Exited 1 []
                       (py "ERROR: The starting offset and specified size exceed NV index size")))
                (trace (tpm_write Ref.env 0x01800002 More.cafe None
                          Ref.factory))).
  { vm_compute. right. right. right. left. reflexivity. }
  split; [exact H|].
  destruct (@index_is_sized_in_characters Ref.env 0x01800002 More.cafe None
              Ref.factory _ _ H) as (_ & _ & _ & Hle & Hiff).
  split; [reflexivity|]. split; [reflexivity|].
  destruct (ascii_only More.cafe) eqn:Ha; [|reflexivity].
  exfalso. destruct Hiff as [_ Hiff]. specialize (Hiff eq_refl).
  vm_compute in Hiff. discriminate.
Defined.

(** One step of a run that returned, through a [lift] or an [assert]:
    nothing is issued and the device stays. *)
Ltac quiet_step :=
  match goal with
  | H : res (bind (lift ?r) _ ?d') = Ok _ |- _ =>
      let T := fresh "T" in
      let L := fresh "L" in
      let L' := fresh "L" in
      apply bind_ok in H; destruct H as (? & L & H & _ & T);
      rewrite T; clear T;
      apply lift_ok in L; destruct L as (_ & L & L');
      rewrite L', L; rewrite L in H; clear L L'; cbv beta in H
  | H : res (bind (assert ?b ?s) _ ?d') = Ok _ |- _ =>
      let T := fresh "T" in
      let L := fresh "L" in
      let L' := fresh "L" in
      apply bind_ok in H; destruct H as (? & L & H & _ & T);
      rewrite T; clear T;
      apply assert_ok in L; destruct L as (_ & L & L');
      rewrite L', L; rewrite L in H; clear L L'; cbv beta in H
  end.

Section Success.
Variable E : Env.

Lemma sanity_checks_ok key value pwd d :
res (sanity_checks E key value pwd d) = Ok tt ->
trace (sanity_checks E key value pwd d)
= [Ran limits_command None (fst (spawn E limits_command None d));
   Ran list_command None
     (fst (spawn E list_command None (dev (tmp_get_hardware_info E d))))]
/\ 0x01800000 <= key <= 0x01BFFFFF.
Proof.
unfold sanity_checks. cbv zeta. intros H.
apply bind_ok in H. destruct H as ([] & Hrange & H & _ & T0).
rewrite T0. clear T0.
apply assert_ok in Hrange. destruct Hrange as (Hkey & Hd0 & ->).
rewrite Hd0 in *. clear Hd0.
apply bind_ok in H. destruct H as (hw & Hhw & H & _ & T1). cbv beta in H.
rewrite T1, tmp_get_hardware_info_trace. clear T1.
set (d1 := dev (tmp_get_hardware_info E d)) in *.
repeat quiet_step.
apply bind_ok in H. destruct H as (c & Hl & H & _ & T2). cbv beta in H.
rewrite T2, tpm_get_nv_indices_trace. clear T2.
repeat quiet_step.
assert (Hp : trace (match truthy pwd with
                    | Some p => assert (5 <=? len p) PasswordLength
                    | None => ret tt
                    end (dev (tpm_get_nv_indices E d1))) = []).
{ destruct (truthy pwd) as [p|]; [|reflexivity].
  apply assert_ok in H. now destruct H as (_ & _ & ->). }
rewrite Hp. simpl. split; [reflexivity|].
apply andb_true_iff in Hkey. destruct Hkey as [H1 H2].
apply Z.leb_le in H1, H2. lia.
Qed.

Lemma define_then_write_ok key value pwd d cp :
res (define_then_write E key value pwd d) = Ok cp ->
exists o3 input,
  utf8_encode value = Some input
  /\ trace (define_then_write E key value pwd d)
     = [Ran (nvdefine_command key (len value) pwd) None o3;
        Ran (nvwrite_command key pwd) (Some input)
          (Exited 0 (stdout cp) (stderr cp))].
Proof.
rewrite define_then_write_run. cbv zeta.
destruct (report E _ _) as [result|e]; [|discriminate].
destruct (py_get result _) as [echo|e]; [|discriminate].
destruct (py_eq echo (PyInt key)); [|discriminate].
destruct (utf8_encode value) as [input|]; [|discriminate].
cbn [res trace]. intros H. apply completed_ok in H. rewrite H.
eauto.
Qed.

Lemma tpm_read_nvm_text index pwd d s :
res (tpm_read_nvm E index pwd d) = Ok (Text s) ->
exists size o6 out err,
  trace (tpm_read_nvm E index pwd d)
  = [Ran list_command None (fst (spawn E list_command None d));
     Ran [py "tpm2_nvreadpublic"; str_int index] None o6;
     Ran (nvread_command E index size pwd) None (Exited 0 out err)]
  /\ utf8_decode out = Some s.
Proof.
rewrite tpm_read_nvm_unfold, bind_run.
destruct (res (tpm_get_nv_indices E d)) as [c|e] eqn:Hl.
2:{ unfold tpm_get_nv_index_metadata. rewrite bind_run, Hl. discriminate. }
rewrite (@tpm_get_nv_index_metadata_run E index d c Hl). cbv zeta.
destruct (py_in (PyInt index) c) as [[|]|e]; try discriminate.
cbn [res dev trace].
destruct (report E _ _) as [nv_index|e]; [|discriminate].
cbv zeta. cbn [res dev trace].
destruct (py_get nv_index (PyInt index)) as [entry|e]; [|discriminate].
rewrite bind_lift_ok.
destruct (py_get entry (PyStr (py "size"))) as [size|e]; [|discriminate].
rewrite bind_lift_ok, read_command_run. cbv zeta.
destruct (fst (spawn E (nvread_command E index size pwd) None _))
  as [rc out err|]; [|discriminate].
destruct (Z.eqb_spec rc 0) as [->|]; [|discriminate].
destruct (utf8_decode out) as [s'|] eqn:Hs; [|discriminate].
cbn [res trace]. intros [= <-]. exists size. do 3 eexists.
split; [reflexivity|exact Hs].
Qed.
End Success.

(** X17. What a [tpm_write] that returns has done: seven commands and one
    line, in this order.  It asked for the limits and for the list, defined
    the index with [len(value)], wrote the encoded value with a command that
    exited with 0, asked for the list and for the metadata of the key, read
    the index with a command that exited with 0, and printed the success
    line.  The bytes that the read command gave are exactly the bytes that
    the write command was given, and the key is in the band. *)
Theorem what_a_successful_write_did (E : Env) key value pwd d :
  res (tpm_write E key value pwd d) = Ok tt ->
  exists o1 o2 o3 input out4 err4 o5 o6 size err7,
    trace (tpm_write E key value pwd d)
    = [Ran limits_command None o1;
       Ran list_command None o2;
       Ran (nvdefine_command key (len value) pwd) None o3;
       Ran (nvwrite_command key pwd) (Some input) (Exited 0 out4 err4);
       Ran list_command None o5;
       Ran [py "tpm2_nvreadpublic"; str_int key] None o6;
       Ran (nvread_command E key size pwd) None (Exited 0 input err7);
       Printed (py "Successfully wrote key value pair.")]
    /\ utf8_encode value = Some input
    /\ 0x01800000 <= key <= 0x01BFFFFF.
Proof.
  rewrite tpm_write_blocks. intros H.
  apply bind_ok in H. destruct H as ([] & Hs & H & _ & T1). cbv beta in H.
  rewrite T1. clear T1.
  apply bind_ok in H. destruct H as (cp & Hw & H & _ & T2). cbv beta in H.
  rewrite T2. clear T2.
  apply sanity_checks_ok in Hs. destruct Hs as [-> Hkey].
  apply define_then_write_ok in Hw.
  destruct Hw as (o3 & input & Henc & ->).
  rewrite read_back_run. rewrite read_back_run in H. cbv zeta in H |- *.
  destruct (res (tpm_read_nvm E key pwd _)) as [got|e] eqn:Hr;
    [|discriminate].
  destruct (read_eq got value) eqn:Hgot; [|discriminate].
  apply read_eq_true in Hgot. subst got.
  apply tpm_read_nvm_text in Hr.
  destruct Hr as (size & o6 & out & err & -> & Hdec).
  apply utf8_encode_decode in Hdec.
  assert (out = input) by congruence. subst out.
  cbn [trace app]. do 10 eexists. split; [reflexivity|]. now split.
Qed.

Lemma what_a_successful_write_did_witness :
  res Runs.write_secret = Ok tt
  /\ List.length (trace Runs.write_secret) = 8%nat
  /\ utf8_encode Runs.hello
     = Some [104; 101; 108; 108; 111; 32; 119; 111; 114; 108; 100].
Proof.
  assert (H : res Runs.write_secret = Ok tt) by (vm_compute; reflexivity).
  split; [exact H|].
  destruct (@what_a_successful_write_did Ref.env 0x01800001 Runs.hello
              Runs.secret Runs.with_hello H)
    as (o1 & o2 & o3 & input & out4 & err4 & o5 & o6 & size & err7 & Ht & _).
  split; [|reflexivity].
  change (trace Runs.write_secret)
    with (trace (tpm_write Ref.env 0x01800001 Runs.hello Runs.secret
                   Runs.with_hello)).
  rewrite Ht. reflexivity.
Defined.

(* ================================================================== *)
(** * The script as a whole *)

Lemma issues_changes (E : Env) A (m : M E A) d :
  issues (fun ev => negb (mutating ev)) m -> changes (trace (m d)) = [].
Proof.
  intros Hm. specialize (Hm d). unfold changes.
  induction (trace (m d)) as [|ev tr IH]; [reflexivity|].
  simpl in *. apply andb_true_iff in Hm. destruct Hm as [Hev Hm].
  apply negb_true_iff in Hev. rewrite Hev. now apply IH.
Qed.

(** X18. Running the script changes nothing on the device: [main] issues
    no define, write or undefine.  It runs [tpm2_getrandom 8]; if that does
    not exit with 0 the script ends in [SystemExit], and if it gives other
    than eight bytes the script fails at the assertion of line 142, in both
    cases without listing anything.  When [main] returns, it has run that
    command, received eight bytes, listed the indices and printed the
    list. *)
Theorem main_only_looks (E : Env) (pformat : pyval -> pystr) d :
  let o := main E pformat d in
  let first := fst (spawn E random_command None d) in
  let d1 := snd (spawn E random_command None d) in
  changes (trace o) = []
  /\ (forall rc out err, first = Exited rc out err -> rc <> 0 ->
        o = Outcome (Raise (SystemExit (CommandFailed random_command rc out err)))
              d1 [Ran random_command None first])
  /\ (forall out err, first = Exited 0 out err -> len out <> 8 ->
        o = Outcome (Raise (AssertionError RandomLength)) d1
              [Ran random_command None first])
  /\ (res o = Ok tt ->
      exists out err l,
        first = Exited 0 out err /\ len out = 8
        /\ res (tpm_get_nv_indices E d1) = Ok l
        /\ trace o
           = [Ran random_command None first;
              Ran list_command None (fst (spawn E list_command None d1));
              Printed (pformat l)]).
Proof.
  intros o first d1.
  assert (Ho : o = bind (run_command E random_command None)
                     (fun result =>
                        assert (len (stdout result) =? 8) RandomLength ;;;
                        nv_indices_list <- tpm_get_nv_indices E ;;
                        print (pformat nv_indices_list)) d).
  { unfold o, main, tpm_sanity_check.
    now rewrite bind_assoc. }
  split; [|split; [|split]].
  - apply issues_changes. unfold main, tpm_sanity_check.
    repeat issues_step.
  - intros rc out err Hf Hrc. rewrite Ho, bind_run.
    rewrite run_command_is_completed. fold first d1. rewrite Hf. simpl.
    destruct (Z.eqb_spec rc 0); [contradiction|reflexivity].
  - intros out err Hf Hlen. rewrite Ho, bind_run.
    rewrite run_command_is_completed. fold first d1. rewrite Hf. simpl.
    destruct (Z.eqb_spec (len out) 8); [contradiction|reflexivity].
  - rewrite Ho, bind_run, run_command_is_completed. fold first d1.
    cbn [res dev trace].
    destruct first as [rc out err|]; cbn [completed]; [|discriminate].
    destruct (Z.eqb_spec rc 0) as [->|]; [|discriminate].
    cbv zeta. cbn [stdout res dev trace].
    destruct (Z.eqb_spec (len out) 8) as [Hlen|]; [|discriminate].
    rewrite bind_assert_true, bind_run, tpm_get_nv_indices_trace.
    destruct (res (tpm_get_nv_indices E d1)) as [l|e] eqn:Hl;
      [|discriminate].
    intros _. exists out, err, l. repeat split; assumption || reflexivity.
Qed.

Lemma main_only_looks_witness :
  res (main Ref.env More.pformat Ref.factory) = Ok tt
  /\ List.length (trace (main Ref.env More.pformat Ref.factory)) = 3%nat
  /\ changes (trace (main Ref.env More.pformat Ref.factory)) = [].
Proof.
  assert (H : res (main Ref.env More.pformat Ref.factory) = Ok tt)
    by (vm_compute; reflexivity).
  split; [exact H|].
  destruct (@main_only_looks Ref.env More.pformat Ref.factory)
    as (H1 & _ & _ & H4).
  destruct (H4 H) as (out & err & l & _ & _ & _ & Ht).
  split; [|exact H1]. rewrite Ht. reflexivity.
Defined.
